(** * zai-proxy: a shallow embedding of the streaming transformation core

    The Go sources embedded here are [internal/models.go] (model-name
    grammar, citation rewrite filter, embedded-block scanners) and the chat
    and Claude handlers of [internal/claude.go] (thinking filter, OpenAI and
    Claude emitters).

    Go strings are byte sequences; they are modelled by [string], whose
    characters are 8-bit [ascii] values, so that [String.length] is Go's
    [len] and a literal such as "【" is its three UTF-8 bytes. *)

From Stdlib Require Import String Ascii ZArith List Lia Bool DecimalString.
From Stdlib Require Import Sorted Permutation.
From stdpp Require Import base option gmap strings.
Import ListNotations.

Open Scope string_scope.

(** stdpp keeps [append] folded; here it computes under [simpl]. *)
#[local] Arguments String.append !_ _ : simpl nomatch.

(** ** Package [strings] and slicing *)

Module GoStrings.

(** [s[n:]] *)
Fixpoint sdrop (n : nat) (s : string) : string :=
  match n, s with
  | O, _ => s
  | S n', String _ s' => sdrop n' s'
  | S _, EmptyString => EmptyString
  end.

(** [s[:n]] *)
Fixpoint stake (n : nat) (s : string) : string :=
  match n, s with
  | O, _ => EmptyString
  | S n', String c s' => String c (stake n' s')
  | S _, EmptyString => EmptyString
  end.

(** When [s] starts with [p], what follows [p]. *)
Fixpoint strip_prefix (p s : string) : option string :=
  match p, s with
  | EmptyString, _ => Some s
  | String a p', String b s' =>
      if Ascii.eqb a b then strip_prefix p' s' else None
  | String _ _, EmptyString => None
  end.

Definition HasPrefix (s p : string) : bool :=
  match strip_prefix p s with Some _ => true | None => false end.

Definition HasSuffix (s p : string) : bool :=
  (String.length p <=? String.length s)%nat
  && String.eqb (sdrop (String.length s - String.length p) s) p.

Definition TrimPrefix (s p : string) : string :=
  match strip_prefix p s with Some r => r | None => s end.

Definition TrimSuffix (s p : string) : string :=
  if HasSuffix s p then stake (String.length s - String.length p) s else s.

(** [strings.Index]; Go's [-1] is [None]. *)
Fixpoint Index_from (i : nat) (s sub : string) : option nat :=
  if HasPrefix s sub then Some i
  else match s with
       | EmptyString => None
       | String _ s' => Index_from (S i) s' sub
       end.

Definition Index (s sub : string) : option nat := Index_from 0 s sub.

Definition Contains (s sub : string) : bool :=
  match Index s sub with Some _ => true | None => false end.

(** Leftmost, non-overlapping replacement of the matches of a pattern.
    [pat s] is the length of the match that starts at the head of [s], if
    there is one; [f] receives the matched text.  This is the behaviour that
    [strings.ReplaceAll] (non-empty [old]) and
    [regexp.ReplaceAllStringFunc] share.  A match is never empty, so
    [String.length s] steps always suffice. *)
Fixpoint replace_matches (pat : string -> option nat) (f : string -> string)
    (fuel : nat) (s : string) : string :=
  match fuel with
  | O => s
  | S fuel' =>
      match s with
      | EmptyString => EmptyString
      | String c s' =>
          match pat s with
          | Some n => f (stake n s) ++ replace_matches pat f fuel' (sdrop n s)
          | None => String c (replace_matches pat f fuel' s')
          end
      end
  end.

Definition literal_at (old : string) (s : string) : option nat :=
  if HasPrefix s old then Some (String.length old) else None.

Definition ReplaceAll (s old new : string) : string :=
  replace_matches (literal_at old) (fun _ => new) (String.length s) s.

(** [strings.TrimSpace]: the white space of [unicode.IsSpace], each rune
    given by its UTF-8 encoding (U+0009..U+000D, U+0020, U+0085, U+00A0,
    U+1680, U+2000..U+200A, U+2028, U+2029, U+202F, U+205F, U+3000). *)
Definition bytes_of (l : list nat) : string :=
  fold_right (fun n s => String (ascii_of_nat n) s) EmptyString l.

Definition unicode_spaces : list string :=
  map bytes_of
    ([[9]; [10]; [11]; [12]; [13]; [32]; [194; 133]; [194; 160];
      [225; 154; 128]]
     ++ map (fun k => [226; 128; 128 + k]) (seq 0 11)
     ++ [[226; 128; 168]; [226; 128; 169]; [226; 128; 175];
         [226; 129; 159]; [227; 128; 128]])%list.

Definition strip_suffix (p s : string) : option string :=
  if HasSuffix s p then Some (stake (String.length s - String.length p) s)
  else None.

Fixpoint first_some {A} (l : list (option A)) : option A :=
  match l with
  | [] => None
  | Some a :: _ => Some a
  | None :: l' => first_some l'
  end.

Fixpoint trim_left (fuel : nat) (s : string) : string :=
  match fuel with
  | O => s
  | S fuel' =>
      match first_some (map (fun w => strip_prefix w s) unicode_spaces) with
      | Some r => trim_left fuel' r
      | None => s
      end
  end.

Fixpoint trim_right (fuel : nat) (s : string) : string :=
  match fuel with
  | O => s
  | S fuel' =>
      match first_some (map (fun w => strip_suffix w s) unicode_spaces) with
      | Some r => trim_right fuel' r
      | None => s
      end
  end.

Definition TrimSpace (s : string) : string :=
  trim_right (String.length s) (trim_left (String.length s) s).

Fixpoint concat_all (l : list string) : string :=
  match l with
  | [] => EmptyString
  | x :: l' => x ++ concat_all l'
  end.

(** The double quote character, as a one-byte string. *)
Definition QUOTE : string := String "034"%char EmptyString.
(** Line feed. *)
Definition LF : string := String "010"%char EmptyString.

(** [fmt.Sprintf("%d", n)] *)
Definition itoa (n : Z) : string := NilZero.string_of_int (Z.to_int n).

End GoStrings.

Import GoStrings.

(** ** models.go *)

(** *** Model-name grammar *)

(** The loop of [ParseModelName]: every turn strips a non-empty suffix, so
    [String.length model] turns are enough. *)
Fixpoint ParseModelName_loop (fuel : nat) (baseModel : string)
    (enableThinking enableSearch : bool) : string * bool * bool :=
  match fuel with
  | O => (baseModel, enableThinking, enableSearch)
  | S fuel' =>
      if HasSuffix baseModel "-thinking" then
        ParseModelName_loop fuel' (TrimSuffix baseModel "-thinking")
          true enableSearch
      else if HasSuffix baseModel "-search" then
        ParseModelName_loop fuel' (TrimSuffix baseModel "-search")
          enableThinking true
      else (baseModel, enableThinking, enableSearch)
  end.

Definition ParseModelName (model : string) : string * bool * bool :=
  ParseModelName_loop (String.length model) model false false.

Definition IsThinkingModel (model : string) : bool :=
  let '(_, enableThinking, _) := ParseModelName model in enableThinking.

Definition IsSearchModel (model : string) : bool :=
  let '(_, _, enableSearch) := ParseModelName model in enableSearch.

Definition BaseModelMapping : gmap string string :=
  list_to_map
    [("GLM-4.5", "0727-360B-API"); ("GLM-4.6", "GLM-4-6-API-V1");
     ("GLM-4.7", "glm-4.7"); ("GLM-4.5-V", "glm-4.5v");
     ("GLM-4.6-V", "glm-4.6v"); ("GLM-4.5-Air", "0727-106B-API");
     ("0808-360B-DR", "0808-360B-DR")].

Definition GetTargetModel (model : string) : string :=
  let '(baseModel, _, _) := ParseModelName model in
  match BaseModelMapping !! baseModel with
  | Some target => target
  | None => model
  end.

(** *** Citation tokens *)

Definition OPEN : string := "【".
Definition CLOSE : string := "】".

Definition is_digit (c : ascii) : bool :=
  let n := nat_of_ascii c in ((48 <=? n)%nat && (n <=? 57)%nat).

(** Greedy [\d*]: how many digits lead [s], and what follows them. *)
Fixpoint span_digits (s : string) : nat * string :=
  match s with
  | String c s' =>
      if is_digit c then let '(n, r) := span_digits s' in (S n, r)
      else (O, s)
  | EmptyString => (O, EmptyString)
  end.

(** [searchRefPattern], 【turn\d+search(\d+)】, matched at the head of [s]:
    the byte length of the match.  The literal after each [\d+] starts with
    a non-digit, so the greedy reading is the only one. *)
Definition searchRefPattern (s : string) : option nat :=
  r1 ← strip_prefix (OPEN ++ "turn") s;
  let '(n1, r2) := span_digits r1 in
  if (n1 =? 0)%nat then None else
  r3 ← strip_prefix "search" r2;
  let '(n2, r4) := span_digits r3 in
  if (n2 =? 0)%nat then None else
  _ ← strip_prefix CLOSE r4;
  Some (String.length (OPEN ++ "turn") + n1 + String.length "search" + n2
        + String.length CLOSE)%nat.

(** A run of optional groups [(l1(l2(...(ln K)?)?)?)?] over a literal
    [lit = l1...ln], anchored at the end of the text: the text ends inside
    the literal, or the literal is complete and [k] accepts the (non-empty)
    rest. *)
Fixpoint lit_then (lit : string) (k : string -> bool) (s : string) : bool :=
  match s with
  | EmptyString => true
  | String c s' =>
      match lit with
      | EmptyString => k s
      | String l lit' => if Ascii.eqb c l then lit_then lit' k s' else false
      end
  end.

Definition all_digits (s : string) : bool :=
  let '(n, r) := span_digits s in negb (n =? 0)%nat && String.eqb r "".

Definition digits_then (k : string -> bool) (s : string) : bool :=
  let '(n, r) := span_digits s in negb (n =? 0)%nat && k r.

(** [searchRefPrefixPattern] with its match starting at the head of [s]:
    【(t(u(r(n(\d+(s(e(a(r(c(h(\d+)?)?)?)?)?)?)?)?)?)?)?)?$ *)
Definition searchRefPrefixPattern_here (s : string) : bool :=
  match strip_prefix OPEN s with
  | Some r => lit_then "turn" (digits_then (lit_then "search" all_digits)) r
  | None => false
  end.

(** [searchRefPrefixPattern.MatchString]: the match may start anywhere. *)
Fixpoint searchRefPrefixPattern (s : string) : bool :=
  searchRefPrefixPattern_here s
  || match s with
     | EmptyString => false
     | String _ s' => searchRefPrefixPattern s'
     end.

Definition ReplaceAllStringFunc (pat : string -> option nat) (s : string)
    (repl : string -> string) : string :=
  replace_matches pat repl (String.length s) s.

(** *** Search results and the citation rewrite filter *)

Record SearchResult := mkSearchResult {
  Title : string;
  URL : string;
  SIndex : Z;
  RefID : string
}.

Definition escapeMarkdownTitle (title : string) : string :=
  let title := ReplaceAll title "\" "\\" in
  let title := ReplaceAll title "[" "\[" in
  ReplaceAll title "]" "\]".

Module SearchRefFilter.

Record t := mk {
  buffer : string;
  searchResults : gmap string SearchResult
}.

Definition AddSearchResults (f : t) (results : list SearchResult) : t :=
  fold_left
    (fun f r =>
       {| buffer := buffer f;
          searchResults := <[RefID r := r]> (searchResults f) |})
    results f.

(** The callback of both [ReplaceAllStringFunc] calls: the identifier is the
    match without its first and last rune (the two brackets, three bytes
    each). *)
Definition resolve_ref (results : gmap string SearchResult)
    (match_ : string) : string :=
  let refID := stake (String.length match_ - 6) (sdrop 3 match_) in
  match results !! refID with
  | Some result => "[\[" ++ itoa (SIndex result) ++ "\]](" ++ URL result ++ ")"
  | None => ""
  end.

(** The loop [for i := 1; i <= maxPrefixLen; i++] of [Process]: the first
    [i] whose suffix matches, if any. *)
Fixpoint first_held_suffix (content : string) (i fuel : nat) : option nat :=
  match fuel with
  | O => None
  | S fuel' =>
      if searchRefPrefixPattern (sdrop (String.length content - i) content)
      then Some i
      else first_held_suffix content (S i) fuel'
  end.

(** The end of [Process]: what is returned of the rewritten content and
    what is kept in the buffer. *)
Definition hold_back (content : string) : string * string :=
  let maxPrefixLen := Nat.min 20 (String.length content) in
  match first_held_suffix content 1 maxPrefixLen with
  | Some i =>
      (stake (String.length content - i) content,
       sdrop (String.length content - i) content)
  | None => (content, "")
  end.

Definition Process (f : t) (content : string) : string * t :=
  let content := buffer f ++ content in
  let f := {| buffer := ""; searchResults := searchResults f |} in
  if String.eqb content "" then ("", f) else
  let content :=
    ReplaceAllStringFunc searchRefPattern content
      (resolve_ref (searchResults f)) in
  if String.eqb content "" then ("", f) else
  let '(out, held) := hold_back content in
  (out, {| buffer := held; searchResults := searchResults f |}).

Definition Flush (f : t) : string * t :=
  let result := buffer f in
  let f := {| buffer := ""; searchResults := searchResults f |} in
  (if String.eqb result "" then result
   else ReplaceAllStringFunc searchRefPattern result
          (resolve_ref (searchResults f)),
   f).

(** The exchange sort of [GetSearchResultsMarkdown], ascending by index:
    the inner loop over [j], then the outer loop over [i]. *)
Fixpoint sort_inner (results : list SearchResult) (i j fuel : nat)
    : list SearchResult :=
  match fuel with
  | O => results
  | S fuel' =>
      let results :=
        match results !! i, results !! j with
        | Some ri, Some rj =>
            if (SIndex ri >? SIndex rj)%Z
            then <[i := rj]> (<[j := ri]> results)
            else results
        | _, _ => results
        end in
      sort_inner results i (S j) fuel'
  end.

Fixpoint sort_outer (results : list SearchResult) (i fuel : nat)
    : list SearchResult :=
  match fuel with
  | O => results
  | S fuel' =>
      sort_outer
        (sort_inner results i (S i) (List.length results - S i)) (S i) fuel'
  end.

(** Go leaves the order in which a map is ranged over unspecified; the
    order of [map_to_list] stands for it. *)
Definition GetSearchResultsMarkdown (f : t) : string :=
  let results := (map_to_list (searchResults f)).*2 in
  match results with
  | [] => ""
  | _ =>
      let results := sort_outer results 0 (List.length results - 1) in
      concat_all
        (map (fun r =>
                "[\[" ++ itoa (SIndex r) ++ "\] " ++ escapeMarkdownTitle (Title r)
                ++ "](" ++ URL r ++ ")" ++ LF) results)
      ++ LF
  end.

End SearchRefFilter.

Definition NewSearchRefFilter : SearchRefFilter.t :=
  {| SearchRefFilter.buffer := ""; SearchRefFilter.searchResults := ∅ |}.

(** *** Embedded blocks *)

Definition IsSearchResultContent (editContent : string) : bool :=
  Contains editContent (QUOTE ++ "search_result" ++ QUOTE).

(** [for startIdx < len(editContent) && editContent[startIdx] != '[']:
    the text from the first '[' on, if there is one. *)
Fixpoint seek_open (s : string) : option string :=
  match s with
  | EmptyString => None
  | String c s' => if Ascii.eqb c "["%char then Some s else seek_open s'
  end.

(** The bracket-counting loop of [ParseSearchResults], run on the text that
    starts at [startIdx]: [endIdx - startIdx] and the final count. *)
Fixpoint scan_search_array (s : string) (bracketCount : Z) (endIdx : nat)
    : nat * Z :=
  match s with
  | EmptyString => (endIdx, bracketCount)
  | String ch s' =>
      if Ascii.eqb ch "["%char then
        scan_search_array s' (bracketCount + 1)%Z (S endIdx)
      else if Ascii.eqb ch "]"%char then
        let bracketCount := (bracketCount - 1)%Z in
        if (bracketCount =? 0)%Z then (S endIdx, bracketCount)
        else scan_search_array s' bracketCount (S endIdx)
      else scan_search_array s' bracketCount (S endIdx)
  end.

(** [ParseSearchResults] up to [jsonStr]; [None] where the code returns
    [nil] before decoding. *)
Definition search_results_json (editContent : string) : option string :=
  let searchResultKey := QUOTE ++ "search_result" ++ QUOTE ++ ":" in
  idx ← Index editContent searchResultKey;
  from ← seek_open (sdrop (idx + String.length searchResultKey) editContent);
  let '(n, bracketCount) := scan_search_array from 0 0 in
  if (bracketCount =? 0)%Z then Some (stake n from) else None.

Definition IsSearchToolCall (editContent phase : string) : bool :=
  if negb (String.eqb phase "tool_call") then false
  else Contains editContent (QUOTE ++ "mcp" ++ QUOTE)
       || Contains editContent "mcp-server".

Record ImageSearchResult := mkImageSearchResult {
  ITitle : string;
  Link : string;
  Thumbnail : string
}.

(** The scanning loop of [ParseImageSearchResults]. *)
Fixpoint scan_image_array (s : string) (bracketCount : Z)
    (inString escapeNext : bool) (endIdx : nat) : nat * Z :=
  match s with
  | EmptyString => (endIdx, bracketCount)
  | String ch s' =>
      if escapeNext then
        scan_image_array s' bracketCount inString false (S endIdx)
      else if Ascii.eqb ch "\"%char then
        scan_image_array s' bracketCount inString true (S endIdx)
      else
        let inString :=
          if Ascii.eqb ch "034"%char then negb inString else inString in
        if negb inString then
          if Ascii.eqb ch "["%char || Ascii.eqb ch "{"%char then
            scan_image_array s' (bracketCount + 1)%Z inString false (S endIdx)
          else if Ascii.eqb ch "]"%char || Ascii.eqb ch "}"%char then
            let bracketCount := (bracketCount - 1)%Z in
            if (bracketCount =? 0)%Z && Ascii.eqb ch "]"%char
            then (S endIdx, bracketCount)
            else scan_image_array s' bracketCount inString false (S endIdx)
          else scan_image_array s' bracketCount inString false (S endIdx)
        else scan_image_array s' bracketCount inString false (S endIdx)
  end.

(** [ParseImageSearchResults] up to [jsonStr]. *)
Definition image_results_json (editContent : string) : option string :=
  let resultKey := QUOTE ++ "result" ++ QUOTE ++ ":" in
  idx ← Index editContent resultKey;
  from ← seek_open (sdrop (idx + String.length resultKey) editContent);
  let '(n, bracketCount) := scan_image_array from 0 false false 0 in
  if (bracketCount =? 0)%Z then Some (stake n from) else None.

Definition parseImageSearchText (text : string) : ImageSearchResult :=
  let title :=
    match Index text "Title: " with
    | Some titleIdx =>
        let titleStart := (titleIdx + String.length "Title: ")%nat in
        match Index (sdrop titleStart text) ";" with
        | Some titleEnd => TrimSpace (stake titleEnd (sdrop titleStart text))
        | None => ""
        end
    | None => ""
    end in
  let link :=
    match Index text "Link: " with
    | Some linkIdx =>
        let linkStart := (linkIdx + String.length "Link: ")%nat in
        match Index (sdrop linkStart text) ";" with
        | Some linkEnd => TrimSpace (stake linkEnd (sdrop linkStart text))
        | None => TrimSpace (sdrop linkStart text)
        end
    | None => ""
    end in
  let thumbnail :=
    match Index text "Thumbnail: " with
    | Some thumbnailIdx =>
        TrimSpace (sdrop (thumbnailIdx + String.length "Thumbnail: ") text)
    | None => ""
    end in
  {| ITitle := title; Link := link; Thumbnail := thumbnail |}.

Definition FormatImageSearchResults (results : list ImageSearchResult)
    : string :=
  match results with
  | [] => ""
  | _ =>
      concat_all
        (map (fun r =>
                let escapedTitle := ReplaceAll (ITitle r) "[" "\[" in
                let escapedTitle := ReplaceAll escapedTitle "]" "\]" in
                LF ++ "![" ++ escapedTitle ++ "](" ++ Link r ++ ")") results)
      ++ LF
  end.

Definition ExtractTextBeforeGlmBlock (editContent : string) : string :=
  match Index editContent "<glm_block" with
  | Some idx =>
      let text := stake idx editContent in
      if HasSuffix text LF then stake (String.length text - 1) text else text
  | None => ""
  end.

(** ** UTF-8: [[]rune(s)] and [string(runes)] *)

Module UTF8.

Definition byte (c : ascii) : Z := Z.of_nat (nat_of_ascii c).
Definition chr (b : Z) : ascii := ascii_of_nat (Z.to_nat b).
Definition RuneError : Z := 65533.

Definition in_range (lo hi b : Z) : bool := ((lo <=? b) && (b <=? hi))%Z.
Definition cont (b : Z) : Z := Z.land b 63.

(** [utf8.DecodeRuneInString]: the rune and its width; an invalid or
    truncated encoding is [RuneError] of width 1. *)
Definition DecodeRuneInString (s : string) : Z * nat :=
  match s with
  | EmptyString => (RuneError, 0%nat)
  | String c0 s1 =>
      let b0 := byte c0 in
      if (b0 <? 128)%Z then (b0, 1%nat)
      else if in_range 194 223 b0 then
        match s1 with
        | String c1 _ =>
            let b1 := byte c1 in
            if in_range 128 191 b1
            then (Z.lor (Z.shiftl (Z.land b0 31) 6) (cont b1), 2%nat)
            else (RuneError, 1%nat)
        | _ => (RuneError, 1%nat)
        end
      else if in_range 224 239 b0 then
        match s1 with
        | String c1 (String c2 _) =>
            let b1 := byte c1 in
            let b2 := byte c2 in
            let lo := if (b0 =? 224)%Z then 160%Z else 128%Z in
            let hi := if (b0 =? 237)%Z then 159%Z else 191%Z in
            if in_range lo hi b1 && in_range 128 191 b2
            then (Z.lor (Z.shiftl (Z.land b0 15) 12)
                    (Z.lor (Z.shiftl (cont b1) 6) (cont b2)), 3%nat)
            else (RuneError, 1%nat)
        | _ => (RuneError, 1%nat)
        end
      else if in_range 240 244 b0 then
        match s1 with
        | String c1 (String c2 (String c3 _)) =>
            let b1 := byte c1 in
            let b2 := byte c2 in
            let b3 := byte c3 in
            let lo := if (b0 =? 240)%Z then 144%Z else 128%Z in
            let hi := if (b0 =? 244)%Z then 143%Z else 191%Z in
            if in_range lo hi b1 && in_range 128 191 b2 && in_range 128 191 b3
            then (Z.lor (Z.shiftl (Z.land b0 7) 18)
                    (Z.lor (Z.shiftl (cont b1) 12)
                       (Z.lor (Z.shiftl (cont b2) 6) (cont b3))), 4%nat)
            else (RuneError, 1%nat)
        | _ => (RuneError, 1%nat)
        end
      else (RuneError, 1%nat)
  end.

Fixpoint runes_fuel (fuel : nat) (s : string) : list Z :=
  match fuel with
  | O => []
  | S fuel' =>
      match s with
      | EmptyString => []
      | _ =>
          let '(r, n) := DecodeRuneInString s in
          r :: runes_fuel fuel' (sdrop n s)
      end
  end.

(** [[]rune(s)] *)
Definition runes (s : string) : list Z := runes_fuel (String.length s) s.

(** [utf8.AppendRune] *)
Definition EncodeRune (r : Z) : string :=
  let tx b := String (chr (Z.lor 128 (Z.land b 63))) EmptyString in
  let three r :=
    String (chr (Z.lor 224 (Z.shiftr r 12))) (tx (Z.shiftr r 6) ++ tx r) in
  if (r <? 0)%Z then three RuneError
  else if (r <? 128)%Z then String (chr r) EmptyString
  else if (r <? 2048)%Z then
    String (chr (Z.lor 192 (Z.shiftr r 6))) (tx r)
  else if in_range 55296 57343 r || (1114111 <? r)%Z then three RuneError
  else if (r <? 65536)%Z then three r
  else
    String (chr (Z.lor 240 (Z.shiftr r 18)))
      (tx (Z.shiftr r 12) ++ tx (Z.shiftr r 6) ++ tx r).

(** [string(runes)] *)
Definition string_of_runes (rs : list Z) : string :=
  concat_all (map EncodeRune rs).

End UTF8.

(** ** The chat and Claude handlers *)

Definition mapClaudeModel (claudeModel : string) : string :=
  if Contains claudeModel "opus" || Contains claudeModel "sonnet"
  then "GLM-4.6" else "GLM-4.5".

(** The flags [makeUpstreamRequest] derives from the model it is given:
    target model, [enable_thinking] and [auto_web_search]. *)
Definition upstream_features (model : string) : string * bool * bool :=
  let targetModel := GetTargetModel model in
  let enableThinking := IsThinkingModel model in
  let autoWebSearch := IsSearchModel model in
  let autoWebSearch :=
    if String.eqb targetModel "glm-4.5v" || String.eqb targetModel "glm-4.6v"
    then false else autoWebSearch in
  (targetModel, enableThinking, autoWebSearch).

(** What [HandleClaudeChatCompletions] asks upstream for a request model. *)
Definition claude_upstream_features (reqModel : string)
    : string * bool * bool :=
  upstream_features (mapClaudeModel reqModel).

Record UpstreamData := mkUpstreamData {
  Type_ : string;
  DeltaContent : string;
  EditContent : string;
  Phase : string;
  Done : bool
}.

(** An element of a decoded [[]map[string]interface{}]: the outcome of the
    two assertions [item["type"].(string)] and [item["text"].(string)]. *)
Record RawItem := mkRawItem {
  item_type : option string;
  item_text : option string
}.

(** [encoding/json] is not part of the repository: the four uses of
    [json.Unmarshal] in the handlers are taken as given, [None] standing for
    a decoding error. *)
Record JSON := mkJSON {
  unmarshal_upstream : string -> option UpstreamData;
  unmarshal_string : string -> option string;
  unmarshal_search_results : string -> option (list SearchResult);
  unmarshal_items : string -> option (list RawItem)
}.

Definition ParseSearchResults (json : JSON) (editContent : string)
    : list SearchResult :=
  match search_results_json editContent with
  | None => []
  | Some jsonStr =>
      match unmarshal_search_results json jsonStr with
      | None => []
      | Some rawResults => rawResults
      end
  end.

Definition ParseImageSearchResults (json : JSON) (editContent : string)
    : list ImageSearchResult :=
  match image_results_json editContent with
  | None => []
  | Some jsonStr =>
      match unmarshal_items json jsonStr with
      | None => []
      | Some rawResults =>
          flat_map
            (fun item =>
               match item_type item, item_text item with
               | Some itemType, Some text =>
                   if String.eqb itemType "text" then
                     let result := parseImageSearchText text in
                     if negb (String.eqb (ITitle result) "")
                        && negb (String.eqb (Link result) "")
                     then [result] else []
                   else []
               | _, _ => []
               end)
            rawResults
      end
  end.

Definition GetEditContent (json : JSON) (u : UpstreamData) : string :=
  let editContent := EditContent u in
  if String.eqb editContent "" then ""
  else if HasPrefix editContent QUOTE then
    match unmarshal_string json editContent with
    | Some unescaped => unescaped
    | None => editContent
    end
  else editContent.

Module ThinkingFilter.

Record t := mk {
  hasSeenFirstThinking : bool;
  buffer : string;
  lastOutputChunk : string;
  lastPhase : string;
  thinkingRoundCount : Z
}.

Definition zero : t :=
  {| hasSeenFirstThinking := false; buffer := ""; lastOutputChunk := "";
     lastPhase := ""; thinkingRoundCount := 0 |}.

Definition set_seen (f : t) : t :=
  {| hasSeenFirstThinking := true; buffer := buffer f;
     lastOutputChunk := lastOutputChunk f; lastPhase := lastPhase f;
     thinkingRoundCount := thinkingRoundCount f |}.

Definition set_buffer (f : t) (b : string) : t :=
  {| hasSeenFirstThinking := hasSeenFirstThinking f; buffer := b;
     lastOutputChunk := lastOutputChunk f; lastPhase := lastPhase f;
     thinkingRoundCount := thinkingRoundCount f |}.

Definition set_lastOutputChunk (f : t) (c : string) : t :=
  {| hasSeenFirstThinking := hasSeenFirstThinking f; buffer := buffer f;
     lastOutputChunk := c; lastPhase := lastPhase f;
     thinkingRoundCount := thinkingRoundCount f |}.

Definition set_lastPhase (f : t) (p : string) : t :=
  {| hasSeenFirstThinking := hasSeenFirstThinking f; buffer := buffer f;
     lastOutputChunk := lastOutputChunk f; lastPhase := p;
     thinkingRoundCount := thinkingRoundCount f |}.

Definition incr_round (f : t) : t :=
  {| hasSeenFirstThinking := hasSeenFirstThinking f; buffer := buffer f;
     lastOutputChunk := lastOutputChunk f; lastPhase := lastPhase f;
     thinkingRoundCount := (thinkingRoundCount f + 1)%Z |}.

(** The end of [ProcessThinking]: what is returned of the normalized
    content and what is kept in the buffer. *)
Definition hold_back (content : string) : string * string :=
  if HasSuffix content (LF ++ ">") then
    (stake (String.length content - 2) content, LF ++ ">")
  else if HasSuffix content LF then
    (stake (String.length content - 1) content, LF)
  else (content, "").

(** [ProcessThinking] after the first-delta test. *)
Definition normalize (f : t) (deltaContent : string) : string * t :=
  let content := buffer f ++ deltaContent in
  let f := set_buffer f "" in
  let content := ReplaceAll content (LF ++ "> ") LF in
  let '(out, held) := hold_back content in
  (out, set_buffer f held).

Definition ProcessThinking (f : t) (deltaContent : string) : string * t :=
  if negb (hasSeenFirstThinking f) then
    let f := set_seen f in
    match Index deltaContent "> " with
    | Some idx => normalize f (sdrop (idx + 2) deltaContent)
    | None => ("", f)
    end
  else normalize f deltaContent.

Definition Flush (f : t) : string * t := (buffer f, set_buffer f "").

(** [None] is the run-time panic of [editContent[startIdx:endIdx]] when the
    first marker comes after the closing tag. *)
Definition ExtractCompleteThinking (editContent : string) : option string :=
  match Index editContent "> " with
  | None => Some ""
  | Some startIdx =>
      let startIdx := (startIdx + 2)%nat in
      match Index editContent (LF ++ "</details>") with
      | None => Some ""
      | Some endIdx =>
          if (endIdx <? startIdx)%nat then None
          else
            let content := sdrop startIdx (stake endIdx editContent) in
            Some (ReplaceAll content (LF ++ "> ") LF)
      end
  end.

Definition ExtractIncrementalThinking (f : t) (editContent : string)
    : option string :=
  completeThinking ← ExtractCompleteThinking editContent;
  if String.eqb completeThinking "" then Some ""
  else if String.eqb (lastOutputChunk f) "" then Some completeThinking
  else
    match Index completeThinking (lastOutputChunk f) with
    | None => Some completeThinking
    | Some idx =>
        Some (sdrop (idx + String.length (lastOutputChunk f)) completeThinking)
    end.

Definition ResetForNewRound (f : t) : t :=
  {| hasSeenFirstThinking := false; buffer := buffer f;
     lastOutputChunk := ""; lastPhase := lastPhase f;
     thinkingRoundCount := thinkingRoundCount f |}.

End ThinkingFilter.

(** One turn of a handler's read loop: go on, leave the loop ([break], or
    the scanner stops), or panic; with the events written during the turn. *)
Inductive Outcome (S E : Type) : Type :=
  | Next (st : S) (out : list E)
  | Stop (st : S) (out : list E)
  | Crash (out : list E).
Arguments Next {S E} st out.
Arguments Stop {S E} st out.
Arguments Crash {S E} out.

(** The read loop: [None] for the final state when a turn panicked. *)
Fixpoint run_loop {S E : Type} (step : S -> string -> Outcome S E)
    (st : S) (lines : list string) : option S * list E :=
  match lines with
  | [] => (Some st, [])
  | line :: lines' =>
      match step st line with
      | Next st' out =>
          let '(r, outs) := run_loop step st' lines' in (r, (out ++ outs)%list)
      | Stop st' out => (Some st', out)
      | Crash out => (None, out)
      end
  end.

(** [scanner.Buffer(make([]byte, 1024*1024), 1024*1024)]: [Scan] fails on a
    line that does not fit the buffer. *)
Definition line_too_long (line : string) : bool :=
  (1048576 <=? Z.of_nat (String.length line))%Z.

Definition nonempty (s : string) : bool := negb (String.eqb s "").

(** *** Claude emitter *)

Inductive ClaudeSSE : Type :=
  | MessageStart (id model : string) (input_tokens output_tokens : Z)
  | ContentBlockStart (index : Z) (block_type text : string)
  | ContentBlockDelta (index : Z) (delta_type text : string)
  | ContentBlockStop (index : Z)
  | MessageDelta (stop_reason : string) (output_tokens : Z)
  | MessageStop.

Record ClaudeState := mkClaudeState {
  c_searchRefFilter : SearchRefFilter.t;
  c_thinkingFilter : ThinkingFilter.t;
  c_pendingSourcesMarkdown : string
}.

Definition text_delta (text : string) : ClaudeSSE :=
  ContentBlockDelta 0 "text_delta" text.

(** The [content] chosen by the Claude handlers for an event; [None] when
    [ExtractCompleteThinking] panics. *)
Definition claude_content (upstream : UpstreamData) : option string :=
  if String.eqb (Phase upstream) "answer" && nonempty (DeltaContent upstream)
  then Some (DeltaContent upstream)
  else if String.eqb (Phase upstream) "answer"
          && nonempty (EditContent upstream) then
    if Contains (EditContent upstream) "</details>" then
      _ ← ThinkingFilter.ExtractCompleteThinking (EditContent upstream);
      match Index (EditContent upstream) ("</details>" ++ LF) with
      | Some idx =>
          Some (sdrop (idx + String.length ("</details>" ++ LF))
                  (EditContent upstream))
      | None => Some ""
      end
    else Some ""
  else if (String.eqb (Phase upstream) "other"
           || String.eqb (Phase upstream) "tool_call")
          && nonempty (EditContent upstream)
  then Some (EditContent upstream)
  else Some "".

Definition claude_stream_step (json : JSON) (st : ClaudeState)
    (line : string) : Outcome ClaudeState ClaudeSSE :=
  if line_too_long line then Stop st [] else
  if negb (HasPrefix line "data: ") then Next st [] else
  let payload := TrimPrefix line "data: " in
  if String.eqb payload "[DONE]" then Stop st [] else
  match unmarshal_upstream json payload with
  | None => Next st []
  | Some upstream =>
      if String.eqb (Phase upstream) "done" then Stop st [] else
      if String.eqb (Phase upstream) "thinking"
         && nonempty (DeltaContent upstream) then
        let '(_, tf) :=
          ThinkingFilter.ProcessThinking (c_thinkingFilter st)
            (DeltaContent upstream) in
        Next {| c_searchRefFilter := c_searchRefFilter st;
                c_thinkingFilter := tf;
                c_pendingSourcesMarkdown := "" |} []
      else if nonempty (EditContent upstream)
              && IsSearchResultContent (EditContent upstream) then
        match ParseSearchResults json (EditContent upstream) with
        | [] => Next st []
        | results =>
            let sf :=
              SearchRefFilter.AddSearchResults (c_searchRefFilter st)
                results in
            Next {| c_searchRefFilter := sf;
                    c_thinkingFilter := c_thinkingFilter st;
                    c_pendingSourcesMarkdown :=
                      SearchRefFilter.GetSearchResultsMarkdown sf |} []
        end
      else if nonempty (EditContent upstream)
              && IsSearchToolCall (EditContent upstream) (Phase upstream)
      then Next st []
      else
        let out :=
          if nonempty (c_pendingSourcesMarkdown st)
          then [text_delta (c_pendingSourcesMarkdown st)] else [] in
        match claude_content upstream with
        | None => Crash out
        | Some content =>
            if String.eqb content "" then
              Next {| c_searchRefFilter := c_searchRefFilter st;
                      c_thinkingFilter := c_thinkingFilter st;
                      c_pendingSourcesMarkdown := "" |} out
            else
              let '(content, sf) :=
                SearchRefFilter.Process (c_searchRefFilter st) content in
              Next {| c_searchRefFilter := sf;
                      c_thinkingFilter := c_thinkingFilter st;
                      c_pendingSourcesMarkdown := "" |}
                (out ++ (if String.eqb content "" then []
                         else [text_delta content]))%list
        end
  end.

Definition claude_initial : ClaudeState :=
  {| c_searchRefFilter := NewSearchRefFilter;
     c_thinkingFilter := ThinkingFilter.zero;
     c_pendingSourcesMarkdown := "" |}.

(** [handleClaudeStreamResponse] on a writer that can flush: the events
    written, from the lines of the upstream body.  A panic ends the output
    where it stands. *)
Definition handleClaudeStreamResponse (json : JSON) (body : list string)
    (completionID model : string) : list ClaudeSSE :=
  let head :=
    [MessageStart completionID model 0 0; ContentBlockStart 0 "text" ""] in
  match run_loop (claude_stream_step json) claude_initial body with
  | (None, out) => (head ++ out)%list
  | (Some st, out) =>
      let '(remaining, _) := SearchRefFilter.Flush (c_searchRefFilter st) in
      (head ++ out
       ++ (if String.eqb remaining "" then [] else [text_delta remaining])
       ++ [ContentBlockStop 0; MessageDelta "end_turn" 0; MessageStop])%list
  end.

(** The [content_block_delta] events among the events written. *)
Definition text_deltas (events : list ClaudeSSE) : list string :=
  flat_map
    (fun e => match e with ContentBlockDelta _ _ text => [text] | _ => [] end)
    events.

(** *** OpenAI emitter *)

Record Delta := mkDelta {
  Content : string;
  ReasoningContent : string
}.

Record Choice := mkChoice {
  CIndex : Z;
  CDelta : Delta;
  FinishReason : option string
}.

Record ChatCompletionChunk := mkChunk {
  ID : string;
  Object : string;
  Created : Z;
  Model : string;
  Choices : list Choice
}.

(** What [handleStreamResponse] writes: [data: <chunk>] lines and the
    terminator [data: [DONE]]. *)
Inductive SSE : Type :=
  | Data (chunk : ChatCompletionChunk)
  | DataDone.

Record StreamState := mkStreamState {
  hasContent : bool;
  searchRefFilter : SearchRefFilter.t;
  thinkingFilter : ThinkingFilter.t;
  pendingSourcesMarkdown : string;
  pendingImageSearchMarkdown : string;
  totalContentOutputLength : nat
}.

Section OpenAIStream.

Variable json : JSON.
(** [time.Now().Unix()], read for every chunk. *)
Variable now : Z.
Variables completionID modelName : string.

Definition mk_chunk (d : Delta) (finish : option string) : SSE :=
  Data {| ID := completionID; Object := "chat.completion.chunk";
          Created := now; Model := modelName;
          Choices := [{| CIndex := 0; CDelta := d; FinishReason := finish |}]
       |}.

Definition content_chunk (content : string) : SSE :=
  mk_chunk {| Content := content; ReasoningContent := "" |} None.

Definition reasoning_chunk (reasoning : string) : SSE :=
  mk_chunk {| Content := ""; ReasoningContent := reasoning |} None.

Definition set_filters (st : StreamState) (has : bool)
    (sf : SearchRefFilter.t) (tf : ThinkingFilter.t) : StreamState :=
  {| hasContent := has; searchRefFilter := sf; thinkingFilter := tf;
     pendingSourcesMarkdown := pendingSourcesMarkdown st;
     pendingImageSearchMarkdown := pendingImageSearchMarkdown st;
     totalContentOutputLength := totalContentOutputLength st |}.

(** The branch for a [thinking]-phase delta. *)
Definition stream_thinking (st : StreamState) (upstream : UpstreamData)
    : Outcome StreamState SSE :=
  let tf := thinkingFilter st in
  let isNewThinkingRound :=
    nonempty (ThinkingFilter.lastPhase tf)
    && negb (String.eqb (ThinkingFilter.lastPhase tf) "thinking") in
  let tf :=
    if isNewThinkingRound
    then ThinkingFilter.incr_round (ThinkingFilter.ResetForNewRound tf)
    else tf in
  let tf := ThinkingFilter.set_lastPhase tf "thinking" in
  let '(reasoningContent, tf) :=
    ThinkingFilter.ProcessThinking tf (DeltaContent upstream) in
  let reasoningContent :=
    if isNewThinkingRound && (1 <? ThinkingFilter.thinkingRoundCount tf)%Z
       && nonempty reasoningContent
    then LF ++ LF ++ reasoningContent else reasoningContent in
  if nonempty reasoningContent then
    let tf := ThinkingFilter.set_lastOutputChunk tf reasoningContent in
    let '(reasoningContent, sf) :=
      SearchRefFilter.Process (searchRefFilter st) reasoningContent in
    if nonempty reasoningContent
    then Next (set_filters st true sf tf) [reasoning_chunk reasoningContent]
    else Next (set_filters st (hasContent st) sf tf) []
  else Next (set_filters st (hasContent st) (searchRefFilter st) tf) [].

(** The text before an embedded block, passed through the citation filter
    and written when something is left. *)
Definition stream_text_before_block (st : StreamState) (editContent : string)
    : StreamState * list SSE :=
  let textBeforeBlock := ExtractTextBeforeGlmBlock editContent in
  if nonempty textBeforeBlock then
    let '(textBeforeBlock, sf) :=
      SearchRefFilter.Process (searchRefFilter st) textBeforeBlock in
    if nonempty textBeforeBlock
    then (set_filters st true sf (thinkingFilter st),
          [content_chunk textBeforeBlock])
    else (set_filters st (hasContent st) sf (thinkingFilter st), [])
  else (st, []).

(** [content], [reasoningContent] and the new [totalContentOutputLength]
    for an event that reached the end of the loop body; [None] when
    [ExtractIncrementalThinking] panics. *)
Definition stream_select (tf : ThinkingFilter.t) (total : nat)
    (upstream : UpstreamData) (editContent : string)
    : option (string * string * nat) :=
  if String.eqb (Phase upstream) "answer" && nonempty (DeltaContent upstream)
  then Some (DeltaContent upstream, "", total)
  else if String.eqb (Phase upstream) "answer" && nonempty editContent then
    if Contains editContent "</details>" then
      reasoningContent ← ThinkingFilter.ExtractIncrementalThinking tf editContent;
      match Index editContent "</details>" with
      | Some idx =>
          let afterDetails :=
            sdrop (idx + String.length "</details>") editContent in
          let content :=
            if HasPrefix afterDetails LF then sdrop 1 afterDetails
            else afterDetails in
          Some (content, reasoningContent, List.length (UTF8.runes content))
      | None => Some ("", reasoningContent, total)
      end
    else Some ("", "", total)
  else if (String.eqb (Phase upstream) "other"
           || String.eqb (Phase upstream) "tool_call")
          && nonempty editContent then
    let fullContentRunes := UTF8.runes editContent in
    if (total <? List.length fullContentRunes)%nat
    then Some (UTF8.string_of_runes (drop total fullContentRunes), "",
               List.length fullContentRunes)
    else Some (editContent, "", total)
  else Some ("", "", total).

(** The loop body from the pending bibliography on. *)
Definition stream_content (st : StreamState) (upstream : UpstreamData)
    (editContent : string) : Outcome StreamState SSE :=
  let out1 :=
    if nonempty (pendingSourcesMarkdown st)
    then [content_chunk (pendingSourcesMarkdown st)] else [] in
  let has := hasContent st || nonempty (pendingSourcesMarkdown st) in
  let pendingSources := "" in
  let out2 :=
    if nonempty (pendingImageSearchMarkdown st)
    then [content_chunk (pendingImageSearchMarkdown st)] else [] in
  let has := has || nonempty (pendingImageSearchMarkdown st) in
  let '(thinkingRemaining, tf) := ThinkingFilter.Flush (thinkingFilter st) in
  let '(tf, sf, has, out3) :=
    if nonempty thinkingRemaining then
      let tf := ThinkingFilter.set_lastOutputChunk tf thinkingRemaining in
      let '(processedRemaining, sf) :=
        SearchRefFilter.Process (searchRefFilter st) thinkingRemaining in
      if nonempty processedRemaining
      then (tf, sf, true, [reasoning_chunk processedRemaining])
      else (tf, sf, has, [])
    else (tf, searchRefFilter st, has, []) in
  let '(pendingSources, has, out4) :=
    if nonempty pendingSources && ThinkingFilter.hasSeenFirstThinking tf
    then ("", true, [reasoning_chunk pendingSources])
    else (pendingSources, has, []) in
  let out := (out1 ++ out2 ++ out3 ++ out4)%list in
  match stream_select tf (totalContentOutputLength st) upstream editContent
  with
  | None => Crash out
  | Some (content, reasoningContent, total) =>
      let '(reasoningContent, sf) :=
        if nonempty reasoningContent then
          let '(a, sf) := SearchRefFilter.Process sf reasoningContent in
          let '(b, sf) := SearchRefFilter.Flush sf in
          (a ++ b, sf)
        else (reasoningContent, sf) in
      let out5 :=
        if nonempty reasoningContent
        then [reasoning_chunk reasoningContent] else [] in
      let has := has || nonempty reasoningContent in
      let mk has sf total :=
        {| hasContent := has; searchRefFilter := sf; thinkingFilter := tf;
           pendingSourcesMarkdown := pendingSources;
           pendingImageSearchMarkdown := "";
           totalContentOutputLength := total |} in
      if String.eqb content "" then Next (mk has sf total) (out ++ out5)%list
      else
        let '(content, sf) := SearchRefFilter.Process sf content in
        if String.eqb content "" then
          Next (mk has sf total) (out ++ out5)%list
        else
          let total :=
            if String.eqb (Phase upstream) "answer"
               && nonempty (DeltaContent upstream)
            then (total + List.length (UTF8.runes content))%nat else total in
          Next (mk true sf total)
            (out ++ out5 ++ [content_chunk content])%list
  end.

Definition stream_step (st : StreamState) (line : string)
    : Outcome StreamState SSE :=
  if line_too_long line then Stop st [] else
  if negb (HasPrefix line "data: ") then Next st [] else
  let payload := TrimPrefix line "data: " in
  if String.eqb payload "[DONE]" then Stop st [] else
  match unmarshal_upstream json payload with
  | None => Next st []
  | Some upstream =>
      if String.eqb (Phase upstream) "done" then Stop st [] else
      if String.eqb (Phase upstream) "thinking"
         && nonempty (DeltaContent upstream)
      then stream_thinking st upstream
      else
        let tf :=
          if nonempty (Phase upstream)
          then ThinkingFilter.set_lastPhase (thinkingFilter st)
                 (Phase upstream)
          else thinkingFilter st in
        let st := set_filters st (hasContent st) (searchRefFilter st) tf in
        let editContent := GetEditContent json upstream in
        if nonempty editContent && IsSearchResultContent editContent then
          match ParseSearchResults json editContent with
          | [] => Next st []
          | results =>
              let sf :=
                SearchRefFilter.AddSearchResults (searchRefFilter st)
                  results in
              Next {| hasContent := hasContent st; searchRefFilter := sf;
                      thinkingFilter := tf;
                      pendingSourcesMarkdown :=
                        SearchRefFilter.GetSearchResultsMarkdown sf;
                      pendingImageSearchMarkdown :=
                        pendingImageSearchMarkdown st;
                      totalContentOutputLength :=
                        totalContentOutputLength st |} []
          end
        else if nonempty editContent
                && Contains editContent (QUOTE ++ "search_image" ++ QUOTE)
        then
          let '(st, out) := stream_text_before_block st editContent in
          match ParseImageSearchResults json editContent with
          | [] => Next st out
          | results =>
              Next {| hasContent := hasContent st;
                      searchRefFilter := searchRefFilter st;
                      thinkingFilter := thinkingFilter st;
                      pendingSourcesMarkdown := pendingSourcesMarkdown st;
                      pendingImageSearchMarkdown :=
                        FormatImageSearchResults results;
                      totalContentOutputLength :=
                        totalContentOutputLength st |} out
          end
        else if nonempty editContent
                && Contains editContent (QUOTE ++ "mcp" ++ QUOTE)
        then
          let '(st, out) := stream_text_before_block st editContent in
          Next st out
        else if nonempty editContent
                && IsSearchToolCall editContent (Phase upstream)
        then Next st []
        else stream_content st upstream editContent
  end.

Definition stream_initial : StreamState :=
  {| hasContent := false; searchRefFilter := NewSearchRefFilter;
     thinkingFilter := ThinkingFilter.zero; pendingSourcesMarkdown := "";
     pendingImageSearchMarkdown := ""; totalContentOutputLength := 0 |}.

(** [handleStreamResponse] on a writer that can flush. *)
Definition handleStreamResponse (body : list string) : list SSE :=
  match run_loop stream_step stream_initial body with
  | (None, out) => out
  | (Some st, out) =>
      let '(remaining, _) := SearchRefFilter.Flush (searchRefFilter st) in
      (out
       ++ (if String.eqb remaining "" then [] else [content_chunk remaining])
       ++ [mk_chunk {| Content := ""; ReasoningContent := "" |} (Some "stop");
           DataDone])%list
  end.

End OpenAIStream.

(** ** Sample upstream payloads

    A decoder that knows a handful of payloads, for running the handlers on
    concrete streams. *)

Definition jstr (s : string) : string := QUOTE ++ s ++ QUOTE.

Definition payload (phase field value : string) : string :=
  "{" ++ jstr "data" ++ ":{" ++ jstr "phase" ++ ":" ++ jstr phase ++ ","
  ++ jstr field ++ ":" ++ jstr value ++ "}}".

Definition payload_done : string :=
  "{" ++ jstr "data" ++ ":{" ++ jstr "phase" ++ ":" ++ jstr "done" ++ "}}".

Definition delta_event (phase delta : string) : UpstreamData :=
  {| Type_ := ""; DeltaContent := delta; EditContent := ""; Phase := phase;
     Done := false |}.

Definition edit_event (phase edit : string) : UpstreamData :=
  {| Type_ := ""; DeltaContent := ""; EditContent := edit; Phase := phase;
     Done := false |}.

Definition sample_events : list (string * UpstreamData) :=
  [(payload "answer" "delta_content" "Hi", delta_event "answer" "Hi");
   (payload_done, delta_event "done" "");
   (payload "thinking" "delta_content" "> hello",
    delta_event "thinking" "> hello");
   (payload "other" "edit_content" "ab", edit_event "other" "ab");
   (payload "other" "edit_content" "abc", edit_event "other" "abc");
   (payload "other" "edit_content" "abcde", edit_event "other" "abcde")].

Fixpoint assoc {A} (l : list (string * A)) (k : string) : option A :=
  match l with
  | [] => None
  | (k', v) :: l' => if String.eqb k k' then Some v else assoc l' k
  end.

Definition sample_json : JSON :=
  {| unmarshal_upstream := assoc sample_events;
     unmarshal_string := fun _ => None;
     unmarshal_search_results := fun _ => None;
     unmarshal_items := fun _ => None |}.

Definition sse_line (p : string) : string := "data: " ++ p.

(** A search-result block whose title holds a closing bracket, and the
    image-search block with the same text. *)
Definition search_block_bracket_title : string :=
  "{" ++ jstr "search_result" ++ ":[{" ++ jstr "title" ++ ":" ++ jstr "a]b"
  ++ "," ++ jstr "url" ++ ":" ++ jstr "http://e" ++ "," ++ jstr "index"
  ++ ":1," ++ jstr "ref_id" ++ ":" ++ jstr "turn0search1" ++ "}]}".

Definition image_block_bracket_title : string :=
  "{" ++ jstr "result" ++ ":[{" ++ jstr "type" ++ ":" ++ jstr "text" ++ ","
  ++ jstr "text" ++ ":" ++ jstr "Title: a]b; Link: http://e" ++ "}]}".

(** ** Streams of chunks

    A filter fed chunk after chunk: the fragments it returns, concatenated,
    and its final state. *)
Fixpoint feed {S : Type} (step : S -> string -> string * S) (st : S)
    (chunks : list string) : string * S :=
  match chunks with
  | [] => ("", st)
  | c :: chunks' =>
      let '(o, st') := step st c in
      let '(os, st'') := feed step st' chunks' in
      (o ++ os, st'')
  end.

(** The fragments of a chunked run followed by what [flush] returns. *)
Definition feed_flush {S : Type} (step : S -> string -> string * S)
    (flush : S -> string * S) (st : S) (chunks : list string) : string :=
  let '(o, st') := feed step st chunks in o ++ fst (flush st').

(** A byte occurs in a string. *)
Fixpoint has_byte (c : ascii) (s : string) : bool :=
  match s with
  | EmptyString => false
  | String x s' => Ascii.eqb x c || has_byte c s'
  end.

(** Every byte of a string passes a test. *)
Fixpoint every (P : ascii -> bool) (s : string) : bool :=
  match s with
  | EmptyString => true
  | String c s' => P c && every P s'
  end.

(** Every citation token of [s], wherever it starts, passes [check]. *)
Fixpoint tokens_ok (check : string -> bool) (s : string) : bool :=
  match s with
  | EmptyString => true
  | String _ s' =>
      match searchRefPattern s with
      | Some n => check (stake n s)
      | None => true
      end && tokens_ok check s'
  end.

(** The identifier of a token is a key of the registered results. *)
Definition registered (results : gmap string SearchResult) (token : string)
    : bool :=
  match results !! stake (String.length token - 6) (sdrop 3 token) with
  | Some _ => true
  | None => false
  end.

(** A token whose part before the closing bracket fits the 20 bytes that
    [Process] looks back over: at most 23 bytes in all. *)
Definition fits_window (token : string) : bool :=
  (String.length token <=? 23)%nat.

(** A chunk that does not start inside a UTF-8 encoded character. *)
Definition is_continuation (c : ascii) : bool :=
  ((128 <=? nat_of_ascii c)%nat && (nat_of_ascii c <=? 191)%nat).

Definition starts_on_char (chunk : string) : bool :=
  match chunk with
  | EmptyString => true
  | String c _ => negb (is_continuation c)
  end.

(** An ASCII byte other than the closing parenthesis. *)
Definition plain (c : ascii) : bool :=
  (nat_of_ascii c <? 128)%nat && negb (Ascii.eqb c ")").

Definition starts_with_digit (s : string) : bool :=
  match s with
  | EmptyString => false
  | String c _ => is_digit c
  end.

(** The texts that [searchRefPattern] matches in full. *)
Definition is_token (tok : string) : Prop :=
  exists d1 d2 : string,
    tok = (OPEN ++ "turn") ++ d1 ++ "search" ++ d2 ++ CLOSE
    /\ every is_digit d1 = true /\ d1 <> ""
    /\ every is_digit d2 = true /\ d2 <> "".

(** The pending buffer of the citation filter is at most 20 bytes long and
    no citation token starts anywhere in it. *)
Definition pending_ok (f : SearchRefFilter.t) : Prop :=
  (String.length (SearchRefFilter.buffer f) <= 20)%nat
  /\ forall p : nat,
       searchRefPattern (sdrop p (SearchRefFilter.buffer f)) = None.

(** A token that is registered and fits the look-behind. *)
Definition token_ok (results : gmap string SearchResult) (token : string)
    : bool :=
  fits_window token && registered results token.

(** The events written during one turn of a read loop. *)
Definition outcome_events {S E : Type} (o : Outcome S E) : list E :=
  match o with
  | Next _ out => out
  | Stop _ out => out
  | Crash out => out
  end.

(** Every byte of a string replaced by a string. *)
Fixpoint smap (f : ascii -> string) (s : string) : string :=
  match s with
  | EmptyString => EmptyString
  | String c s' => f c ++ smap f s'
  end.

(** A backslash, an opening or a closing square bracket gets a backslash
    in front; any other byte stays. *)
Definition escape_title_byte (c : ascii) : string :=
  if Ascii.eqb c "\" || Ascii.eqb c "[" || Ascii.eqb c "]"
  then String "\" (String c EmptyString)
  else String c EmptyString.

(** The inside of a JSON string literal: bytes other than the double quote
    and the backslash, and backslash escapes of one byte. *)
Fixpoint json_string_body (s : string) : bool :=
  match s with
  | EmptyString => true
  | String c s' =>
      if Ascii.eqb c "\"%char then
        match s' with
        | String _ s'' => json_string_body s''
        | EmptyString => false
        end
      else if Ascii.eqb c "034"%char then false
      else json_string_body s'
  end.

(** ** The handlers that answer in one piece *)

(** [searchRefFilter.Process(full) + searchRefFilter.Flush()] *)
Definition process_all (sf : SearchRefFilter.t) (full : string)
    : string * SearchRefFilter.t :=
  let '(a, sf) := SearchRefFilter.Process sf full in
  let '(b, sf) := SearchRefFilter.Flush sf in
  (a ++ b, sf).

Record ClaudeContent := mkClaudeContent {
  CCType : string;
  CCText : string
}.

Record ClaudeResponse := mkClaudeResponse {
  CRID : string;
  CRType : string;
  CRRole : string;
  CRContent : list ClaudeContent;
  CRModel : string;
  CRUsage : list (string * Z)
}.

(** One turn of the loop of [handleClaudeNonStreamResponse]: the strings
    appended to [chunks]. *)
Definition claude_collect_step (json : JSON) (st : ClaudeState)
    (line : string) : Outcome ClaudeState string :=
  if line_too_long line then Stop st [] else
  if negb (HasPrefix line "data: ") then Next st [] else
  let payload := TrimPrefix line "data: " in
  if String.eqb payload "[DONE]" then Stop st [] else
  match unmarshal_upstream json payload with
  | None => Next st []
  | Some upstream =>
      if String.eqb (Phase upstream) "done" then Stop st [] else
      if String.eqb (Phase upstream) "thinking"
         && nonempty (DeltaContent upstream) then
        let '(_, tf) :=
          ThinkingFilter.ProcessThinking (c_thinkingFilter st)
            (DeltaContent upstream) in
        Next {| c_searchRefFilter := c_searchRefFilter st;
                c_thinkingFilter := tf;
                c_pendingSourcesMarkdown := c_pendingSourcesMarkdown st |} []
      else if nonempty (EditContent upstream)
              && IsSearchResultContent (EditContent upstream) then
        match ParseSearchResults json (EditContent upstream) with
        | [] => Next st []
        | results =>
            let sf :=
              SearchRefFilter.AddSearchResults (c_searchRefFilter st)
                results in
            Next {| c_searchRefFilter := sf;
                    c_thinkingFilter := c_thinkingFilter st;
                    c_pendingSourcesMarkdown :=
                      SearchRefFilter.GetSearchResultsMarkdown sf |} []
        end
      else if nonempty (EditContent upstream)
              && IsSearchToolCall (EditContent upstream) (Phase upstream)
      then Next st []
      else
        let out :=
          if nonempty (c_pendingSourcesMarkdown st)
          then [c_pendingSourcesMarkdown st] else [] in
        match claude_content upstream with
        | None => Crash out
        | Some content =>
            Next {| c_searchRefFilter := c_searchRefFilter st;
                    c_thinkingFilter := c_thinkingFilter st;
                    c_pendingSourcesMarkdown := "" |}
              (out ++ (if nonempty content then [content] else []))%list
        end
  end.

(** [handleClaudeNonStreamResponse]: the response encoded, [None] when the
    loop panicked. *)
Definition handleClaudeNonStreamResponse (json : JSON) (body : list string)
    (completionID model : string) : option ClaudeResponse :=
  match run_loop (claude_collect_step json) claude_initial body with
  | (None, _) => None
  | (Some st, chunks) =>
      let fullContent := concat_all chunks in
      let '(fullContent, _) :=
        process_all (c_searchRefFilter st) fullContent in
      Some {| CRID := completionID; CRType := "message";
              CRRole := "assistant";
              CRContent := [{| CCType := "text"; CCText := fullContent |}];
              CRModel := model;
              CRUsage := [("input_tokens", 0%Z); ("output_tokens", 0%Z)] |}
  end.

Record MessageResp := mkMessageResp {
  MRole : string;
  MContent : string;
  MReasoningContent : string
}.

Record ResponseChoice := mkResponseChoice {
  RCIndex : Z;
  RCMessage : MessageResp;
  RCFinishReason : option string
}.

Record ChatCompletionResponse := mkChatCompletionResponse {
  RID : string;
  RObject : string;
  RCreated : Z;
  RModel : string;
  RChoices : list ResponseChoice
}.

(** What a turn of the loop of [handleNonStreamResponse] appends, to
    [chunks] or to [reasoningChunks]. *)
Inductive Collected : Type :=
  | Chunk (text : string)
  | ReasoningChunk (text : string).

Record CollectState := mkCollectState {
  n_thinkingFilter : ThinkingFilter.t;
  n_searchRefFilter : SearchRefFilter.t;
  n_hasThinking : bool;
  n_pendingSourcesMarkdown : string;
  n_pendingImageSearchMarkdown : string
}.

Definition chunks_of (out : list Collected) : list string :=
  flat_map (fun c => match c with Chunk s => [s] | _ => [] end) out.

Definition reasoningChunks_of (out : list Collected) : list string :=
  flat_map (fun c => match c with ReasoningChunk s => [s] | _ => [] end) out.

(** The branch for a [thinking]-phase delta. *)
Definition collect_thinking (st : CollectState) (upstream : UpstreamData)
    : Outcome CollectState Collected :=
  let tf := n_thinkingFilter st in
  let isNewThinkingRound :=
    nonempty (ThinkingFilter.lastPhase tf)
    && negb (String.eqb (ThinkingFilter.lastPhase tf) "thinking") in
  let tf :=
    if isNewThinkingRound
    then ThinkingFilter.incr_round (ThinkingFilter.ResetForNewRound tf)
    else tf in
  let out0 :=
    if isNewThinkingRound && (1 <? ThinkingFilter.thinkingRoundCount tf)%Z
    then [ReasoningChunk (LF ++ LF)] else [] in
  let tf := ThinkingFilter.set_lastPhase tf "thinking" in
  let '(reasoningContent, tf) :=
    ThinkingFilter.ProcessThinking tf (DeltaContent upstream) in
  let mk tf :=
    {| n_thinkingFilter := tf; n_searchRefFilter := n_searchRefFilter st;
       n_hasThinking := true;
       n_pendingSourcesMarkdown := n_pendingSourcesMarkdown st;
       n_pendingImageSearchMarkdown := n_pendingImageSearchMarkdown st |} in
  if nonempty reasoningContent then
    Next (mk (ThinkingFilter.set_lastOutputChunk tf reasoningContent))
      (out0 ++ [ReasoningChunk reasoningContent])%list
  else Next (mk tf) out0.

(** [content] and [reasoningContent] for an event that reached the end of
    the loop body; [None] when [ExtractIncrementalThinking] panics. *)
Definition collect_select (tf : ThinkingFilter.t) (upstream : UpstreamData)
    (editContent : string) : option (string * string) :=
  if String.eqb (Phase upstream) "answer" && nonempty (DeltaContent upstream)
  then Some (DeltaContent upstream, "")
  else if String.eqb (Phase upstream) "answer" && nonempty editContent then
    if Contains editContent "</details>" then
      reasoningContent ← ThinkingFilter.ExtractIncrementalThinking tf editContent;
      match Index editContent "</details>" with
      | Some idx =>
          let afterDetails :=
            sdrop (idx + String.length "</details>") editContent in
          Some (if HasPrefix afterDetails LF then sdrop 1 afterDetails
                else afterDetails, reasoningContent)
      | None => Some ("", reasoningContent)
      end
    else Some ("", "")
  else if (String.eqb (Phase upstream) "other"
           || String.eqb (Phase upstream) "tool_call")
          && nonempty editContent
  then Some (editContent, "")
  else Some ("", "").

Definition collect_step (json : JSON) (st : CollectState) (line : string)
    : Outcome CollectState Collected :=
  if line_too_long line then Stop st [] else
  if negb (HasPrefix line "data: ") then Next st [] else
  let payload := TrimPrefix line "data: " in
  if String.eqb payload "[DONE]" then Stop st [] else
  match unmarshal_upstream json payload with
  | None => Next st []
  | Some upstream =>
      if String.eqb (Phase upstream) "done" then Stop st [] else
      if String.eqb (Phase upstream) "thinking"
         && nonempty (DeltaContent upstream)
      then collect_thinking st upstream
      else
        let tf :=
          if nonempty (Phase upstream)
          then ThinkingFilter.set_lastPhase (n_thinkingFilter st)
                 (Phase upstream)
          else n_thinkingFilter st in
        let mk sf pendingSources pendingImage :=
          {| n_thinkingFilter := tf; n_searchRefFilter := sf;
             n_hasThinking := n_hasThinking st;
             n_pendingSourcesMarkdown := pendingSources;
             n_pendingImageSearchMarkdown := pendingImage |} in
        let st' :=
          mk (n_searchRefFilter st) (n_pendingSourcesMarkdown st)
            (n_pendingImageSearchMarkdown st) in
        let editContent := GetEditContent json upstream in
        let textBeforeBlock :=
          if nonempty (ExtractTextBeforeGlmBlock editContent)
          then [Chunk (ExtractTextBeforeGlmBlock editContent)] else [] in
        if nonempty editContent && IsSearchResultContent editContent then
          match ParseSearchResults json editContent with
          | [] => Next st' []
          | results =>
              let sf :=
                SearchRefFilter.AddSearchResults (n_searchRefFilter st)
                  results in
              Next (mk sf (SearchRefFilter.GetSearchResultsMarkdown sf)
                      (n_pendingImageSearchMarkdown st)) []
          end
        else if nonempty editContent
                && Contains editContent (QUOTE ++ "search_image" ++ QUOTE)
        then
          match ParseImageSearchResults json editContent with
          | [] => Next st' textBeforeBlock
          | results =>
              Next (mk (n_searchRefFilter st) (n_pendingSourcesMarkdown st)
                      (FormatImageSearchResults results)) textBeforeBlock
          end
        else if nonempty editContent
                && Contains editContent (QUOTE ++ "mcp" ++ QUOTE)
        then Next st' textBeforeBlock
        else if nonempty editContent
                && IsSearchToolCall editContent (Phase upstream)
        then Next st' []
        else
          let out1 :=
            if nonempty (n_pendingSourcesMarkdown st) then
              [if n_hasThinking st
               then ReasoningChunk (n_pendingSourcesMarkdown st)
               else Chunk (n_pendingSourcesMarkdown st)]
            else [] in
          let out2 :=
            if nonempty (n_pendingImageSearchMarkdown st)
            then [Chunk (n_pendingImageSearchMarkdown st)] else [] in
          match collect_select tf upstream editContent with
          | None => Crash (out1 ++ out2)%list
          | Some (content, reasoningContent) =>
              Next (mk (n_searchRefFilter st) "" "")
                (out1 ++ out2
                 ++ (if nonempty reasoningContent
                     then [ReasoningChunk reasoningContent] else [])
                 ++ (if nonempty content then [Chunk content] else []))%list
          end
  end.

Definition collect_initial : CollectState :=
  {| n_thinkingFilter := ThinkingFilter.zero;
     n_searchRefFilter := NewSearchRefFilter; n_hasThinking := false;
     n_pendingSourcesMarkdown := ""; n_pendingImageSearchMarkdown := "" |}.

(** [handleNonStreamResponse]: the response encoded, [None] when the loop
    panicked; [now] is [time.Now().Unix()]. *)
Definition handleNonStreamResponse (json : JSON) (now : Z)
    (completionID modelName : string) (body : list string)
    : option ChatCompletionResponse :=
  match run_loop (collect_step json) collect_initial body with
  | (None, _) => None
  | (Some st, out) =>
      let fullContent := concat_all (chunks_of out) in
      let '(fullContent, sf) :=
        process_all (n_searchRefFilter st) fullContent in
      let fullReasoning := concat_all (reasoningChunks_of out) in
      let '(fullReasoning, _) := process_all sf fullReasoning in
      Some {| RID := completionID; RObject := "chat.completion";
              RCreated := now; RModel := modelName;
              RChoices :=
                [{| RCIndex := 0;
                    RCMessage :=
                      {| MRole := "assistant"; MContent := fullContent;
                         MReasoningContent := fullReasoning |};
                    RCFinishReason := Some "stop" |}] |}
  end.

(** A line on which the read loops stop: [data: [DONE]], an event of phase
    [done], or a line that does not fit the scanner's buffer. *)
Definition ends_stream (json : JSON) (line : string) : bool :=
  line_too_long line
  || (HasPrefix line "data: "
      && (String.eqb (TrimPrefix line "data: ") "[DONE]"
          || match unmarshal_upstream json (TrimPrefix line "data: ") with
             | Some upstream => String.eqb (Phase upstream) "done"
             | None => false
             end)).

(** A line the read loops pass over: it fits the buffer and is not a data
    line, or its payload is not [[DONE]] and does not decode. *)
Definition skipped_line (json : JSON) (line : string) : bool :=
  negb (line_too_long line)
  && (negb (HasPrefix line "data: ")
      || (negb (String.eqb (TrimPrefix line "data: ") "[DONE]")
          && match unmarshal_upstream json (TrimPrefix line "data: ") with
             | Some _ => false
             | None => true
             end)).

(** The chunk [handleStreamResponse] writes for a fragment of content or of
    reasoning. *)
Definition sse_of (now : Z) (completionID modelName : string)
    (c : Collected) : SSE :=
  match c with
  | Chunk text => content_chunk now completionID modelName text
  | ReasoningChunk text => reasoning_chunk now completionID modelName text
  end.

Definition collected_text (c : Collected) : string :=
  match c with
  | Chunk text => text
  | ReasoningChunk text => text
  end.

(** Events that are chunks of non-empty fragments. *)
Definition fragments (now : Z) (completionID modelName : string)
    (events : list SSE) : Prop :=
  exists pieces : list Collected,
    Forall (fun c => collected_text c <> "") pieces
    /\ events = map (sse_of now completionID modelName) pieces.

(** A data line that decodes to an answer delta: phase [answer], a
    non-empty [delta_content] and no [edit_content]. *)
Definition answer_delta_line (json : JSON) (line delta : string) : Prop :=
  line_too_long line = false
  /\ HasPrefix line "data: " = true
  /\ TrimPrefix line "data: " <> "[DONE]"
  /\ exists upstream : UpstreamData,
       unmarshal_upstream json (TrimPrefix line "data: ") = Some upstream
       /\ Phase upstream = "answer"
       /\ DeltaContent upstream = delta
       /\ EditContent upstream = ""
       /\ delta <> "".

(** No citation token starts anywhere in a text. *)
Definition no_token (s : string) : bool := tokens_ok (fun _ => false) s.

(** A text that [utf8.DecodeRuneInString] decodes without meeting an
    invalid or truncated encoding: well-formed UTF-8. *)
Fixpoint valid_utf8_fuel (fuel : nat) (s : string) : bool :=
  match fuel with
  | O => match s with EmptyString => true | _ => false end
  | S fuel' =>
      match s with
      | EmptyString => true
      | _ =>
          let '(r, n) := UTF8.DecodeRuneInString s in
          negb ((r =? UTF8.RuneError)%Z && (n =? 1)%nat)
          && valid_utf8_fuel fuel' (sdrop n s)
      end
  end.

Definition valid_utf8 (s : string) : bool :=
  valid_utf8_fuel (String.length s) s.

(** A data line that decodes to a snapshot of phase [other] which is not
    an embedded block: no search results, no image search, no tool call. *)
Definition snapshot_line (json : JSON) (line snapshot : string) : Prop :=
  line_too_long line = false
  /\ HasPrefix line "data: " = true
  /\ TrimPrefix line "data: " <> "[DONE]"
  /\ exists upstream : UpstreamData,
       unmarshal_upstream json (TrimPrefix line "data: ") = Some upstream
       /\ Phase upstream = "other"
       /\ GetEditContent json upstream = snapshot
       /\ snapshot <> ""
       /\ IsSearchResultContent snapshot = false
       /\ Contains snapshot (QUOTE ++ "search_image" ++ QUOTE) = false
       /\ Contains snapshot (QUOTE ++ "mcp" ++ QUOTE) = false.

(** The snapshots of a text that grows by the pieces [added], from
    [written] on. *)
Fixpoint snapshots (written : string) (added : list string) : list string :=
  match added with
  | [] => []
  | a :: added' => (written ++ a) :: snapshots (written ++ a) added'
  end.

(** A data line that decodes to a thinking delta: phase [thinking] and a
    non-empty [delta_content]. *)
Definition thinking_delta_line (json : JSON) (line delta : string) : Prop :=
  line_too_long line = false
  /\ HasPrefix line "data: " = true
  /\ TrimPrefix line "data: " <> "[DONE]"
  /\ exists upstream : UpstreamData,
       unmarshal_upstream json (TrimPrefix line "data: ") = Some upstream
       /\ Phase upstream = "thinking"
       /\ DeltaContent upstream = delta
       /\ delta <> "".

(** ** Messages

    A value held by a Go [interface{}] after JSON decoding: [nil], a
    string, a slice, a map, or anything else (a number or a boolean).  A
    nil slice and an empty one are both [VArray []]. *)
#[warnings="-register-all"]
Inductive Value : Type :=
  | VNil
  | VOther
  | VString (s : string)
  | VArray (items : list Value)
  | VMap (fields : gmap string Value).

(** [v.(string)] and [v.(map[string]interface{})] on the result of a map
    lookup, with the zero value when the assertion fails. *)
Definition as_string (v : option Value) : option string :=
  match v with
  | Some (VString s) => Some s
  | _ => None
  end.

Definition as_map (v : option Value) : option (gmap string Value) :=
  match v with
  | Some (VMap m) => Some m
  | _ => None
  end.

Module Message.

Record t := mk {
  Role : string;
  Content : Value
}.

(** The body of the loop of [ParseContent] over the parts. *)
Definition parse_part (acc : string * list string) (item : Value)
    : string * list string :=
  let '(text, imageURLs) := acc in
  match item with
  | VMap part =>
      let partType := default "" (as_string (part !! "type")) in
      if String.eqb partType "text" then
        match as_string (part !! "text") with
        | Some t => (text ++ t, imageURLs)
        | None => (text, imageURLs)
        end
      else if String.eqb partType "image_url" then
        match as_map (part !! "image_url") with
        | Some imgURL =>
            match as_string (imgURL !! "url") with
            | Some url => (text, (imageURLs ++ [url])%list)
            | None => (text, imageURLs)
            end
        | None => (text, imageURLs)
        end
      else (text, imageURLs)
  | _ => (text, imageURLs)
  end.

Definition ParseContent (m : t) : string * list string :=
  match Content m with
  | VString content => (content, [])
  | VArray content => fold_left parse_part content ("", [])
  | _ => ("", [])
  end.

Definition text_part (text : string) : Value :=
  VMap (<["type" := VString "text"]> (<["text" := VString text]> ∅)).

Definition image_part (url : string) : Value :=
  VMap (<["type" := VString "image_url"]>
          (<["image_url" := VMap (<["url" := VString url]> ∅)]> ∅)).

Definition ToUpstreamMessage (m : t) (urlToFileID : gmap string string)
    : gmap string Value :=
  let '(text, imageURLs) := ParseContent m in
  match imageURLs with
  | [] => <["role" := VString (Role m)]> (<["content" := VString text]> ∅)
  | _ =>
      let content :=
        if negb (String.eqb text "") then [text_part text] else [] in
      let content :=
        fold_left
          (fun content imgURL =>
             match urlToFileID !! imgURL with
             | Some fileID => (content ++ [image_part fileID])%list
             | None => content
             end)
          imageURLs content in
      <["role" := VString (Role m)]> (<["content" := VArray content]> ∅)
  end.

End Message.

(** [for i := len(messages) - 1; i >= 0; i--], with [n] standing for
    [i + 1]. *)
Fixpoint latest_user_from (messages : list Message.t) (n : nat) : string :=
  match n with
  | O => ""
  | S i =>
      match messages !! i with
      | Some m =>
          if String.eqb (Message.Role m) "user"
          then fst (Message.ParseContent m)
          else latest_user_from messages i
      | None => latest_user_from messages i
      end
  end.

Definition extractLatestUserContent (messages : list Message.t) : string :=
  latest_user_from messages (List.length messages).

Definition extractAllImageURLs (messages : list Message.t) : list string :=
  fold_left
    (fun allImageURLs msg =>
       (allImageURLs ++ snd (Message.ParseContent msg))%list)
    messages [].

(** * Properties *)

(** ** Facts about strings *)

Lemma sapp_nil_r (s : string) : s ++ "" = s.
Proof. induction s as [|c s IH]; simpl; [reflexivity | f_equal; exact IH]. Qed.

Lemma sapp_assoc (a b c : string) : (a ++ b) ++ c = a ++ (b ++ c).
Proof. induction a as [|x a IH]; simpl; [reflexivity | f_equal; exact IH]. Qed.

Lemma slen_app (a b : string) :
  String.length (a ++ b) = (String.length a + String.length b)%nat.
Proof. induction a as [|x a IH]; simpl; [reflexivity | f_equal; exact IH]. Qed.

Lemma strip_prefix_app (p s : string) : strip_prefix p (p ++ s) = Some s.
Proof.
  induction p as [|a p IH]; simpl; [reflexivity|].
  now rewrite Ascii.eqb_refl.
Qed.

Lemma strip_prefix_Some (p s r : string) :
  strip_prefix p s = Some r -> s = p ++ r.
Proof.
  revert s; induction p as [|a p IH]; intros s H; simpl in *.
  - now inversion H.
  - destruct s as [|b s]; [discriminate|].
    destruct (Ascii.eqb_spec a b) as [->|]; [|discriminate].
    simpl. f_equal. now apply IH.
Qed.

Lemma eqb_false_of_neq (a b : string) : a <> b -> String.eqb a b = false.
Proof. intros H. now apply String.eqb_neq. Qed.

(** ** The OpenAI stream on a single answer delta *)

(** C8. When the upstream body is the event {phase:"answer",
    delta_content:"Hi"} followed by {phase:"done"}, the OpenAI streaming
    handler writes one chunk with content "Hi", then one chunk with an empty
    delta and finish_reason "stop", then the terminator line, and nothing
    else. *)
Theorem C8_openai_stream_hi_then_done
    (json : JSON) (now : Z) (completionID modelName p1 p2 : string) :
  unmarshal_upstream json p1 = Some (delta_event "answer" "Hi") ->
  unmarshal_upstream json p2 = Some (delta_event "done" "") ->
  p1 <> "[DONE]" ->
  line_too_long (sse_line p1) = false ->
  handleStreamResponse json now completionID modelName
    [sse_line p1; sse_line p2]
  = [content_chunk now completionID modelName "Hi";
     mk_chunk now completionID modelName
       {| Content := ""; ReasoningContent := "" |} (Some "stop");
     DataDone].
Proof.
  intros H1 H2 Hne Hlen.
  assert (Hstep1 :
    stream_step json now completionID modelName stream_initial (sse_line p1)
    = Next {| hasContent := true; searchRefFilter := NewSearchRefFilter;
              thinkingFilter :=
                ThinkingFilter.set_lastPhase ThinkingFilter.zero "answer";
              pendingSourcesMarkdown := "";
              pendingImageSearchMarkdown := "";
              totalContentOutputLength := 2 |}
           [content_chunk now completionID modelName "Hi"]).
  { unfold stream_step. rewrite Hlen.
    change (HasPrefix (sse_line p1) "data: ") with true.
    change (TrimPrefix (sse_line p1) "data: ") with p1.
    cbv beta iota zeta. simpl negb. cbv iota.
    rewrite (eqb_false_of_neq _ _ Hne), H1.
    reflexivity. }
  assert (Hstep2 : forall st,
    stream_step json now completionID modelName st (sse_line p2)
    = Stop st []).
  { intros st. unfold stream_step.
    destruct (line_too_long (sse_line p2)); [reflexivity|].
    change (HasPrefix (sse_line p2) "data: ") with true.
    change (TrimPrefix (sse_line p2) "data: ") with p2.
    cbv beta iota zeta. simpl negb. cbv iota.
    destruct (String.eqb p2 "[DONE]"); [reflexivity|].
    rewrite H2. reflexivity. }
  unfold handleStreamResponse. simpl run_loop.
  rewrite Hstep1, Hstep2. reflexivity.
Qed.

Lemma C8_openai_stream_hi_then_done_witness :
  handleStreamResponse sample_json 0 "chatcmpl-0" "GLM-4-6-API-V1"
    [sse_line (payload "answer" "delta_content" "Hi"); sse_line payload_done]
  = [content_chunk 0 "chatcmpl-0" "GLM-4-6-API-V1" "Hi";
     mk_chunk 0 "chatcmpl-0" "GLM-4-6-API-V1"
       {| Content := ""; ReasoningContent := "" |} (Some "stop");
     DataDone].
Proof.
  apply (C8_openai_stream_hi_then_done sample_json 0 "chatcmpl-0"
           "GLM-4-6-API-V1" (payload "answer" "delta_content" "Hi")
           payload_done).
  - reflexivity.
  - reflexivity.
  - discriminate.
  - reflexivity.
Defined.

(** ** Model selection on the Claude endpoint *)

(** C10. Whatever model name a Claude request carries, the internal model
    is GLM-4.6 when the name contains "opus" or "sonnet" and GLM-4.5
    otherwise; the suffix parser finds no -thinking or -search tag on either
    name, so the upstream request never enables thinking or search. *)
Theorem C10_claude_model_never_thinking_or_search (reqModel : string) :
  mapClaudeModel reqModel
  = (if Contains reqModel "opus" || Contains reqModel "sonnet"
     then "GLM-4.6" else "GLM-4.5")
  /\ ParseModelName (mapClaudeModel reqModel)
     = (mapClaudeModel reqModel, false, false)
  /\ IsThinkingModel (mapClaudeModel reqModel) = false
  /\ IsSearchModel (mapClaudeModel reqModel) = false
  /\ claude_upstream_features reqModel
     = (if Contains reqModel "opus" || Contains reqModel "sonnet"
        then "GLM-4-6-API-V1" else "0727-360B-API", false, false).
Proof.
  unfold claude_upstream_features, mapClaudeModel.
  destruct (Contains reqModel "opus" || Contains reqModel "sonnet");
    repeat split; vm_compute; reflexivity.
Qed.

(** ** Snapshots in the phases other and tool_call *)

(** On the OpenAI stream, with the tracked length at [total], a snapshot
    of more runes is cut down to the runes beyond [total] and the length
    advances; any other snapshot is passed on whole. *)
Lemma stream_select_snapshot (tf : ThinkingFilter.t) (total : nat)
    (upstream : UpstreamData) (editContent : string) :
  Phase upstream = "other" \/ Phase upstream = "tool_call" ->
  editContent <> "" ->
  stream_select tf total upstream editContent
  = if (total <? List.length (UTF8.runes editContent))%nat
    then Some (UTF8.string_of_runes (drop total (UTF8.runes editContent)),
               "", List.length (UTF8.runes editContent))
    else Some (editContent, "", total).
Proof.
  intros Hphase Hne. unfold stream_select, nonempty.
  rewrite (eqb_false_of_neq _ _ Hne).
  destruct Hphase as [-> | ->]; reflexivity.
Qed.

Lemma openai_stream_diffs_snapshots :
  handleStreamResponse sample_json 0 "chatcmpl-0" "GLM-4-6-API-V1"
    (map sse_line
       [payload "other" "edit_content" "ab";
        payload "other" "edit_content" "abc";
        payload "other" "edit_content" "abcde"])
  = [content_chunk 0 "chatcmpl-0" "GLM-4-6-API-V1" "ab";
     content_chunk 0 "chatcmpl-0" "GLM-4-6-API-V1" "c";
     content_chunk 0 "chatcmpl-0" "GLM-4-6-API-V1" "de";
     mk_chunk 0 "chatcmpl-0" "GLM-4-6-API-V1"
       {| Content := ""; ReasoningContent := "" |} (Some "stop");
     DataDone].
Proof. vm_compute. reflexivity. Qed.

(** C7. The Claude stream keeps no emitted length: given the snapshots
    "ab", "abc", "abcde" in phase other it writes each of them whole, where
    the OpenAI stream writes "ab", "c", "de". *)
Theorem C7_claude_stream_repeats_snapshots :
  text_deltas
    (handleClaudeStreamResponse sample_json
       (map sse_line
          [payload "other" "edit_content" "ab";
           payload "other" "edit_content" "abc";
           payload "other" "edit_content" "abcde"])
       "msg_0" "claude-3-5-sonnet-20241022")
  = ["ab"; "abc"; "abcde"]
  /\ claude_content (edit_event "other" "abc") = Some "abc".
Proof. split; vm_compute; reflexivity. Qed.

(** ** Isolating the JSON array of an embedded block *)

(** C3. On a search-result block whose title is "a]b" the scan of
    [ParseSearchResults] stops at the bracket inside the quoted title and
    hands the decoder a cut-off text; the scan of [ParseImageSearchResults]
    skips the bracket in the same quoted text and isolates the whole array. *)
Theorem C3_search_scan_stops_inside_quoted_title :
  search_results_json search_block_bracket_title
  = Some ("[{" ++ jstr "title" ++ ":" ++ QUOTE ++ "a]")
  /\ image_results_json image_block_bracket_title
     = Some ("[{" ++ jstr "type" ++ ":" ++ jstr "text" ++ "," ++ jstr "text"
             ++ ":" ++ jstr "Title: a]b; Link: http://e" ++ "}]").
Proof. split; vm_compute; reflexivity. Qed.

(** ** More facts about slicing *)

Lemma slen_sdrop (n : nat) (s : string) :
  String.length (sdrop n s) = (String.length s - n)%nat.
Proof.
  revert s; induction n as [|n IH]; intros [|c s]; simpl; auto with arith.
Qed.

Lemma slen_stake (n : nat) (s : string) :
  String.length (stake n s) = Nat.min n (String.length s).
Proof.
  revert s; induction n as [|n IH]; intros [|c s]; simpl; auto.
Qed.

Lemma stake_sdrop (n : nat) (s : string) : stake n s ++ sdrop n s = s.
Proof.
  revert s; induction n as [|n IH]; intros [|c s]; simpl; auto.
  now rewrite IH.
Qed.

Lemma sdrop_app_length (a b : string) : sdrop (String.length a) (a ++ b) = b.
Proof. induction a as [|c a IH]; simpl; auto. Qed.

Lemma stake_app_length (a b : string) : stake (String.length a) (a ++ b) = a.
Proof. induction a as [|c a IH]; simpl; auto. now rewrite IH. Qed.

Lemma sdrop_app_le (n : nat) (a b : string) :
  (n <= String.length a)%nat -> sdrop n (a ++ b) = sdrop n a ++ b.
Proof.
  revert a; induction n as [|n IH]; intros [|c a] H; simpl in *; auto; try lia.
  apply IH. lia.
Qed.

Lemma stake_app_le (n : nat) (a b : string) :
  (n <= String.length a)%nat -> stake n (a ++ b) = stake n a.
Proof.
  revert a; induction n as [|n IH]; intros [|c a] H; simpl in *; auto; try lia.
  rewrite IH; auto. lia.
Qed.

Lemma sdrop_all (n : nat) (s : string) :
  (String.length s <= n)%nat -> sdrop n s = "".
Proof.
  revert s; induction n as [|n IH]; intros [|c s] H; simpl in *; auto; try lia.
  apply IH. lia.
Qed.

Lemma stake_all (n : nat) (s : string) :
  (String.length s <= n)%nat -> stake n s = s.
Proof.
  revert s; induction n as [|n IH]; intros [|c s] H; simpl in *; auto; try lia.
  rewrite IH; auto. lia.
Qed.

Lemma sdrop_sdrop (n m : nat) (s : string) :
  sdrop n (sdrop m s) = sdrop (m + n) s.
Proof.
  revert s; induction m as [|m IH]; intros s; simpl; auto.
  destruct s as [|c s]; simpl; auto. now destruct n.
Qed.

Lemma sapp_inv_head (a b c : string) : a ++ b = a ++ c -> b = c.
Proof. induction a as [|x a IH]; simpl; intros H; auto. inversion H; auto. Qed.

Lemma slen_zero (s : string) : String.length s = 0%nat -> s = "".
Proof. destruct s; simpl; [reflexivity | discriminate]. Qed.

(** Two ways of cutting one string: the shorter head is a head of the
    longer one. *)
Lemma sapp_eq_split (a b c d : string) :
  a ++ b = c ++ d -> (String.length a <= String.length c)%nat ->
  exists m, c = a ++ m /\ b = m ++ d.
Proof.
  revert c; induction a as [|x a IH]; intros c H Hlen; simpl in *.
  - exists c. auto.
  - destruct c as [|y c]; simpl in *; [lia|].
    inversion H; subst.
    destruct (IH c) as [m [-> ->]]; auto; [lia|].
    exists m. auto.
Qed.

Lemma strip_prefix_length (p s r : string) :
  strip_prefix p s = Some r ->
  String.length s = (String.length p + String.length r)%nat.
Proof.
  intros H. apply strip_prefix_Some in H. subst. apply slen_app.
Qed.

Lemma strip_prefix_app_le (p s r : string) :
  (String.length p <= String.length s)%nat ->
  strip_prefix p (s ++ r)
  = match strip_prefix p s with Some x => Some (x ++ r) | None => None end.
Proof.
  revert s; induction p as [|a p IH]; intros s H; simpl in *; auto.
  destruct s as [|b s]; simpl in *; [lia|].
  destruct (Ascii.eqb a b); auto. apply IH. lia.
Qed.

Lemma HasPrefix_app_le (p s r : string) :
  (String.length p <= String.length s)%nat ->
  HasPrefix (s ++ r) p = HasPrefix s p.
Proof.
  intros H. unfold HasPrefix. rewrite strip_prefix_app_le by auto.
  destruct (strip_prefix p s); auto.
Qed.

Lemma HasPrefix_true (p s : string) :
  HasPrefix s p = true <-> exists r, s = p ++ r.
Proof.
  unfold HasPrefix. split.
  - destruct (strip_prefix p s) eqn:E; [|discriminate].
    intros _. exists s0. now apply strip_prefix_Some.
  - intros [r ->]. now rewrite strip_prefix_app.
Qed.

Lemma HasPrefix_length (p s : string) :
  HasPrefix s p = true -> (String.length p <= String.length s)%nat.
Proof.
  intros H. apply HasPrefix_true in H as [r ->]. rewrite slen_app. lia.
Qed.

Lemma HasSuffix_true (p s : string) :
  HasSuffix s p = true <-> exists h, s = h ++ p.
Proof.
  unfold HasSuffix. split.
  - intros H. apply andb_true_iff in H as [Hl He].
    apply Nat.leb_le in Hl. apply String.eqb_eq in He.
    exists (stake (String.length s - String.length p) s).
    remember (String.length s - String.length p)%nat as k.
    rewrite <- He. symmetry. apply stake_sdrop.
  - intros [h ->]. rewrite slen_app.
    replace (String.length h + String.length p - String.length p)%nat
      with (String.length h) by lia.
    rewrite sdrop_app_length, String.eqb_refl.
    apply andb_true_iff. split; auto. apply Nat.leb_le. lia.
Qed.

Lemma HasSuffix_cut (p h : string) :
  stake (String.length (h ++ p) - String.length p) (h ++ p) = h.
Proof.
  rewrite slen_app.
  replace (String.length h + String.length p - String.length p)%nat
    with (String.length h) by lia.
  apply stake_app_length.
Qed.

(** ** Replacement of matches *)

Section ReplaceMatches.

Variable pat : string -> option nat.
Variable f : string -> string.
Hypothesis pat_pos : forall s n, pat s = Some n -> (1 <= n)%nat.

Lemma replace_matches_fuel (fuel1 fuel2 : nat) (s : string) :
  (String.length s <= fuel1)%nat -> (String.length s <= fuel2)%nat ->
  replace_matches pat f fuel1 s = replace_matches pat f fuel2 s.
Proof.
  revert fuel2 s. induction fuel1 as [|fuel1 IH]; intros fuel2 s H1 H2.
  - apply Nat.le_0_r, slen_zero in H1. subst. now destruct fuel2.
  - destruct s as [|c s]; [now destruct fuel2|].
    destruct fuel2 as [|fuel2]; simpl in H2; [lia|].
    simpl. destruct (pat (String c s)) as [n|] eqn:E.
    + f_equal. apply pat_pos in E.
      apply IH; rewrite slen_sdrop; simpl in *; lia.
    + f_equal. apply IH; simpl in *; lia.
Qed.

(** The replacement, one step at a time. *)
Lemma replace_matches_step (c : ascii) (s : string) :
  replace_matches pat f (String.length (String c s)) (String c s)
  = match pat (String c s) with
    | Some n =>
        f (stake n (String c s))
        ++ replace_matches pat f (String.length (sdrop n (String c s)))
             (sdrop n (String c s))
    | None => String c (replace_matches pat f (String.length s) s)
    end.
Proof.
  simpl. destruct (pat (String c s)) as [n|] eqn:E; auto.
  f_equal. apply pat_pos in E.
  apply replace_matches_fuel; rewrite ?slen_sdrop; simpl; lia.
Qed.

End ReplaceMatches.

(** ** The thinking filter *)

(** Markup normalization: every line-continuation marker becomes a plain
    line feed. *)
#[local] Abbreviation MARK := (LF ++ "> ").
#[local] Abbreviation unquote s := (ReplaceAll s MARK LF).

Lemma literal_at_pos (old : string) :
  old <> "" -> forall s n, literal_at old s = Some n -> (1 <= n)%nat.
Proof.
  intros Hne s n. unfold literal_at.
  destruct (HasPrefix s old); [|discriminate].
  intros [= <-]. destruct old; [congruence | simpl; lia].
Qed.

Lemma unquote_nil : unquote "" = "".
Proof. reflexivity. Qed.

Lemma unquote_mark (s : string) : unquote (MARK ++ s) = LF ++ unquote s.
Proof.
  unfold ReplaceAll. change (MARK ++ s) with (String "010" (String ">" (String " " s))).
  rewrite replace_matches_step by (apply literal_at_pos; discriminate).
  reflexivity.
Qed.

Lemma unquote_other (c : ascii) (s : string) :
  HasPrefix (String c s) MARK = false ->
  unquote (String c s) = String c (unquote s).
Proof.
  intros H. unfold ReplaceAll.
  rewrite replace_matches_step by (apply literal_at_pos; discriminate).
  unfold literal_at. now rewrite H.
Qed.

Lemma unquote_no_lf (s : string) :
  has_byte "010" s = false -> unquote s = s.
Proof.
  induction s as [|c s IH]; intros H; [reflexivity|].
  simpl in H. apply orb_false_iff in H as [Hc Hs].
  rewrite unquote_other, IH; auto.
  change (HasPrefix (String c s) MARK)
    with (match (if Ascii.eqb "010" c then strip_prefix "> " s else None)
          with Some _ => true | None => false end).
  now rewrite Ascii.eqb_sym, Hc.
Qed.

Lemma HasSuffix_no_lf (s p : string) :
  has_byte "010" s = false -> has_byte "010" p = true ->
  HasSuffix s p = false.
Proof.
  intros Hs Hp. destruct (HasSuffix s p) eqn:E; auto.
  apply HasSuffix_true in E as [h ->]. exfalso.
  induction h as [|c h IH]; simpl in Hs; [congruence|].
  apply orb_false_iff in Hs as [_ Hs]. auto.
Qed.

(** C4. On a filter that has not seen a delta of the round, a first delta
    without the marker "> " is suppressed whole; the filter then counts the
    first delta as seen, so every later delta is only normalized, never
    searched for the marker: a later delta without line feeds is returned
    as it is, whether or not it holds "> ". *)
Theorem C4_only_the_first_delta_is_suppressed
    (f : ThinkingFilter.t) (d1 d2 : string) :
  ThinkingFilter.hasSeenFirstThinking f = false ->
  Index d1 "> " = None ->
  ThinkingFilter.ProcessThinking f d1 = ("", ThinkingFilter.set_seen f)
  /\ ThinkingFilter.ProcessThinking (ThinkingFilter.set_seen f) d2
     = ThinkingFilter.normalize (ThinkingFilter.set_seen f) d2
  /\ (ThinkingFilter.buffer f = "" -> has_byte "010" d2 = false ->
      fst (ThinkingFilter.ProcessThinking (ThinkingFilter.set_seen f) d2)
      = d2).
Proof.
  intros Hseen Hidx. unfold ThinkingFilter.ProcessThinking.
  rewrite Hseen, Hidx. simpl. repeat split.
  intros Hbuf Hlf. unfold ThinkingFilter.normalize, ThinkingFilter.hold_back.
  simpl. rewrite Hbuf. simpl. rewrite unquote_no_lf by auto.
  rewrite !HasSuffix_no_lf by auto. reflexivity.
Qed.

Lemma C4_only_the_first_delta_is_suppressed_witness :
  ThinkingFilter.ProcessThinking ThinkingFilter.zero "abc"
  = ("", ThinkingFilter.set_seen ThinkingFilter.zero)
  /\ ThinkingFilter.ProcessThinking
       (ThinkingFilter.set_seen ThinkingFilter.zero) "x> y"
     = ThinkingFilter.normalize
         (ThinkingFilter.set_seen ThinkingFilter.zero) "x> y"
  /\ (ThinkingFilter.buffer ThinkingFilter.zero = "" ->
      has_byte "010" "x> y" = false ->
      fst (ThinkingFilter.ProcessThinking
             (ThinkingFilter.set_seen ThinkingFilter.zero) "x> y")
      = "x> y").
Proof.
  apply (C4_only_the_first_delta_is_suppressed ThinkingFilter.zero "abc"
           "x> y"); reflexivity.
Defined.

(** C4 as stated fails: after a first delta without the marker, a second
    delta without the marker is not suppressed. *)
Lemma C4_later_delta_without_marker_is_emitted :
  ~ (forall d1 d2 : string,
       Index d1 "> " = None -> Index d2 "> " = None ->
       fst (ThinkingFilter.ProcessThinking
              (snd (ThinkingFilter.ProcessThinking ThinkingFilter.zero d1))
              d2) = "").
Proof.
  intros H. specialize (H "abc" "def" eq_refl eq_refl).
  vm_compute in H. discriminate.
Qed.

(** *** Searching for a substring *)

Lemma Index_from_shift (i : nat) (s p : string) :
  Index_from i s p
  = match Index_from 0 s p with Some k => Some (i + k)%nat | None => None end.
Proof.
  revert i; induction s as [|c s IH]; intros i; cbn [Index_from].
  - destruct (HasPrefix "" p); f_equal; lia.
  - destruct (HasPrefix (String c s) p); [f_equal; lia|].
    rewrite IH, (IH 1%nat). destruct (Index_from 0 s p); f_equal; lia.
Qed.

Lemma Index_cons (c : ascii) (s p : string) :
  Index (String c s) p
  = if HasPrefix (String c s) p then Some 0%nat
    else match Index s p with Some k => Some (S k) | None => None end.
Proof.
  unfold Index. cbn [Index_from].
  destruct (HasPrefix (String c s) p); auto. apply Index_from_shift.
Qed.

Lemma Index_nil (p : string) :
  Index "" p = if HasPrefix "" p then Some 0%nat else None.
Proof. reflexivity. Qed.

(** A match found in [s] is the first match of [s ++ r] as well. *)
Lemma Index_app_found (s r p : string) (k : nat) :
  Index s p = Some k ->
  Index (s ++ r) p = Some k /\ (k + String.length p <= String.length s)%nat.
Proof.
  revert k; induction s as [|c s IH]; intros k.
  - rewrite Index_nil. destruct (HasPrefix "" p) eqn:E; [|discriminate].
    intros [= <-]. apply HasPrefix_true in E as [x E].
    destruct p; [|discriminate]. simpl. split; [|lia].
    unfold Index. destruct r; reflexivity.
  - rewrite Index_cons. change (String c s ++ r) with (String c (s ++ r)).
    rewrite Index_cons.
    destruct (HasPrefix (String c s) p) eqn:E.
    + intros [= <-]. pose proof (HasPrefix_length _ _ E) as Hl.
      change (String c (s ++ r)) with (String c s ++ r).
      rewrite HasPrefix_app_le, E by auto. split; auto.
    + destruct (Index s p) as [j|] eqn:Ej; [|discriminate].
      intros [= <-]. destruct (IH j eq_refl) as [IH1 IH2].
      change (String c (s ++ r)) with (String c s ++ r).
      rewrite HasPrefix_app_le, E, IH1 by (simpl; lia).
      split; auto. simpl. lia.
Qed.

Lemma Contains_cons_false (c : ascii) (s p : string) :
  Contains (String c s) p = false
  <-> HasPrefix (String c s) p = false /\ Contains s p = false.
Proof.
  unfold Contains. rewrite Index_cons.
  destruct (HasPrefix (String c s) p); [split; [discriminate | tauto]|].
  destruct (Index s p); split; auto; tauto.
Qed.

Lemma Contains_false_HasPrefix (s p : string) :
  Contains s p = false -> HasPrefix s p = false.
Proof.
  destruct s as [|c s].
  - unfold Contains. rewrite Index_nil. now destruct (HasPrefix "" p).
  - intros H. now apply Contains_cons_false in H.
Qed.

Lemma Contains_false_tail (a s p : string) :
  Contains (a ++ s) p = false -> Contains s p = false.
Proof.
  induction a as [|c a IH]; simpl; auto.
  intros H. apply Contains_cons_false in H as [_ H]. auto.
Qed.

(** *** Normalization and the filter's buffer *)

#[local] Abbreviation NESTED := (LF ++ "> >").

Lemma HasSuffix_cons (c : ascii) (z p : string) :
  HasSuffix (String c z) p = String.eqb (String c z) p || HasSuffix z p.
Proof.
  apply Bool.eq_iff_eq_true. rewrite orb_true_iff, !HasSuffix_true.
  rewrite String.eqb_eq. split.
  - intros [[|x h] E]; simpl in E; [left; auto|].
    inversion E; subst. right. eauto.
  - intros [E | [h ->]]; [exists ""; auto | exists (String c h); auto].
Qed.

Lemma hold_back_cons (c : ascii) (z : string) :
  z <> "" -> String c z <> LF ++ ">" ->
  ThinkingFilter.hold_back (String c z)
  = (String c (fst (ThinkingFilter.hold_back z)),
     snd (ThinkingFilter.hold_back z)).
Proof.
  intros Hne Hgt. unfold ThinkingFilter.hold_back.
  rewrite !HasSuffix_cons.
  rewrite (eqb_false_of_neq _ _ Hgt).
  assert (String.eqb (String c z) LF = false) as ->.
  { apply String.eqb_neq. intros [= -> ->]. auto. }
  cbn [orb].
  destruct (HasSuffix z (LF ++ ">")) eqn:E1.
  - apply HasSuffix_true in E1 as [h ->].
    pose proof (HasSuffix_cut (LF ++ ">") (String c h)) as A1.
    pose proof (HasSuffix_cut (LF ++ ">") h) as A2.
    change (String c (h ++ LF ++ ">")) with (String c h ++ LF ++ ">").
    cbn [fst snd]. f_equal. etransitivity; [exact A1|].
    f_equal. symmetry. exact A2.
  - destruct (HasSuffix z LF) eqn:E2; [|reflexivity].
    apply HasSuffix_true in E2 as [h ->].
    pose proof (HasSuffix_cut LF (String c h)) as A1.
    pose proof (HasSuffix_cut LF h) as A2.
    change (String c (h ++ LF)) with (String c h ++ LF).
    cbn [fst snd]. f_equal. etransitivity; [exact A1|].
    f_equal. symmetry. exact A2.
Qed.

Lemma hold_back_sound (z : string) :
  z = fst (ThinkingFilter.hold_back z) ++ snd (ThinkingFilter.hold_back z)
  /\ (snd (ThinkingFilter.hold_back z) = ""
      \/ snd (ThinkingFilter.hold_back z) = LF
      \/ snd (ThinkingFilter.hold_back z) = LF ++ ">").
Proof.
  unfold ThinkingFilter.hold_back.
  destruct (HasSuffix z (LF ++ ">")) eqn:E1.
  - apply HasSuffix_true in E1 as [h ->]. cbn [fst snd].
    replace (stake (String.length (h ++ LF ++ ">") - 2) (h ++ LF ++ ">"))
      with h by (symmetry; exact (HasSuffix_cut (LF ++ ">") h)).
    auto.
  - destruct (HasSuffix z LF) eqn:E2.
    + apply HasSuffix_true in E2 as [h ->]. cbn [fst snd].
      replace (stake (String.length (h ++ LF) - 1) (h ++ LF))
        with h by (symmetry; exact (HasSuffix_cut LF h)).
      auto.
    + cbn [fst snd]. rewrite sapp_nil_r. auto.
Qed.

Lemma unquote_nonempty (s : string) : s <> "" -> unquote s <> "".
Proof.
  destruct s as [|c s]; [congruence|]. intros _.
  destruct (HasPrefix (String c s) MARK) eqn:E.
  - apply HasPrefix_true in E as [r ->]. rewrite unquote_mark. discriminate.
  - rewrite unquote_other by auto. discriminate.
Qed.

Lemma unquote_gt (s : string) : unquote s = ">" -> s = ">".
Proof.
  destruct s as [|c s]; [discriminate|].
  destruct (HasPrefix (String c s) MARK) eqn:E.
  - apply HasPrefix_true in E as [r ->]. rewrite unquote_mark. discriminate.
  - rewrite unquote_other by auto. intros [= -> H].
    destruct s; [reflexivity|]. now apply unquote_nonempty in H.
Qed.

Lemma HasPrefix_app_true (s r p : string) :
  HasPrefix s p = true -> HasPrefix (s ++ r) p = true.
Proof.
  intros H. apply HasPrefix_true in H as [x ->].
  apply HasPrefix_true. exists (x ++ r). apply sapp_assoc.
Qed.

Lemma HasPrefix_cons (a c : ascii) (p s : string) :
  HasPrefix (String c s) (String a p) = Ascii.eqb a c && HasPrefix s p.
Proof.
  unfold HasPrefix. cbn [strip_prefix]. destruct (Ascii.eqb a c); reflexivity.
Qed.

Lemma HasPrefix_after_lf (Y p : string) :
  HasPrefix (String "010" Y) (LF ++ p) = HasPrefix Y p.
Proof.
  change (LF ++ p) with (String "010" p).
  now rewrite HasPrefix_cons, Ascii.eqb_refl.
Qed.

Lemma HasPrefix_not_gt (Y p : string) :
  HasPrefix Y (String ">" "") = false -> HasPrefix Y (String ">" p) = false.
Proof.
  destruct Y as [|y Y']; [reflexivity|].
  rewrite !HasPrefix_cons. destruct (Ascii.eqb ">" y); [discriminate | auto].
Qed.

(** What one call of the filter withholds can be given back in front of the
    text that follows, as long as no line starts a quote inside a quote. *)
Lemma unquote_hold_back (n : nat) : forall X Y : string,
  (String.length X <= n)%nat ->
  Contains (X ++ Y) NESTED = false ->
  unquote (X ++ Y)
  = fst (ThinkingFilter.hold_back (unquote X))
    ++ unquote (snd (ThinkingFilter.hold_back (unquote X)) ++ Y)
  /\ Contains (snd (ThinkingFilter.hold_back (unquote X)) ++ Y) NESTED = false.
Proof.
  induction n as [|n IH]; intros X Y Hlen Hnest.
  { apply Nat.le_0_r, slen_zero in Hlen. subst. simpl. auto. }
  destruct X as [|c X']; [simpl; auto|].
  destruct (HasPrefix (String c X' ++ Y) MARK) eqn:HP.
  - (* a marker starts here *)
    pose proof HP as HP'. apply HasPrefix_true in HP' as [r Hr].
    simpl in Hr. injection Hr as -> Hr.
    destruct X' as [|c1 X1]; [simpl; auto|].
    simpl in Hr. injection Hr as -> Hr.
    destruct X1 as [|c2 X2]; [simpl; auto|].
    simpl in Hr. injection Hr as -> Hr. subst r.
    change (String "010" (String ">" (String " " X2))) with (MARK ++ X2) in *.
    rewrite sapp_assoc in *. rewrite !unquote_mark.
    assert (HnY : Contains (X2 ++ Y) NESTED = false)
      by (apply (Contains_false_tail MARK); auto).
    destruct X2 as [|c3 X3].
    + (* the marker ends the text *)
      simpl in HnY.
      change (ThinkingFilter.hold_back (LF ++ unquote ""))
        with ("", LF). cbn [fst snd append].
      assert (HY : HasPrefix Y ">" = false).
      { destruct (HasPrefix Y ">") eqn:E; auto.
        apply HasPrefix_true in E as [r ->].
        apply Contains_false_HasPrefix in Hnest. discriminate. }
      change (LF ++ Y) with (String "010" Y) in *.
      split.
      * rewrite unquote_other; auto.
        rewrite (HasPrefix_after_lf Y "> "). now apply HasPrefix_not_gt.
      * apply Contains_cons_false. split; auto.
        rewrite (HasPrefix_after_lf Y "> >"). now apply HasPrefix_not_gt.
    + destruct (IH (String c3 X3) Y) as [IH1 IH2]; auto.
      { simpl in *. lia. }
      change (LF ++ unquote (String c3 X3))
        with (String "010" (unquote (String c3 X3))).
      rewrite hold_back_cons.
      * cbn [fst snd append]. split; auto. rewrite <- IH1. reflexivity.
      * apply unquote_nonempty. discriminate.
      * intros [= E]. apply unquote_gt in E. injection E as -> ->.
        apply Contains_false_HasPrefix in Hnest. discriminate.
  - (* no marker starts here *)
    assert (HPX : HasPrefix (String c X') MARK = false).
    { destruct (HasPrefix (String c X') MARK) eqn:E; auto.
      apply (HasPrefix_app_true _ Y) in E. congruence. }
    change (String c X' ++ Y) with (String c (X' ++ Y)) in *.
    rewrite !unquote_other by auto.
    assert (HnY : Contains (X' ++ Y) NESTED = false)
      by (apply Contains_cons_false in Hnest; tauto).
    destruct X' as [|c1 X1].
    + change (unquote "") with "".
      destruct (Ascii.eqb_spec c "010") as [->|Hc].
      * change (ThinkingFilter.hold_back (String "010" "")) with ("", LF).
        cbn [fst snd append]. change (LF ++ Y) with (String "010" Y).
        simpl in HP. rewrite unquote_other by auto. auto.
      * assert (ThinkingFilter.hold_back (String c "") = (String c "", ""))
          as ->.
        { unfold ThinkingFilter.hold_back. rewrite !HasSuffix_cons.
          assert (String.eqb (String c "") LF = false) as ->
            by (apply String.eqb_neq; intros [= ->]; auto).
          assert (String.eqb (String c "") (LF ++ ">") = false) as ->
            by (apply String.eqb_neq; discriminate).
          reflexivity. }
        simpl. auto.
    + destruct (IH (String c1 X1) Y) as [IH1 IH2]; auto.
      { simpl in *. lia. }
      destruct (string_dec (String c (unquote (String c1 X1))) (LF ++ ">"))
        as [E|E].
      * injection E as -> E. apply unquote_gt in E. rewrite E.
        change (unquote ">") with ">".
        change (ThinkingFilter.hold_back (String "010" ">"))
          with ("", LF ++ ">").
        cbn [fst snd append]. rewrite E in *.
        change ((LF ++ ">") ++ Y) with (String "010" (String ">" Y)).
        rewrite (unquote_other "010" (String ">" Y)) by exact HP.
        split; [reflexivity | exact Hnest].
      * rewrite hold_back_cons; auto.
        -- cbn [fst snd append]. split; auto. rewrite <- IH1. reflexivity.
        -- apply unquote_nonempty. discriminate.
Qed.

(** *** A stream of deltas against the snapshot *)

Lemma normalize_unfold (f : ThinkingFilter.t) (d : string) :
  ThinkingFilter.normalize f d
  = (fst (ThinkingFilter.hold_back (unquote (ThinkingFilter.buffer f ++ d))),
     ThinkingFilter.set_buffer (ThinkingFilter.set_buffer f "")
       (snd (ThinkingFilter.hold_back
               (unquote (ThinkingFilter.buffer f ++ d))))).
Proof.
  unfold ThinkingFilter.normalize.
  now destruct (ThinkingFilter.hold_back _).
Qed.

Lemma normalize_feed (chunks : list string) : forall f : ThinkingFilter.t,
  (ThinkingFilter.buffer f = "" \/ ThinkingFilter.buffer f = LF
   \/ ThinkingFilter.buffer f = LF ++ ">") ->
  Contains (ThinkingFilter.buffer f ++ concat_all chunks) NESTED = false ->
  fst (feed ThinkingFilter.normalize f chunks)
  ++ ThinkingFilter.buffer (snd (feed ThinkingFilter.normalize f chunks))
  = unquote (ThinkingFilter.buffer f ++ concat_all chunks).
Proof.
  induction chunks as [|c chunks IH]; intros f Hheld Hnest.
  - cbn [feed concat_all fst snd]. rewrite sapp_nil_r.
    destruct Hheld as [-> | [-> | ->]]; reflexivity.
  - cbn [feed concat_all] in *. rewrite normalize_unfold.
    rewrite <- sapp_assoc in Hnest |- *.
    destruct (unquote_hold_back _ (ThinkingFilter.buffer f ++ c)
                (concat_all chunks) (Nat.le_refl _) Hnest) as [K1 K2].
    destruct (hold_back_sound (unquote (ThinkingFilter.buffer f ++ c)))
      as [_ Hheld'].
    set (f' := ThinkingFilter.set_buffer _ _) in *.
    specialize (IH f' Hheld' K2).
    destruct (feed ThinkingFilter.normalize f' chunks) as [os f''].
    cbn [fst snd] in *. rewrite sapp_assoc, IH. symmetry. exact K1.
Qed.

Lemma feed_after_first_delta (chunks : list string) :
  forall f : ThinkingFilter.t,
  ThinkingFilter.hasSeenFirstThinking f = true ->
  feed ThinkingFilter.ProcessThinking f chunks
  = feed ThinkingFilter.normalize f chunks.
Proof.
  induction chunks as [|c chunks IH]; intros f Hseen; [reflexivity|].
  cbn [feed]. unfold ThinkingFilter.ProcessThinking at 1. rewrite Hseen.
  cbn [negb]. rewrite normalize_unfold. rewrite IH; auto.
Qed.

(** C2. When the first delta of the round carries the marker "> " and no
    line of the reasoning text opens a quote inside the quote (no line feed
    followed by "> >"), the fragments returned for the deltas, followed by
    what Flush returns, are the text that ExtractCompleteThinking takes out
    of the snapshot made of the same text closed by the details tag. *)
Theorem C2_delta_stream_matches_snapshot
    (f : ThinkingFilter.t) (d0 : string) (ds : list string) (rest : string)
    (idx : nat) :
  ThinkingFilter.hasSeenFirstThinking f = false ->
  ThinkingFilter.buffer f = "" ->
  Index d0 "> " = Some idx ->
  Contains (d0 ++ concat_all ds) NESTED = false ->
  Index ((d0 ++ concat_all ds) ++ LF ++ "</details>" ++ rest)
    (LF ++ "</details>")
  = Some (String.length (d0 ++ concat_all ds)) ->
  ThinkingFilter.ExtractCompleteThinking
    ((d0 ++ concat_all ds) ++ LF ++ "</details>" ++ rest)
  = Some (feed_flush ThinkingFilter.ProcessThinking ThinkingFilter.Flush f
            (d0 :: ds)).
Proof.
  intros Hseen Hbuf Hidx Hnest Hend.
  destruct (Index_app_found d0 (concat_all ds) "> " idx Hidx) as [Ht Hlen].
  destruct (Index_app_found _ (LF ++ "</details>" ++ rest) "> " idx Ht)
    as [Hs _].
  simpl String.length in Hlen.
  set (t := d0 ++ concat_all ds) in *.
  unfold ThinkingFilter.ExtractCompleteThinking. rewrite Hs, Hend.
  assert (Hle : (idx + 2 <= String.length t)%nat)
    by (unfold t; rewrite slen_app; lia).
  destruct (Nat.ltb_spec (String.length t) (idx + 2)) as [|_]; [lia|].
  rewrite stake_app_length. f_equal.
  (* the stream *)
  unfold feed_flush. cbn [feed].
  unfold ThinkingFilter.ProcessThinking at 1. rewrite Hseen, Hidx.
  cbn [negb].
  pose proof (normalize_feed (sdrop (idx + 2) d0 :: ds)
                (ThinkingFilter.set_seen f)) as HF.
  cbn [feed concat_all] in HF.
  destruct (ThinkingFilter.normalize (ThinkingFilter.set_seen f)
              (sdrop (idx + 2) d0)) as [o0 f1] eqn:E0.
  assert (Hseen1 : ThinkingFilter.hasSeenFirstThinking f1 = true).
  { rewrite normalize_unfold in E0. now injection E0 as _ <-. }
  rewrite (feed_after_first_delta ds f1 Hseen1).
  destruct (feed ThinkingFilter.normalize f1 ds) as [os f2].
  cbn [fst snd ThinkingFilter.Flush] in *.
  change (ThinkingFilter.buffer (ThinkingFilter.set_seen f))
    with (ThinkingFilter.buffer f) in HF.
  rewrite Hbuf in HF. cbn [append] in HF.
  rewrite HF; auto.
  - unfold t. now rewrite sdrop_app_le by lia.
  - rewrite <- (sdrop_app_le (idx + 2) d0 (concat_all ds)) by lia.
    apply (Contains_false_tail (stake (idx + 2) t)).
    now rewrite stake_sdrop.
Qed.

Lemma C2_delta_stream_matches_snapshot_witness :
  ThinkingFilter.ExtractCompleteThinking
    ((("<details>" ++ LF ++ "> a" ++ LF)
      ++ concat_all ["> b" ++ LF ++ ">"; " c"])
     ++ LF ++ "</details>" ++ (LF ++ "answer"))
  = Some (feed_flush ThinkingFilter.ProcessThinking ThinkingFilter.Flush
            ThinkingFilter.zero
            (("<details>" ++ LF ++ "> a" ++ LF)
             :: ["> b" ++ LF ++ ">"; " c"])).
Proof.
  apply (C2_delta_stream_matches_snapshot ThinkingFilter.zero
           ("<details>" ++ LF ++ "> a" ++ LF) ["> b" ++ LF ++ ">"; " c"]
           (LF ++ "answer") 10); reflexivity.
Defined.

(** C2 as stated fails: when the header comes in a delta of its own, the
    marker arrives with the second delta and is never stripped. *)
Lemma C2_marker_in_second_delta :
  ~ (forall (ds : list string) (rest : string),
       ThinkingFilter.ExtractCompleteThinking
         (concat_all ds ++ LF ++ "</details>" ++ rest)
       = Some (feed_flush ThinkingFilter.ProcessThinking ThinkingFilter.Flush
                 ThinkingFilter.zero ds)).
Proof.
  intros H. specialize (H ["<details>" ++ LF; "> hello"] "").
  vm_compute in H. discriminate.
Qed.

(** ** Citation tokens *)

Lemma span_digits_spec (s : string) :
  exists d : string,
    s = d ++ snd (span_digits s)
    /\ String.length d = fst (span_digits s)
    /\ every is_digit d = true
    /\ starts_with_digit (snd (span_digits s)) = false.
Proof.
  induction s as [|c s IH].
  - exists "". simpl. auto.
  - cbn [span_digits]. destruct (is_digit c) eqn:Ec.
    + destruct IH as [d [E [L [D N]]]].
      destruct (span_digits s) as [n r]. cbn [fst snd] in *.
      exists (String c d). cbn [append String.length every].
      rewrite Ec, D, L, <- E. auto.
    + exists "". cbn [fst snd append String.length every starts_with_digit].
      auto.
Qed.

Lemma span_digits_app (d r : string) :
  every is_digit d = true -> starts_with_digit r = false ->
  span_digits (d ++ r) = (String.length d, r).
Proof.
  intros D N. induction d as [|c d IH]; cbn [append].
  - destruct r as [|x r]; [reflexivity|].
    cbn [span_digits]. cbn [starts_with_digit] in N. now rewrite N.
  - cbn [every] in D. apply andb_true_iff in D as [Dc D].
    cbn [span_digits]. rewrite Dc, (IH D). reflexivity.
Qed.

Lemma searchRefPattern_token (tok rest : string) :
  is_token tok -> searchRefPattern (tok ++ rest) = Some (String.length tok).
Proof.
  intros (d1 & d2 & -> & D1 & N1 & D2 & N2).
  unfold searchRefPattern.
  rewrite (sapp_assoc (OPEN ++ "turn")), (sapp_assoc d1),
    (sapp_assoc "search"), (sapp_assoc d2).
  rewrite strip_prefix_app. cbn [mbind option_bind].
  rewrite span_digits_app by auto.
  destruct d1 as [|c1 d1]; [congruence|]. cbn [String.length Nat.eqb].
  rewrite strip_prefix_app. cbn [mbind option_bind].
  rewrite span_digits_app by auto.
  destruct d2 as [|c2 d2]; [congruence|]. cbn [String.length Nat.eqb].
  rewrite strip_prefix_app. cbn [mbind option_bind].
  f_equal. unfold OPEN, CLOSE.
  repeat (rewrite slen_app || cbn [String.length append]). lia.
Qed.

Lemma searchRefPattern_Some (s : string) (n : nat) :
  searchRefPattern s = Some n ->
  exists tok rest, s = tok ++ rest /\ is_token tok /\ n = String.length tok.
Proof.
  unfold searchRefPattern.
  destruct (strip_prefix (OPEN ++ "turn") s) as [r1|] eqn:E1;
    [|discriminate].
  cbn [mbind option_bind].
  destruct (span_digits_spec r1) as (d1 & Er1 & L1 & D1 & N1).
  destruct (span_digits r1) as [n1 r2]. cbn [fst snd] in *.
  destruct (Nat.eqb_spec n1 0) as [|Hn1]; [discriminate|].
  destruct (strip_prefix "search" r2) as [r3|] eqn:E3; [|discriminate].
  cbn [mbind option_bind].
  destruct (span_digits_spec r3) as (d2 & Er3 & L2 & D2 & N2).
  destruct (span_digits r3) as [n2 r4]. cbn [fst snd] in *.
  destruct (Nat.eqb_spec n2 0) as [|Hn2]; [discriminate|].
  destruct (strip_prefix CLOSE r4) as [r5|] eqn:E5; [|discriminate].
  cbn [mbind option_bind]. intros [= <-].
  apply strip_prefix_Some in E1, E3, E5. subst.
  exists ((OPEN ++ "turn") ++ d1 ++ "search" ++ d2 ++ CLOSE), r5.
  repeat split.
  - now rewrite !sapp_assoc.
  - exists d1, d2. repeat split; auto.
    + intros ->. apply Hn1. reflexivity.
    + intros ->. apply Hn2. reflexivity.
  - unfold OPEN, CLOSE.
    repeat (rewrite slen_app || cbn [String.length append]). lia.
Qed.

Lemma searchRefPattern_pos (s : string) (n : nat) :
  searchRefPattern s = Some n -> (1 <= n)%nat.
Proof.
  intros H. apply searchRefPattern_Some in H as (tok & rest & _ & T & ->).
  destruct T as (d1 & d2 & -> & _). rewrite slen_app. simpl. lia.
Qed.

(** A match depends on the matched bytes alone. *)
Lemma searchRefPattern_app (X Y : string) (n : nat) :
  searchRefPattern X = Some n -> searchRefPattern (X ++ Y) = Some n.
Proof.
  intros H. apply searchRefPattern_Some in H as (tok & rest & -> & T & ->).
  rewrite sapp_assoc. now apply searchRefPattern_token.
Qed.

Lemma searchRefPattern_app_inv (X Y : string) (n : nat) :
  searchRefPattern (X ++ Y) = Some n -> (n <= String.length X)%nat ->
  searchRefPattern X = Some n.
Proof.
  intros H Hn.
  apply searchRefPattern_Some in H as (tok & rest & E & T & ->).
  symmetry in E. destruct (sapp_eq_split _ _ _ _ E Hn) as (m & -> & _).
  now apply searchRefPattern_token.
Qed.

(** *** Bytes of tokens and of token prefixes *)

Lemma every_app (P : ascii -> bool) (a b : string) :
  every P (a ++ b) = every P a && every P b.
Proof.
  induction a as [|c a IH]; cbn [append every]; [reflexivity|].
  now rewrite IH, andb_assoc.
Qed.

Lemma every_impl (P Q : ascii -> bool) (s : string) :
  (forall c, P c = true -> Q c = true) ->
  every P s = true -> every Q s = true.
Proof.
  intros HPQ. induction s as [|c s IH]; cbn [every]; auto.
  intros H. apply andb_true_iff in H as [Hc Hs].
  rewrite (HPQ c Hc), IH; auto.
Qed.

Lemma has_byte_app (c : ascii) (a b : string) :
  has_byte c (a ++ b) = has_byte c a || has_byte c b.
Proof.
  induction a as [|x a IH]; cbn [append has_byte]; [reflexivity|].
  now rewrite IH, orb_assoc.
Qed.

Lemma has_byte_sdrop (c : ascii) (n : nat) (s : string) :
  has_byte c (sdrop n s) = true -> has_byte c s = true.
Proof.
  intros H. rewrite <- (stake_sdrop n s), has_byte_app, H.
  apply orb_true_r.
Qed.

Lemma every_no_byte (P : ascii -> bool) (c : ascii) (s : string) :
  every P s = true -> P c = false -> has_byte c s = false.
Proof.
  intros Hs Hc. induction s as [|x s IH]; cbn [has_byte every] in *; auto.
  apply andb_true_iff in Hs as [Hx Hs]. rewrite IH by auto.
  destruct (Ascii.eqb_spec x c) as [->|]; [congruence | reflexivity].
Qed.

Lemma is_digit_plain (c : ascii) : is_digit c = true -> plain c = true.
Proof.
  unfold is_digit, plain. intros H.
  apply andb_true_iff in H as [H1 H2].
  apply Nat.leb_le in H1, H2. apply andb_true_iff. split.
  - apply Nat.ltb_lt. lia.
  - destruct (Ascii.eqb_spec c ")") as [->|]; [|reflexivity].
    change (nat_of_ascii ")") with 41%nat in H1. lia.
Qed.

Lemma lit_then_plain (lit : string) (k : string -> bool) :
  every plain lit = true ->
  (forall x, k x = true -> every plain x = true) ->
  forall s, lit_then lit k s = true -> every plain s = true.
Proof.
  intros Hlit Hk s. revert lit Hlit.
  induction s as [|c s IH]; intros lit Hlit; [reflexivity|].
  destruct lit as [|l lit]; cbn [lit_then]; [apply Hk|].
  cbn [every] in Hlit. apply andb_true_iff in Hlit as [Hl Hlit].
  destruct (Ascii.eqb_spec c l) as [->|]; [|discriminate].
  intros H. cbn [every]. rewrite Hl. cbn [andb]. eauto.
Qed.

Lemma all_digits_plain (s : string) :
  all_digits s = true -> every plain s = true.
Proof.
  unfold all_digits. destruct (span_digits_spec s) as (d & E & _ & D & _).
  destruct (span_digits s) as [n r]. cbn [fst snd] in *.
  intros H. apply andb_true_iff in H as [_ H]. apply String.eqb_eq in H.
  subst r. rewrite sapp_nil_r in E. subst d.
  apply (every_impl is_digit); auto using is_digit_plain.
Qed.

Lemma digits_then_plain (k : string -> bool) (s : string) :
  (forall x, k x = true -> every plain x = true) ->
  digits_then k s = true -> every plain s = true.
Proof.
  intros Hk. unfold digits_then.
  destruct (span_digits_spec s) as (d & E & _ & D & _).
  destruct (span_digits s) as [n r]. cbn [fst snd] in *.
  intros H. apply andb_true_iff in H as [_ H].
  rewrite E, every_app, (Hk _ H).
  rewrite (every_impl is_digit plain d); auto using is_digit_plain.
Qed.

(** A text accepted by the prefix pattern from its first byte on: the
    opening bracket followed by plain bytes. *)
Lemma here_shape (b : string) :
  searchRefPrefixPattern_here b = true ->
  exists w, b = OPEN ++ w /\ every plain w = true.
Proof.
  unfold searchRefPrefixPattern_here.
  destruct (strip_prefix OPEN b) as [r|] eqn:E; [|discriminate].
  apply strip_prefix_Some in E. intros H. exists r. split; auto.
  revert H. apply lit_then_plain; [reflexivity|].
  intros x. apply digits_then_plain.
  intros y. apply lit_then_plain; [reflexivity|].
  apply all_digits_plain.
Qed.

Lemma here_no_byte (b : string) (c : ascii) :
  searchRefPrefixPattern_here b = true ->
  plain c = false -> has_byte c OPEN = false ->
  has_byte c b = false.
Proof.
  intros H Hc Ho. apply here_shape in H as (w & -> & Hw).
  rewrite has_byte_app, Ho. apply (every_no_byte plain); auto.
Qed.

Lemma here_head (b : string) :
  searchRefPrefixPattern_here b = true ->
  exists t, b = String "227" t /\ has_byte "227" t = false.
Proof.
  intros H. apply here_shape in H as (w & -> & Hw).
  exists (String "128" (String "144" w)). split; [reflexivity|].
  cbn [has_byte]. rewrite (every_no_byte plain "227" w); auto.
Qed.

(** Of the texts that end at the same place, at most one is accepted. *)
Lemma here_unique (x b : string) :
  searchRefPrefixPattern_here (x ++ b) = true ->
  searchRefPrefixPattern_here b = true -> x = "".
Proof.
  intros H2 H1. destruct x as [|c x]; [reflexivity|]. exfalso.
  apply here_head in H2 as (t & E & Ht).
  apply here_head in H1 as (t1 & -> & _).
  cbn [append] in E. injection E as -> <-.
  rewrite has_byte_app in Ht. cbn [has_byte] in Ht.
  rewrite Ascii.eqb_refl in Ht. cbn [orb] in Ht.
  rewrite orb_true_r in Ht. discriminate.
Qed.

Lemma searchRefPattern_has_close (s : string) (n : nat) :
  searchRefPattern s = Some n -> has_byte "145" s = true.
Proof.
  intros H. apply searchRefPattern_Some in H as (tok & rest & -> & T & _).
  destruct T as (d1 & d2 & -> & _).
  rewrite !has_byte_app. unfold CLOSE. cbn [has_byte].
  rewrite Ascii.eqb_refl. cbn [orb]. now rewrite !orb_true_r.
Qed.

Lemma here_no_token (b : string) (p : nat) :
  searchRefPrefixPattern_here b = true ->
  searchRefPattern (sdrop p b) = None.
Proof.
  intros H. destruct (searchRefPattern (sdrop p b)) as [n|] eqn:E; auto.
  apply searchRefPattern_has_close, has_byte_sdrop in E.
  rewrite (here_no_byte b "145" H) in E; [discriminate | reflexivity..].
Qed.

(** *** Rewriting the tokens of a text *)

#[local] Abbreviation rewrite_refs m s :=
  (ReplaceAllStringFunc searchRefPattern s (SearchRefFilter.resolve_ref m)).

Lemma rewrite_nil (m : gmap string SearchResult) : rewrite_refs m "" = "".
Proof. reflexivity. Qed.

Lemma rewrite_token (m : gmap string SearchResult) (s : string) (n : nat) :
  searchRefPattern s = Some n ->
  rewrite_refs m s
  = SearchRefFilter.resolve_ref m (stake n s) ++ rewrite_refs m (sdrop n s).
Proof.
  intros H. destruct s as [|c s]; [discriminate|].
  unfold ReplaceAllStringFunc.
  rewrite replace_matches_step by apply searchRefPattern_pos.
  now rewrite H.
Qed.

Lemma rewrite_other (m : gmap string SearchResult) (c : ascii) (s : string) :
  searchRefPattern (String c s) = None ->
  rewrite_refs m (String c s) = String c (rewrite_refs m s).
Proof.
  intros H. unfold ReplaceAllStringFunc.
  rewrite replace_matches_step by apply searchRefPattern_pos.
  now rewrite H.
Qed.

Lemma rewrite_no_close (m : gmap string SearchResult) (s : string) :
  has_byte "145" s = false -> rewrite_refs m s = s.
Proof.
  induction s as [|c s IH]; intros H; [reflexivity|].
  destruct (searchRefPattern (String c s)) as [n|] eqn:E.
  - apply searchRefPattern_has_close in E. congruence.
  - rewrite rewrite_other by auto. cbn [has_byte] in H.
    apply orb_false_iff in H as [_ H]. now rewrite IH.
Qed.

Lemma rewrite_here (m : gmap string SearchResult) (b : string) :
  searchRefPrefixPattern_here b = true -> rewrite_refs m b = b.
Proof.
  intros H. apply rewrite_no_close.
  apply (here_no_byte b "145" H); reflexivity.
Qed.

(** *** The look-behind loop *)

Lemma first_held_suffix_Some (z : string) (fuel i j : nat) :
  SearchRefFilter.first_held_suffix z i fuel = Some j ->
  (i <= j < i + fuel)%nat
  /\ searchRefPrefixPattern (sdrop (String.length z - j) z) = true
  /\ forall k, (i <= k < j)%nat ->
       searchRefPrefixPattern (sdrop (String.length z - k) z) = false.
Proof.
  revert i. induction fuel as [|fuel IH]; intros i; [discriminate|].
  cbn [SearchRefFilter.first_held_suffix].
  destruct (searchRefPrefixPattern (sdrop (String.length z - i) z)) eqn:E.
  - intros [= <-]. repeat split; auto; intros; lia.
  - intros H. apply IH in H as (Hj & Hm & Hmin).
    repeat split; auto; try lia.
    intros k Hk. destruct (Nat.eq_dec k i) as [->|]; auto.
    apply Hmin. lia.
Qed.

Lemma first_held_suffix_None (z : string) (fuel i : nat) :
  SearchRefFilter.first_held_suffix z i fuel = None ->
  forall k, (i <= k < i + fuel)%nat ->
    searchRefPrefixPattern (sdrop (String.length z - k) z) = false.
Proof.
  revert i. induction fuel as [|fuel IH]; intros i H k Hk; [lia|].
  cbn [SearchRefFilter.first_held_suffix] in H.
  destruct (searchRefPrefixPattern (sdrop (String.length z - i) z)) eqn:E;
    [discriminate|].
  destruct (Nat.eq_dec k i) as [->|]; auto.
  apply (IH (S i)); auto. lia.
Qed.

Lemma here_anywhere (b : string) :
  searchRefPrefixPattern_here b = true -> searchRefPrefixPattern b = true.
Proof. intros H. destruct b; cbn [searchRefPrefixPattern]; now rewrite H. Qed.

Lemma searchRefPrefixPattern_true (s : string) :
  searchRefPrefixPattern s = true
  <-> exists h b, s = h ++ b /\ searchRefPrefixPattern_here b = true.
Proof.
  split.
  - induction s as [|c s IH]; cbn [searchRefPrefixPattern]; intros H.
    + rewrite orb_false_r in H. exists "", "". auto.
    + apply orb_true_iff in H as [H|H].
      * exists "", (String c s). auto.
      * destruct (IH H) as (h & b & -> & Hb). exists (String c h), b. auto.
  - intros (h & b & -> & Hb). induction h as [|c h IH].
    + now apply here_anywhere.
    + cbn [append searchRefPrefixPattern]. rewrite IH. apply orb_true_r.
Qed.

Lemma suffix_sdrop (a b : string) :
  sdrop (String.length (a ++ b) - String.length b) (a ++ b) = b.
Proof.
  rewrite slen_app.
  replace (String.length a + String.length b - String.length b)%nat
    with (String.length a) by lia.
  apply sdrop_app_length.
Qed.

Lemma here_nonempty (b : string) :
  searchRefPrefixPattern_here b = true -> (1 <= String.length b)%nat.
Proof. intros H. apply here_head in H as (t & -> & _). simpl. lia. Qed.

Lemma sapp_inv_tail (a b c : string) : a ++ c = b ++ c -> a = b.
Proof.
  intros H. destruct (sapp_eq_split a c b c H) as (m & -> & E).
  - apply (f_equal String.length) in H. rewrite !slen_app in H. lia.
  - apply (f_equal String.length) in E. rewrite slen_app in E.
    destruct m; [now rewrite sapp_nil_r | simpl in E; lia].
Qed.

(** What [Process] keeps back is the one accepted text of at most 20 bytes
    that ends the content, when there is one. *)
Lemma look_behind_sound (z : string) :
  z = fst (SearchRefFilter.hold_back z) ++ snd (SearchRefFilter.hold_back z)
  /\ (snd (SearchRefFilter.hold_back z) = ""
      \/ (searchRefPrefixPattern_here (snd (SearchRefFilter.hold_back z))
          = true
          /\ (String.length (snd (SearchRefFilter.hold_back z)) <= 20)%nat)).
Proof.
  unfold SearchRefFilter.hold_back.
  destruct (SearchRefFilter.first_held_suffix z 1
              (Nat.min 20 (String.length z))) as [j|] eqn:E.
  - apply first_held_suffix_Some in E as (Hj & Hm & Hmin).
    cbn [fst snd]. rewrite stake_sdrop. split; auto. right.
    split; [|rewrite slen_sdrop; lia].
    apply searchRefPrefixPattern_true in Hm as (h & b & Ez & Hb).
    destruct h as [|c h]; [now rewrite Ez|]. exfalso.
    pose proof (here_nonempty b Hb) as Hb1.
    assert (Hlen : String.length (String c h ++ b) = j).
    { rewrite <- Ez, slen_sdrop. lia. }
    rewrite slen_app in Hlen. cbn [String.length] in Hlen.
    specialize (Hmin (String.length b)).
    rewrite <- (stake_sdrop (String.length z - j) z) in Hmin at 1 2.
    rewrite Ez, <- sapp_assoc, suffix_sdrop in Hmin.
    rewrite here_anywhere in Hmin by auto.
    assert (true = false) by (apply Hmin; lia). discriminate.
  - cbn [fst snd]. rewrite sapp_nil_r. auto.
Qed.

Lemma look_behind_complete (z h b : string) :
  z = h ++ b -> searchRefPrefixPattern_here b = true ->
  (String.length b <= 20)%nat ->
  SearchRefFilter.hold_back z = (h, b).
Proof.
  intros -> Hb Hlen.
  pose proof (here_nonempty b Hb) as Hb1.
  destruct (look_behind_sound (h ++ b)) as [Ez Hs].
  unfold SearchRefFilter.hold_back in *.
  destruct (SearchRefFilter.first_held_suffix (h ++ b) 1
              (Nat.min 20 (String.length (h ++ b)))) as [j|] eqn:E.
  - apply first_held_suffix_Some in E as (Hj & Hm & Hmin).
    cbn [fst snd] in *.
    set (h' := stake (String.length (h ++ b) - j) (h ++ b)) in *.
    set (b' := sdrop (String.length (h ++ b) - j) (h ++ b)) in *.
    destruct Hs as [Hs | [Hs Hs20]].
    { apply (f_equal String.length) in Hs. unfold b' in Hs.
      rewrite slen_sdrop in Hs. simpl in Hs. lia. }
    assert (Hjb : (j <= String.length b)%nat).
    { destruct (Nat.le_gt_cases j (String.length b)); auto.
      specialize (Hmin (String.length b)).
      rewrite suffix_sdrop, here_anywhere in Hmin by auto.
      assert (true = false) by (apply Hmin; lia). discriminate. }
    assert (Hb' : String.length b' = j).
    { unfold b'. rewrite slen_sdrop. lia. }
    destruct (sapp_eq_split h b h' b' Ez) as (m & Eh & Eb).
    { apply (f_equal String.length) in Ez. rewrite !slen_app in Ez. lia. }
    rewrite Eb in Hb. apply (here_unique m b') in Hb; auto. subst m.
    cbn [append] in Eb. rewrite sapp_nil_r in Eh. congruence.
  - pose proof (first_held_suffix_None _ _ _ E (String.length b)) as Hn.
    rewrite suffix_sdrop, here_anywhere in Hn by auto.
    rewrite slen_app in Hn.
    assert (true = false) by (apply Hn; lia). discriminate.
Qed.

Lemma look_behind_none (z : string) :
  (forall h b, z = h ++ b -> searchRefPrefixPattern_here b = true ->
     (String.length b <= 20)%nat -> False) ->
  SearchRefFilter.hold_back z = (z, "").
Proof.
  intros H. destruct (look_behind_sound z) as [Ez [Hs | [Hs Hs20]]].
  - destruct (SearchRefFilter.hold_back z) as [o b]. cbn [fst snd] in *.
    subst b. rewrite sapp_nil_r in Ez. now subst.
  - exfalso. eauto.
Qed.

Lemma Process_unfold (f : SearchRefFilter.t) (c : string) :
  SearchRefFilter.Process f c
  = (fst (SearchRefFilter.hold_back
            (rewrite_refs (SearchRefFilter.searchResults f)
               (SearchRefFilter.buffer f ++ c))),
     {| SearchRefFilter.buffer :=
          snd (SearchRefFilter.hold_back
                 (rewrite_refs (SearchRefFilter.searchResults f)
                    (SearchRefFilter.buffer f ++ c)));
        SearchRefFilter.searchResults := SearchRefFilter.searchResults f |}).
Proof.
  unfold SearchRefFilter.Process. cbn [SearchRefFilter.searchResults].
  destruct (String.eqb_spec (SearchRefFilter.buffer f ++ c) "") as [->|_];
    [reflexivity|].
  destruct (String.eqb_spec
              (rewrite_refs (SearchRefFilter.searchResults f)
                 (SearchRefFilter.buffer f ++ c)) "") as [->|_];
    [reflexivity|].
  now destruct (SearchRefFilter.hold_back _).
Qed.

(** ** The pending buffer of the citation filter *)

Lemma AddSearchResults_buffer (results : list SearchResult) :
  forall f, SearchRefFilter.buffer (SearchRefFilter.AddSearchResults f results)
            = SearchRefFilter.buffer f.
Proof.
  unfold SearchRefFilter.AddSearchResults.
  induction results as [|r results IH]; intros f; cbn [fold_left]; auto.
  now rewrite IH.
Qed.

Lemma pending_ok_empty (m : gmap string SearchResult) :
  pending_ok {| SearchRefFilter.buffer := "";
                SearchRefFilter.searchResults := m |}.
Proof.
  split; cbn [SearchRefFilter.buffer]; [simpl; lia|].
  intros p. now destruct p.
Qed.

(** C9. Process, Flush and AddSearchResults keep the pending buffer at most
    20 bytes long and free of complete citation tokens. *)
Theorem C9_pending_buffer_invariant
    (f : SearchRefFilter.t) (content : string)
    (results : list SearchResult) :
  pending_ok f ->
  pending_ok (snd (SearchRefFilter.Process f content))
  /\ pending_ok (snd (SearchRefFilter.Flush f))
  /\ pending_ok (SearchRefFilter.AddSearchResults f results).
Proof.
  intros Hf. repeat split.
  - rewrite Process_unfold. cbn [snd SearchRefFilter.buffer].
    destruct (look_behind_sound
                (rewrite_refs (SearchRefFilter.searchResults f)
                   (SearchRefFilter.buffer f ++ content)))
      as [_ [-> | [_ H20]]]; [simpl; lia | exact H20].
  - intros p. rewrite Process_unfold. cbn [snd SearchRefFilter.buffer].
    destruct (look_behind_sound
                (rewrite_refs (SearchRefFilter.searchResults f)
                   (SearchRefFilter.buffer f ++ content)))
      as [_ [-> | [Hh _]]]; [now destruct p | now apply here_no_token].
  - simpl. lia.
  - intros p. now destruct p.
  - rewrite AddSearchResults_buffer. apply Hf.
  - intros p. rewrite AddSearchResults_buffer. apply Hf.
Qed.

Lemma C9_pending_buffer_invariant_witness :
  pending_ok (snd (SearchRefFilter.Process NewSearchRefFilter "See 【turn0"))
  /\ pending_ok (snd (SearchRefFilter.Flush NewSearchRefFilter))
  /\ pending_ok
       (SearchRefFilter.AddSearchResults NewSearchRefFilter
          [{| Title := "X"; URL := "http://e"; SIndex := 1;
              RefID := "turn0search1" |}]).
Proof.
  apply (C9_pending_buffer_invariant NewSearchRefFilter "See 【turn0"
           [{| Title := "X"; URL := "http://e"; SIndex := 1;
               RefID := "turn0search1" |}]).
  split; [simpl; lia | intros p; now destruct p].
Defined.

(** ** Chunked input to the citation filter *)

(** *** A token cut before its end is accepted by the prefix pattern *)

Lemma stake_app (j : nat) (a b : string) :
  stake j (a ++ b) = stake j a ++ stake (j - String.length a) b.
Proof.
  revert a; induction j as [|j IH]; intros a.
  - now destruct a.
  - destruct a as [|c a]; cbn [append stake String.length]; auto.
    now rewrite IH.
Qed.

Lemma every_stake (P : ascii -> bool) (j : nat) (s : string) :
  every P s = true -> every P (stake j s) = true.
Proof.
  revert s; induction j as [|j IH]; intros [|c s] H; auto.
  cbn [stake every] in *. apply andb_true_iff in H as [Hc Hs].
  now rewrite Hc, IH.
Qed.

Lemma starts_with_digit_stake (j : nat) (s : string) :
  starts_with_digit s = false -> starts_with_digit (stake j s) = false.
Proof. destruct j, s; auto. Qed.

Lemma lit_then_stake (k : string -> bool) (U : string) :
  (forall j, stake j U <> "" -> k (stake j U) = true) ->
  forall lit j, lit_then lit k (stake j (lit ++ U)) = true.
Proof.
  intros Hk lit. induction lit as [|l lit IH]; intros j.
  - cbn [append]. destruct (stake j U) eqn:E; [reflexivity|].
    cbn [lit_then]. rewrite <- E. apply Hk. congruence.
  - destruct j as [|j]; [reflexivity|].
    cbn [append stake lit_then]. now rewrite Ascii.eqb_refl.
Qed.

Lemma all_digits_stake (d : string) (j : nat) :
  every is_digit d = true -> stake j d <> "" ->
  all_digits (stake j d) = true.
Proof.
  intros D N. unfold all_digits.
  rewrite <- (sapp_nil_r (stake j d)).
  rewrite span_digits_app; [| now apply every_stake | reflexivity].
  destruct (stake j d); [congruence | reflexivity].
Qed.

Lemma digits_then_stake (k : string -> bool) (d U : string) :
  every is_digit d = true -> d <> "" -> starts_with_digit U = false ->
  k "" = true ->
  (forall j, stake j U <> "" -> k (stake j U) = true) ->
  forall j, stake j (d ++ U) <> "" ->
    digits_then k (stake j (d ++ U)) = true.
Proof.
  intros D N S0 K0 K j Hj. unfold digits_then. rewrite stake_app in *.
  rewrite span_digits_app;
    [| now apply every_stake | now apply starts_with_digit_stake].
  destruct (Nat.le_gt_cases (String.length d) j) as [Hle|Hgt].
  - rewrite stake_all by auto.
    destruct d as [|c d]; [congruence|]. cbn [String.length Nat.eqb negb andb].
    destruct (stake (j - S (String.length d)) U) eqn:E; auto.
    rewrite <- E. apply K. congruence.
  - replace (j - String.length d)%nat with 0%nat in * by lia.
    cbn [stake] in *. rewrite sapp_nil_r in Hj.
    destruct (stake j d); [congruence|]. cbn [String.length Nat.eqb negb andb].
    exact K0.
Qed.

Lemma here_token_prefix (d1 d2 : string) (j : nat) :
  every is_digit d1 = true -> d1 <> "" ->
  every is_digit d2 = true -> d2 <> "" ->
  searchRefPrefixPattern_here
    (OPEN ++ stake j ("turn" ++ d1 ++ "search" ++ d2)) = true.
Proof.
  intros D1 N1 D2 N2. unfold searchRefPrefixPattern_here.
  rewrite strip_prefix_app.
  apply lit_then_stake. intros j1.
  apply digits_then_stake; auto.
  intros j2 _. apply lit_then_stake. intros j3.
  now apply all_digits_stake.
Qed.

(** When a token of at most 23 bytes is cut at a character boundary, what
    comes before the cut is accepted and fits the look-behind. *)
Lemma here_cut_token (X Y : string) (n : nat) :
  searchRefPattern (X ++ Y) = Some n ->
  X <> "" -> (String.length X < n)%nat -> (n <= 23)%nat ->
  starts_on_char Y = true ->
  searchRefPrefixPattern_here X = true /\ (String.length X <= 20)%nat.
Proof.
  intros H HX Hlt H23 HY.
  apply searchRefPattern_Some in H as (tok & rest & E & T & ->).
  destruct T as (d1 & d2 & -> & D1 & N1 & D2 & N2).
  assert (E' : X ++ Y
               = OPEN ++ ("turn" ++ d1 ++ "search" ++ d2) ++ CLOSE ++ rest).
  { rewrite E, !sapp_assoc. reflexivity. }
  assert (L : String.length
                ((OPEN ++ "turn") ++ d1 ++ "search" ++ d2 ++ CLOSE)
              = (3 + String.length ("turn" ++ d1 ++ "search" ++ d2) + 3)%nat).
  { unfold OPEN, CLOSE.
    repeat (rewrite slen_app || cbn [String.length append]). lia. }
  rewrite L in *. clear E L.
  set (T := "turn" ++ d1 ++ "search" ++ d2) in *.
  destruct X as [|x1 [|x2 [|x3 X']]]; [congruence|..].
  - (* cut after the first byte of the opening bracket *)
    injection E' as _ E'. subst Y. discriminate.
  - injection E' as _ _ E'. subst Y. discriminate.
  - unfold OPEN in E'. cbn [append] in E'. injection E' as -> -> -> E'.
    cbn [String.length] in Hlt.
    destruct (Nat.le_gt_cases (String.length X') (String.length T)) as [Hle|Hgt].
    + destruct (sapp_eq_split X' Y T (CLOSE ++ rest) E' Hle) as (m & ET & _).
      assert (X' = stake (String.length X') T)
        by (rewrite ET; now rewrite stake_app_length).
      split; [|cbn [String.length]; lia].
      change (String "227" (String "128" (String "144" X')))
        with (OPEN ++ X').
      rewrite H. now apply here_token_prefix.
    + symmetry in E'.
      destruct (sapp_eq_split T (CLOSE ++ rest) X' Y E') as (m & -> & EC);
        [lia|].
      rewrite slen_app in Hlt, Hgt.
      destruct m as [|m1 [|m2 [|m3 m]]]; cbn [String.length] in *; try lia.
      * unfold CLOSE in EC. cbn [append] in EC. injection EC as _ EC.
        subst Y. discriminate.
      * unfold CLOSE in EC. cbn [append] in EC. injection EC as _ _ EC.
        subst Y. discriminate.
Qed.

(** *** Tokens that pass a check *)

Lemma tokens_ok_tail (check : string -> bool) (a s : string) :
  tokens_ok check (a ++ s) = true -> tokens_ok check s = true.
Proof.
  induction a as [|c a IH]; cbn [append tokens_ok]; auto.
  intros H. apply andb_true_iff in H as [_ H]. auto.
Qed.

Lemma tokens_ok_head (check : string -> bool) (s : string) (n : nat) :
  tokens_ok check s = true -> searchRefPattern s = Some n ->
  check (stake n s) = true.
Proof.
  destruct s as [|c s]; [discriminate|]. cbn [tokens_ok].
  intros H E. rewrite E in H. now apply andb_true_iff in H as [H _].
Qed.

Lemma searchRefPattern_length (s : string) (n : nat) :
  searchRefPattern s = Some n -> (n <= String.length s)%nat.
Proof.
  intros H. apply searchRefPattern_Some in H as (tok & rest & -> & _ & ->).
  rewrite slen_app. lia.
Qed.

(** The link written for a registered token ends with a parenthesis. *)
Lemma resolve_registered (m : gmap string SearchResult) (tok : string) :
  registered m tok = true ->
  exists a0, SearchRefFilter.resolve_ref m tok = a0 ++ ")".
Proof.
  unfold registered, SearchRefFilter.resolve_ref.
  destruct (m !! stake (String.length tok - 6) (sdrop 3 tok)) as [r|];
    [|discriminate].
  intros _. exists ("[\[" ++ itoa (SIndex r) ++ "\]](" ++ URL r).
  now rewrite !sapp_assoc.
Qed.

Lemma paren_in_tail (a0 x y : string) :
  a0 ++ ")" = x ++ y -> y <> "" -> has_byte ")" y = true.
Proof.
  intros E Hy.
  destruct (Nat.le_gt_cases (String.length x) (String.length a0)) as [Hle|Hgt].
  - symmetry in E. destruct (sapp_eq_split x y a0 ")" E Hle) as (m & _ & ->).
    rewrite has_byte_app. apply orb_true_r.
  - destruct (sapp_eq_split a0 ")" x y E) as (m & -> & E'); [lia|].
    apply (f_equal String.length) in E'. rewrite slen_app in *.
    destruct y; [congruence|]. simpl in *. lia.
Qed.

Lemma here_no_paren (b : string) :
  searchRefPrefixPattern_here b = true -> has_byte ")" b = false.
Proof. intros H. apply (here_no_byte b ")" H); reflexivity. Qed.

(** A rewritten text without a parenthesis had no token in it. *)
Lemma rewrite_without_paren (m : gmap string SearchResult) (Y : string)
    (n : nat) : forall X : string,
  (String.length X <= n)%nat ->
  tokens_ok (token_ok m) (X ++ Y) = true ->
  has_byte ")" (rewrite_refs m X) = false ->
  rewrite_refs m X = X.
Proof.
  induction n as [|n IH]; intros X Hlen Hok Hp.
  { apply Nat.le_0_r, slen_zero in Hlen. now subst. }
  destruct X as [|c X]; [reflexivity|].
  destruct (searchRefPattern (String c X)) as [k|] eqn:E.
  - exfalso. pose proof (searchRefPattern_length _ _ E) as Hk.
    pose proof (tokens_ok_head _ _ _ Hok (searchRefPattern_app _ Y _ E)) as C.
    rewrite stake_app_le in C by auto.
    apply andb_true_iff in C as [_ C].
    apply resolve_registered in C as [a0 C].
    rewrite (rewrite_token m _ _ E), C, !has_byte_app in Hp.
    cbn [has_byte] in Hp. rewrite Ascii.eqb_refl in Hp.
    cbn [orb] in Hp. rewrite orb_true_r in Hp. discriminate.
  - rewrite rewrite_other in * by auto. f_equal.
    cbn [has_byte] in Hp. apply orb_false_iff in Hp as [_ Hp].
    cbn [append tokens_ok] in Hok. apply andb_true_iff in Hok as [_ Hok].
    apply IH; auto. simpl in Hlen. lia.
Qed.

(** *** Text put in front of a content *)

Lemma look_behind_prepend (a z : string) :
  (forall x y, a = x ++ y -> y <> "" ->
     searchRefPrefixPattern_here (y ++ z) = true ->
     (String.length (y ++ z) <= 20)%nat -> False) ->
  SearchRefFilter.hold_back (a ++ z)
  = (a ++ fst (SearchRefFilter.hold_back z),
     snd (SearchRefFilter.hold_back z)).
Proof.
  intros Ha. destruct (look_behind_sound z) as [Ez [Hs | [Hh H20]]].
  - assert (Ef : fst (SearchRefFilter.hold_back z) = z)
      by (rewrite Hs, sapp_nil_r in Ez; auto).
    rewrite Hs, Ef. apply look_behind_none. intros h b E Hb Hb20.
    destruct (Nat.le_gt_cases (String.length a) (String.length h))
      as [Hle|Hgt].
    + destruct (sapp_eq_split a z h b E Hle) as (m & -> & Ezb).
      rewrite (look_behind_complete z m b Ezb Hb Hb20) in Hs.
      cbn [snd] in Hs. subst b. apply here_nonempty in Hb. simpl in Hb. lia.
    + symmetry in E.
      destruct (sapp_eq_split h b a z E) as (m & -> & ->); [lia|].
      apply (Ha h m); auto. intros ->. rewrite sapp_nil_r in Hgt. lia.
  - apply look_behind_complete; auto.
    rewrite sapp_assoc. now rewrite <- Ez.
Qed.

(** *** One call of [Process] in front of the text that follows *)

Lemma rewrite_look_behind (m : gmap string SearchResult) (n : nat) :
  forall X Y : string,
  (String.length X <= n)%nat ->
  tokens_ok (token_ok m) (X ++ Y) = true ->
  starts_on_char Y = true ->
  rewrite_refs m (X ++ Y)
  = fst (SearchRefFilter.hold_back (rewrite_refs m X))
    ++ rewrite_refs m (snd (SearchRefFilter.hold_back (rewrite_refs m X)) ++ Y)
  /\ tokens_ok (token_ok m)
       (snd (SearchRefFilter.hold_back (rewrite_refs m X)) ++ Y) = true.
Proof.
  induction n as [|n IH]; intros X Y Hlen Hok HY.
  { apply Nat.le_0_r, slen_zero in Hlen. subst. auto. }
  destruct X as [|c X']; [auto|].
  destruct (searchRefPattern (String c X' ++ Y)) as [k|] eqn:EP.
  - destruct (Nat.le_gt_cases k (String.length (String c X'))) as [Hle|Hgt].
    + (* a whole token starts here *)
      pose proof (searchRefPattern_app_inv _ _ _ EP Hle) as EX.
      pose proof (searchRefPattern_pos _ _ EX) as Hk.
      pose proof (tokens_ok_head _ _ _ Hok EP) as C.
      rewrite stake_app_le in C by auto.
      apply andb_true_iff in C as [_ C].
      apply resolve_registered in C as [a0 C].
      rewrite (rewrite_token m _ _ EP), (rewrite_token m _ _ EX).
      rewrite stake_app_le, sdrop_app_le by auto.
      destruct (IH (sdrop k (String c X')) Y) as [IH1 IH2]; auto.
      { rewrite slen_sdrop. simpl in *. lia. }
      { apply (tokens_ok_tail _ (stake k (String c X'))).
        now rewrite <- sapp_assoc, stake_sdrop. }
      rewrite look_behind_prepend.
      * cbn [fst snd]. split; auto. now rewrite sapp_assoc, <- IH1.
      * intros x y E Hy Hh _. rewrite C in E.
        apply here_no_paren in Hh. rewrite has_byte_app in Hh.
        rewrite (paren_in_tail _ _ _ E Hy) in Hh. discriminate.
    + (* a token starts here and ends in the text that follows *)
      pose proof (tokens_ok_head _ _ _ Hok EP) as C.
      apply andb_true_iff in C as [C _]. unfold fits_window in C.
      apply Nat.leb_le in C. rewrite slen_stake in C.
      pose proof (searchRefPattern_length _ _ EP) as Hk.
      destruct (here_cut_token (String c X') Y k EP ltac:(discriminate) Hgt
                  ltac:(lia) HY) as [Hh H20].
      rewrite (rewrite_here m _ Hh).
      rewrite (look_behind_complete (String c X') "" (String c X'));
        auto.
  - (* no token starts here *)
    assert (EX : searchRefPattern (String c X') = None).
    { destruct (searchRefPattern (String c X')) eqn:E; auto.
      apply (searchRefPattern_app _ Y) in E. congruence. }
    change (String c X' ++ Y) with (String c (X' ++ Y)) in *.
    rewrite !rewrite_other by auto.
    assert (Hok' : tokens_ok (token_ok m) (X' ++ Y) = true).
    { cbn [tokens_ok] in Hok. now apply andb_true_iff in Hok as [_ Hok]. }
    destruct (IH X' Y) as [IH1 IH2]; auto.
    { simpl in Hlen. lia. }
    destruct (searchRefPrefixPattern_here (String c (rewrite_refs m X')))
      eqn:Eh.
    + destruct (Nat.le_gt_cases
                  (String.length (String c (rewrite_refs m X'))) 20)
        as [H20|H20].
      * (* the text so far is itself the start of a token *)
        assert (Hp : has_byte ")" (rewrite_refs m X') = false).
        { apply here_no_paren in Eh. cbn [has_byte] in Eh.
          now apply orb_false_iff in Eh as [_ Eh]. }
        rewrite (rewrite_without_paren m Y _ X' (Nat.le_refl _) Hok' Hp)
          in *.
        rewrite (look_behind_complete (String c X') "" (String c X'));
          auto.
        cbn [fst snd append]. split; auto.
        now rewrite rewrite_other.
      * change (String c (rewrite_refs m X'))
          with (String c "" ++ rewrite_refs m X').
        rewrite look_behind_prepend.
        -- cbn [fst snd append]. split; auto. now rewrite IH1.
        -- intros x y E Hy _ Hl.
           destruct x as [|x0 x]; cbn [append] in E.
           ++ subst y. cbn [append] in Hl. lia.
           ++ injection E as _ E. destruct x; [|discriminate].
              cbn [append] in E. congruence.
    + change (String c (rewrite_refs m X'))
        with (String c "" ++ rewrite_refs m X').
      rewrite look_behind_prepend.
      * cbn [fst snd append]. split; auto. now rewrite IH1.
      * intros x y E Hy Hh _.
        destruct x as [|x0 x]; cbn [append] in E.
        -- subst y. cbn [append] in Hh. congruence.
        -- injection E as _ E. destruct x; [|discriminate].
           cbn [append] in E. congruence.
Qed.

(** *** A stream of chunks *)

Lemma Flush_unfold (f : SearchRefFilter.t) :
  fst (SearchRefFilter.Flush f)
  = rewrite_refs (SearchRefFilter.searchResults f) (SearchRefFilter.buffer f).
Proof.
  unfold SearchRefFilter.Flush. cbn [fst SearchRefFilter.searchResults].
  destruct (String.eqb_spec (SearchRefFilter.buffer f) "") as [->|]; auto.
Qed.

Lemma starts_on_char_concat (chunks : list string) :
  forallb starts_on_char chunks = true ->
  starts_on_char (concat_all chunks) = true.
Proof.
  induction chunks as [|c chunks IH]; cbn [forallb concat_all]; auto.
  intros H. apply andb_true_iff in H as [Hc H].
  destruct c; cbn [append]; auto.
Qed.

Lemma Process_feed (m : gmap string SearchResult) (chunks : list string) :
  forall f : SearchRefFilter.t,
  SearchRefFilter.searchResults f = m ->
  tokens_ok (token_ok m) (SearchRefFilter.buffer f ++ concat_all chunks)
  = true ->
  forallb starts_on_char chunks = true ->
  feed_flush SearchRefFilter.Process SearchRefFilter.Flush f chunks
  = rewrite_refs m (SearchRefFilter.buffer f ++ concat_all chunks).
Proof.
  unfold feed_flush.
  induction chunks as [|c chunks IH]; intros f Hm Hok Hal.
  - cbn [feed concat_all append]. rewrite Flush_unfold, Hm.
    now rewrite sapp_nil_r.
  - cbn [feed concat_all forallb] in *.
    apply andb_true_iff in Hal as [_ Hal].
    rewrite Process_unfold, Hm. rewrite <- sapp_assoc in Hok |- *.
    destruct (rewrite_look_behind m _ (SearchRefFilter.buffer f ++ c)
                (concat_all chunks) (Nat.le_refl _) Hok
                (starts_on_char_concat _ Hal)) as [K1 K2].
    set (f' := {| SearchRefFilter.buffer := _ |}) in *.
    specialize (IH f' eq_refl K2 Hal).
    destruct (feed SearchRefFilter.Process f' chunks) as [os f''].
    rewrite sapp_assoc, IH. symmetry. exact K1.
Qed.

(** A text given in one piece comes out rewritten once the filter is
    flushed. *)
Lemma feed_flush_whole (f : SearchRefFilter.t) (s : string) :
  SearchRefFilter.buffer f = "" ->
  feed_flush SearchRefFilter.Process SearchRefFilter.Flush f [s]
  = rewrite_refs (SearchRefFilter.searchResults f) s.
Proof.
  intros Hb. unfold feed_flush. cbn [feed]. rewrite Process_unfold, Hb.
  cbn [append]. rewrite Flush_unfold.
  cbn [SearchRefFilter.buffer SearchRefFilter.searchResults].
  destruct (look_behind_sound
              (rewrite_refs (SearchRefFilter.searchResults f) s))
    as [Ez [Hs | [Hh _]]].
  - rewrite Hs in *. rewrite rewrite_nil, !sapp_nil_r in *. auto.
  - rewrite (rewrite_here _ _ Hh), sapp_nil_r. auto.
Qed.

(** C1. When every citation token of the input is registered and at most
    23 bytes long (so that its part before the closing bracket fits the 20
    bytes Process looks back over), and the input is cut into chunks at
    character boundaries, the fragments returned for the chunks followed by
    what Flush returns are the output of Process on the whole input followed
    by Flush. *)
Theorem C1_chunking_independent_within_window
    (results : list SearchResult) (chunks : list string) :
  tokens_ok
    (token_ok
       (SearchRefFilter.searchResults
          (SearchRefFilter.AddSearchResults NewSearchRefFilter results)))
    (concat_all chunks) = true ->
  forallb starts_on_char chunks = true ->
  feed_flush SearchRefFilter.Process SearchRefFilter.Flush
    (SearchRefFilter.AddSearchResults NewSearchRefFilter results) chunks
  = feed_flush SearchRefFilter.Process SearchRefFilter.Flush
      (SearchRefFilter.AddSearchResults NewSearchRefFilter results)
      [concat_all chunks].
Proof.
  intros Hok Hal.
  set (f := SearchRefFilter.AddSearchResults NewSearchRefFilter results) in *.
  assert (Hb : SearchRefFilter.buffer f = "")
    by (unfold f; now rewrite AddSearchResults_buffer).
  rewrite feed_flush_whole by auto.
  rewrite (Process_feed (SearchRefFilter.searchResults f) chunks f eq_refl);
    rewrite ?Hb; auto.
Qed.

Lemma C1_chunking_independent_within_window_witness :
  feed_flush SearchRefFilter.Process SearchRefFilter.Flush
    (SearchRefFilter.AddSearchResults NewSearchRefFilter
       [{| Title := "X"; URL := "http://e"; SIndex := 1;
           RefID := "turn0search1" |}])
    ["See 【tu"; "rn0sea"; "rch1】."]
  = feed_flush SearchRefFilter.Process SearchRefFilter.Flush
      (SearchRefFilter.AddSearchResults NewSearchRefFilter
         [{| Title := "X"; URL := "http://e"; SIndex := 1;
             RefID := "turn0search1" |}])
      [concat_all ["See 【tu"; "rn0sea"; "rch1】."]].
Proof.
  apply (C1_chunking_independent_within_window
           [{| Title := "X"; URL := "http://e"; SIndex := 1;
               RefID := "turn0search1" |}]
           ["See 【tu"; "rn0sea"; "rch1】."]); vm_compute; reflexivity.
Defined.

(** C1 as stated fails: a registered token whose part before the closing
    bracket is longer than 20 bytes is written out unrewritten when a chunk
    ends just before the closing bracket. *)
Lemma C1_long_token_split_before_close :
  ~ (forall (results : list SearchResult) (chunks : list string),
       tokens_ok
         (registered
            (SearchRefFilter.searchResults
               (SearchRefFilter.AddSearchResults NewSearchRefFilter results)))
         (concat_all chunks) = true ->
       feed_flush SearchRefFilter.Process SearchRefFilter.Flush
         (SearchRefFilter.AddSearchResults NewSearchRefFilter results) chunks
       = feed_flush SearchRefFilter.Process SearchRefFilter.Flush
           (SearchRefFilter.AddSearchResults NewSearchRefFilter results)
           [concat_all chunks]).
Proof.
  intros H.
  specialize (H [{| Title := "X"; URL := "http://e"; SIndex := 1;
                    RefID := "turn1234567search1234567" |}]
                ["【turn1234567search1234567"; "】"] eq_refl).
  vm_compute in H. discriminate.
Qed.

(** ** Tokens that are not registered *)

Lemma token_bytes (tok : string) :
  is_token tok ->
  exists T, tok = OPEN ++ T ++ CLOSE /\ every plain T = true.
Proof.
  intros (d1 & d2 & -> & D1 & _ & D2 & _).
  exists ("turn" ++ d1 ++ "search" ++ d2). split.
  - rewrite !sapp_assoc. reflexivity.
  - rewrite !every_app.
    rewrite (every_impl is_digit plain d1), (every_impl is_digit plain d2);
      auto using is_digit_plain.
Qed.

Lemma token_exact (tok : string) :
  searchRefPattern tok = Some (String.length tok) -> is_token tok.
Proof.
  intros H. apply searchRefPattern_Some in H as (t & rest & -> & T & E).
  rewrite slen_app in E. destruct rest; [|simpl in E; lia].
  now rewrite sapp_nil_r.
Qed.

(** No match starts before a token and ends inside or after it. *)
Lemma no_match_across_token (a tok rest : string) (k : nat) :
  is_token tok -> a <> "" ->
  searchRefPattern (a ++ tok ++ rest) = Some k ->
  (k <= String.length a)%nat.
Proof.
  intros T Ha H.
  destruct (Nat.le_gt_cases k (String.length a)) as [|Hgt]; auto. exfalso.
  apply searchRefPattern_Some in H as (tok' & rest' & E & T' & ->).
  destruct (sapp_eq_split a (tok ++ rest) tok' rest' E) as (m & Et & Em);
    [lia|].
  apply token_bytes in T as (B & -> & PB).
  apply token_bytes in T' as (B' & -> & PB').
  assert (Hm : m <> "").
  { intros ->. rewrite sapp_nil_r in Et. subst a. lia. }
  destruct m as [|m1 m0]; [congruence|].
  unfold OPEN in Em. cbn [append] in Em. injection Em as <- Em.
  destruct a as [|x1 [|x2 [|x3 a']]]; [congruence|..];
    unfold OPEN in Et; cbn [append] in Et; try discriminate.
  injection Et as <- <- <- Et.
  destruct (Nat.le_gt_cases (String.length B') (String.length a'))
    as [Hle|Hlt].
  - destruct (sapp_eq_split B' CLOSE a' (String "227" m0) Et Hle)
      as (x & -> & Ex).
    unfold CLOSE in Ex.
    destruct x as [|y1 [|y2 [|y3 x]]]; cbn [append] in Ex;
      try discriminate.
    + injection Ex as <-. cbn [append] in Em. discriminate Em.
    + injection Ex as _ _ _ Ex. destruct x; discriminate Ex.
  - symmetry in Et.
    destruct (sapp_eq_split a' (String "227" m0) B' CLOSE Et) as (x & -> & Ex);
      [lia|].
    destruct x as [|y1 x].
    + rewrite sapp_nil_r in Hlt. lia.
    + cbn [append] in Ex. injection Ex as <- _.
      rewrite every_app in PB'. apply andb_true_iff in PB' as [_ PB'].
      discriminate PB'.
Qed.

Lemma rewrite_app_token (m : gmap string SearchResult) (tok b : string)
    (n : nat) : forall a : string,
  (String.length a <= n)%nat -> is_token tok ->
  rewrite_refs m (a ++ tok ++ b)
  = rewrite_refs m a ++ SearchRefFilter.resolve_ref m tok ++ rewrite_refs m b.
Proof.
  induction n as [|n IH]; intros a Hlen T.
  { apply Nat.le_0_r, slen_zero in Hlen. subst. cbn [append].
    rewrite (rewrite_token m _ _ (searchRefPattern_token tok b T)).
    now rewrite stake_app_length, sdrop_app_length. }
  destruct a as [|c a'].
  { cbn [append].
    rewrite (rewrite_token m _ _ (searchRefPattern_token tok b T)).
    now rewrite stake_app_length, sdrop_app_length. }
  destruct (searchRefPattern (String c a' ++ tok ++ b)) as [k|] eqn:EP.
  - assert (Hk : (k <= String.length (String c a'))%nat)
      by (apply (no_match_across_token _ tok b k T); [discriminate | exact EP]).
    pose proof (searchRefPattern_app_inv _ _ _ EP Hk) as EX.
    pose proof (searchRefPattern_pos _ _ EX) as Hk1.
    rewrite (rewrite_token m _ _ EP), (rewrite_token m _ _ EX).
    rewrite stake_app_le, sdrop_app_le by auto.
    rewrite IH; auto; [now rewrite sapp_assoc|].
    rewrite slen_sdrop. simpl in *. lia.
  - assert (EX : searchRefPattern (String c a') = None).
    { destruct (searchRefPattern (String c a')) eqn:E; auto.
      apply (searchRefPattern_app _ (tok ++ b)) in E. congruence. }
    change (String c a' ++ tok ++ b) with (String c (a' ++ tok ++ b)) in *.
    rewrite !rewrite_other by auto. rewrite IH; auto.
    simpl in Hlen. lia.
Qed.

(** C6. When a text is given to Process in one call and the filter is then
    flushed, an occurrence of a citation token whose identifier is not
    registered is replaced by the empty string: the output is the output
    for the text before the occurrence followed by the output for the text
    after it. *)
Theorem C6_unregistered_token_is_deleted
    (f : SearchRefFilter.t) (a tok b : string) :
  SearchRefFilter.buffer f = "" ->
  searchRefPattern tok = Some (String.length tok) ->
  registered (SearchRefFilter.searchResults f) tok = false ->
  feed_flush SearchRefFilter.Process SearchRefFilter.Flush f
    [a ++ tok ++ b]
  = feed_flush SearchRefFilter.Process SearchRefFilter.Flush f [a]
    ++ feed_flush SearchRefFilter.Process SearchRefFilter.Flush f [b].
Proof.
  intros Hb Ht Hr. rewrite !feed_flush_whole by auto.
  rewrite (rewrite_app_token _ tok b _ a (Nat.le_refl _) (token_exact _ Ht)).
  unfold registered in Hr. unfold SearchRefFilter.resolve_ref at 2.
  destruct (SearchRefFilter.searchResults f
              !! stake (String.length tok - 6) (sdrop 3 tok));
    [discriminate | reflexivity].
Qed.

Lemma C6_unregistered_token_is_deleted_witness :
  feed_flush SearchRefFilter.Process SearchRefFilter.Flush
    NewSearchRefFilter ["See " ++ "【turn9search9】" ++ " here."]
  = feed_flush SearchRefFilter.Process SearchRefFilter.Flush
      NewSearchRefFilter ["See "]
    ++ feed_flush SearchRefFilter.Process SearchRefFilter.Flush
         NewSearchRefFilter [" here."].
Proof.
  apply (C6_unregistered_token_is_deleted NewSearchRefFilter "See "
           "【turn9search9】" " here."); reflexivity.
Defined.

(** C6 as stated fails: the token 【turn9search9】 is never registered, and
    removing its occurrence inside another pair of brackets leaves the same
    token in the fragment that Process returns. *)
Lemma C6_token_left_by_removal :
  ~ (forall (chunks : list string) (a tok b : string),
       concat_all chunks = a ++ tok ++ b ->
       searchRefPattern tok = Some (String.length tok) ->
       Contains
         (feed_flush SearchRefFilter.Process SearchRefFilter.Flush
            NewSearchRefFilter chunks) tok = false).
Proof.
  intros H.
  specialize (H ["【turn9【turn9search9】search9】"] "【turn9"
                "【turn9search9】" "search9】" eq_refl eq_refl).
  vm_compute in H. discriminate.
Qed.

(** The same token also survives when it is longer than the look-behind
    and a chunk ends before its closing bracket. *)
Lemma C6_long_token_split_before_close :
  feed_flush SearchRefFilter.Process SearchRefFilter.Flush
    NewSearchRefFilter ["【turn1234567search1234567"; "】"]
  = "【turn1234567search1234567】".
Proof. vm_compute. reflexivity. Qed.

(** ** The Claude stream *)

Lemma nonempty_true (s : string) : nonempty s = true -> s <> "".
Proof.
  unfold nonempty. destruct (String.eqb_spec s ""); [discriminate | auto].
Qed.

Lemma claude_step_events (json : JSON) (st : ClaudeState) (line : string) :
  exists fragments : list string,
    Forall (fun x => x <> "") fragments
    /\ outcome_events (claude_stream_step json st line)
       = map text_delta fragments.
Proof.
  assert (Hnil : exists fragments : list string,
            Forall (fun x => x <> "") fragments
            /\ @nil ClaudeSSE = map text_delta fragments)
    by (exists []; auto).
  unfold claude_stream_step.
  destruct (line_too_long line); [exact Hnil|].
  destruct (negb (HasPrefix line "data: ")); [exact Hnil|].
  destruct (String.eqb (TrimPrefix line "data: ") "[DONE]"); [exact Hnil|].
  destruct (unmarshal_upstream json (TrimPrefix line "data: "))
    as [upstream|]; [|exact Hnil].
  destruct (String.eqb (Phase upstream) "done"); [exact Hnil|].
  destruct (String.eqb (Phase upstream) "thinking"
            && nonempty (DeltaContent upstream)).
  { destruct (ThinkingFilter.ProcessThinking _ _). exact Hnil. }
  destruct (nonempty (EditContent upstream)
            && IsSearchResultContent (EditContent upstream)).
  { destruct (ParseSearchResults json (EditContent upstream)); exact Hnil. }
  destruct (nonempty (EditContent upstream)
            && IsSearchToolCall (EditContent upstream) (Phase upstream));
    [exact Hnil|].
  assert (Hpending : exists fragments : list string,
            Forall (fun x => x <> "") fragments
            /\ (if nonempty (c_pendingSourcesMarkdown st)
                then [text_delta (c_pendingSourcesMarkdown st)] else [])
               = map text_delta fragments).
  { destruct (nonempty (c_pendingSourcesMarkdown st)) eqn:E; [|exact Hnil].
    exists [c_pendingSourcesMarkdown st]. split; auto.
    constructor; auto. now apply nonempty_true. }
  destruct Hpending as (fr & Hfr & ->).
  destruct (claude_content upstream) as [content|]; [|eauto].
  destruct (String.eqb content ""); [eauto|].
  destruct (SearchRefFilter.Process (c_searchRefFilter st) content)
    as [out sf].
  cbn [outcome_events].
  destruct (String.eqb_spec out "") as [->|Hout].
  - exists fr. rewrite app_nil_r. auto.
  - exists (fr ++ [out])%list. rewrite map_app. split; auto.
    apply Forall_app. split; auto.
Qed.

Lemma claude_loop_events (json : JSON) (lines : list string) :
  forall st : ClaudeState,
  exists fragments : list string,
    Forall (fun x => x <> "") fragments
    /\ snd (run_loop (claude_stream_step json) st lines)
       = map text_delta fragments.
Proof.
  induction lines as [|line lines IH]; intros st.
  - exists []. auto.
  - cbn [run_loop].
    destruct (claude_step_events json st line) as (fr & Hfr & E).
    destruct (claude_stream_step json st line) as [st' out|st' out|out];
      cbn [outcome_events] in E; subst out.
    + destruct (IH st') as (fr' & Hfr' & E').
      destruct (run_loop (claude_stream_step json) st' lines) as [r outs].
      cbn [snd] in *. subst outs. exists (fr ++ fr')%list.
      rewrite map_app. split; auto. apply Forall_app. auto.
    + exists fr. auto.
    + exists fr. auto.
Qed.

(** C5. In Claude streaming mode a thinking-phase delta goes through the
    thinking filter and what the filter returns is dropped, together with
    any pending bibliography; an answer delta is written as a text delta,
    after the pending bibliography.  Everything written between the start
    of the text block and its end is a text delta of block 0 with
    non-empty text. *)
Theorem C5_claude_stream_writes_answer_text_only
    (json : JSON) (body : list string) (completionID model : string) :
  (exists fragments : list string,
     Forall (fun x => x <> "") fragments
     /\ (handleClaudeStreamResponse json body completionID model
         = ([MessageStart completionID model 0 0;
             ContentBlockStart 0 "text" ""]
            ++ map text_delta fragments
            ++ [ContentBlockStop 0; MessageDelta "end_turn" 0;
                MessageStop])%list
         \/ handleClaudeStreamResponse json body completionID model
            = ([MessageStart completionID model 0 0;
                ContentBlockStart 0 "text" ""]
               ++ map text_delta fragments)%list))
  /\ (forall (st : ClaudeState) (p : string) (upstream : UpstreamData),
        unmarshal_upstream json p = Some upstream ->
        p <> "[DONE]" -> line_too_long (sse_line p) = false ->
        Phase upstream = "thinking" -> DeltaContent upstream <> "" ->
        claude_stream_step json st (sse_line p)
        = Next {| c_searchRefFilter := c_searchRefFilter st;
                  c_thinkingFilter :=
                    snd (ThinkingFilter.ProcessThinking (c_thinkingFilter st)
                           (DeltaContent upstream));
                  c_pendingSourcesMarkdown := "" |} [])
  /\ (forall (st : ClaudeState) (p : string) (upstream : UpstreamData),
        unmarshal_upstream json p = Some upstream ->
        p <> "[DONE]" -> line_too_long (sse_line p) = false ->
        Phase upstream = "answer" -> DeltaContent upstream <> "" ->
        EditContent upstream = "" ->
        claude_stream_step json st (sse_line p)
        = Next {| c_searchRefFilter :=
                    snd (SearchRefFilter.Process (c_searchRefFilter st)
                           (DeltaContent upstream));
                  c_thinkingFilter := c_thinkingFilter st;
                  c_pendingSourcesMarkdown := "" |}
            ((if nonempty (c_pendingSourcesMarkdown st)
              then [text_delta (c_pendingSourcesMarkdown st)] else [])
             ++ (if String.eqb
                      (fst (SearchRefFilter.Process (c_searchRefFilter st)
                              (DeltaContent upstream))) ""
                 then []
                 else [text_delta
                         (fst (SearchRefFilter.Process (c_searchRefFilter st)
                                 (DeltaContent upstream)))]))%list).
Proof.
  repeat split.
  - unfold handleClaudeStreamResponse.
    destruct (claude_loop_events json body claude_initial) as (fr & Hfr & E).
    destruct (run_loop (claude_stream_step json) claude_initial body)
      as [[st|] out]; cbn [snd] in E; subst out.
    + destruct (SearchRefFilter.Flush (c_searchRefFilter st))
        as [remaining f'].
      destruct (String.eqb_spec remaining "") as [->|Hr].
      * exists fr. split; auto.
      * exists (fr ++ [remaining])%list. split.
        -- apply Forall_app. auto.
        -- left. rewrite map_app, <- !app_assoc. reflexivity.
    + exists fr. auto.
  - intros st p upstream Hu Hp Hlen Hph Hd.
    unfold claude_stream_step. rewrite Hlen.
    change (HasPrefix (sse_line p) "data: ") with true.
    change (TrimPrefix (sse_line p) "data: ") with p.
    cbn [negb]. rewrite (eqb_false_of_neq _ _ Hp), Hu, Hph.
    unfold nonempty. rewrite (eqb_false_of_neq _ _ Hd).
    change (String.eqb "thinking" "done") with false.
    change (String.eqb "thinking" "thinking") with true. cbn [negb andb].
    now destruct (ThinkingFilter.ProcessThinking _ _).
  - intros st p upstream Hu Hp Hlen Hph Hd He.
    assert (Hn : nonempty (DeltaContent upstream) = true)
      by (unfold nonempty; now rewrite (eqb_false_of_neq _ _ Hd)).
    unfold claude_stream_step. rewrite Hlen.
    change (HasPrefix (sse_line p) "data: ") with true.
    change (TrimPrefix (sse_line p) "data: ") with p.
    cbn [negb]. rewrite (eqb_false_of_neq _ _ Hp), Hu.
    unfold claude_content. rewrite Hph, He, Hn.
    change (String.eqb "answer" "done") with false.
    change (String.eqb "answer" "thinking") with false.
    change (String.eqb "answer" "answer") with true.
    change (nonempty "") with false. cbn [negb andb].
    rewrite (eqb_false_of_neq _ _ Hd).
    now destruct (SearchRefFilter.Process _ _).
Qed.

Lemma C5_claude_stream_writes_answer_text_only_witness :
  claude_stream_step sample_json claude_initial
    (sse_line (payload "thinking" "delta_content" "> hello"))
  = Next {| c_searchRefFilter := NewSearchRefFilter;
            c_thinkingFilter :=
              snd (ThinkingFilter.ProcessThinking ThinkingFilter.zero
                     "> hello");
            c_pendingSourcesMarkdown := "" |} []
  /\ outcome_events
       (claude_stream_step sample_json claude_initial
          (sse_line (payload "answer" "delta_content" "Hi")))
     = [text_delta "Hi"].
Proof.
  destruct (C5_claude_stream_writes_answer_text_only sample_json []
              "msg_0" "claude-3-5-sonnet-20241022") as (_ & H2 & H3).
  split.
  - apply (H2 claude_initial (payload "thinking" "delta_content" "> hello")
             (delta_event "thinking" "> hello"));
      [reflexivity | discriminate | reflexivity | reflexivity | discriminate].
  - rewrite (H3 claude_initial (payload "answer" "delta_content" "Hi")
               (delta_event "answer" "Hi"));
      [reflexivity | reflexivity | discriminate | reflexivity | reflexivity
      | discriminate | reflexivity].
Defined.

(** C5 as stated fails: the thinking filter returns "hello" for the delta
    "> hello", and the Claude stream writes no text delta for it. *)
Lemma C5_thinking_fragment_not_written :
  ~ (forall (json : JSON) (p : string) (upstream : UpstreamData),
       unmarshal_upstream json p = Some upstream ->
       Phase upstream = "thinking" ->
       fst (ThinkingFilter.ProcessThinking ThinkingFilter.zero
              (DeltaContent upstream)) <> "" ->
       In (text_delta
             (fst (ThinkingFilter.ProcessThinking ThinkingFilter.zero
                     (DeltaContent upstream))))
          (handleClaudeStreamResponse json [sse_line p] "msg_0"
             "claude-3-5-sonnet-20241022")).
Proof.
  intros H.
  specialize (H sample_json (payload "thinking" "delta_content" "> hello")
                (delta_event "thinking" "> hello") eq_refl eq_refl).
  vm_compute in H.
  destruct H as [H|[H|[H|[H|[H|[]]]]]]; try discriminate H.
  intros E. discriminate E.
Qed.

(** ** Why the side conditions are there *)

(** A quote nested in the quote: the line feed kept back after one marker
    meets the next marker, which the snapshot extraction leaves alone. *)
Lemma nested_quote_stream_differs :
  feed_flush ThinkingFilter.ProcessThinking ThinkingFilter.Flush
    ThinkingFilter.zero ["> a" ++ LF ++ "> "; "> b"]
  = "a" ++ LF ++ "b"
  /\ ThinkingFilter.ExtractCompleteThinking
       (concat_all ["> a" ++ LF ++ "> "; "> b"] ++ LF ++ "</details>")
     = Some ("a" ++ LF ++ "> b").
Proof. split; vm_compute; reflexivity. Qed.

(** A chunk that ends inside the three bytes of the opening bracket: the
    first byte is written out at once and the token is never seen whole. *)
Lemma cut_inside_bracket_differs :
  let f :=
    SearchRefFilter.AddSearchResults NewSearchRefFilter
      [{| Title := "X"; URL := "http://e"; SIndex := 1;
          RefID := "turn0search1" |}] in
  let head := String "227" "" in
  let tail := String "128" (String "144" "turn0search1】") in
  head ++ tail = "【turn0search1】"
  /\ feed_flush SearchRefFilter.Process SearchRefFilter.Flush f [head; tail]
     = "【turn0search1】"
  /\ feed_flush SearchRefFilter.Process SearchRefFilter.Flush f [head ++ tail]
     = "[\[1\]](http://e)".
Proof. repeat split; vm_compute; reflexivity. Qed.

(** * Further properties of the code *)

(** ** The model-name grammar *)

Lemma HasSuffix_app (h p : string) : HasSuffix (h ++ p) p = true.
Proof. apply HasSuffix_true. now exists h. Qed.

Lemma TrimSuffix_app (h p : string) : TrimSuffix (h ++ p) p = h.
Proof. unfold TrimSuffix. rewrite HasSuffix_app. apply HasSuffix_cut. Qed.

Lemma TrimSuffix_shorter (m p : string) :
  p <> "" -> HasSuffix m p = true ->
  (String.length (TrimSuffix m p) < String.length m)%nat
  /\ m = TrimSuffix m p ++ p.
Proof.
  intros Hp H. apply HasSuffix_true in H as [h ->].
  rewrite TrimSuffix_app, slen_app. split; auto.
  destruct p; [congruence | simpl; lia].
Qed.

Lemma ParseModelName_loop_fuel (fuel1 : nat) :
  forall (fuel2 : nat) (m : string) (t s : bool),
  (String.length m <= fuel1)%nat -> (String.length m <= fuel2)%nat ->
  ParseModelName_loop fuel1 m t s = ParseModelName_loop fuel2 m t s.
Proof.
  induction fuel1 as [|fuel1 IH]; intros fuel2 m t s H1 H2.
  - apply Nat.le_0_r, slen_zero in H1. subst. now destruct fuel2.
  - destruct fuel2 as [|fuel2].
    { apply Nat.le_0_r, slen_zero in H2. now subst. }
    cbn [ParseModelName_loop].
    destruct (HasSuffix m "-thinking") eqn:E1.
    { destruct (TrimSuffix_shorter m "-thinking" ltac:(discriminate) E1)
        as [Hl _].
      apply IH; lia. }
    destruct (HasSuffix m "-search") eqn:E2; auto.
    destruct (TrimSuffix_shorter m "-search" ltac:(discriminate) E2)
      as [Hl _].
    apply IH; lia.
Qed.

Lemma ParseModelName_loop_flags (fuel : nat) :
  forall (m : string) (t s : bool),
  ParseModelName_loop fuel m t s
  = let '(b, t', s') := ParseModelName_loop fuel m false false in
    (b, t || t', s || s').
Proof.
  induction fuel as [|fuel IH]; intros m t s; cbn [ParseModelName_loop].
  - now rewrite !orb_false_r.
  - destruct (HasSuffix m "-thinking").
    { rewrite (IH _ true s), (IH _ true false).
      destruct (ParseModelName_loop fuel _ false false) as [[b t'] s'].
      now rewrite !orb_true_r. }
    destruct (HasSuffix m "-search").
    { rewrite (IH _ t true), (IH _ false true).
      destruct (ParseModelName_loop fuel _ false false) as [[b t'] s'].
      now rewrite !orb_true_r. }
    now rewrite !orb_false_r.
Qed.

Lemma search_is_not_thinking (m : string) :
  HasSuffix (m ++ "-search") "-thinking" = false.
Proof.
  destruct (HasSuffix (m ++ "-search") "-thinking") eqn:E; auto.
  apply HasSuffix_true in E as [h E]. exfalso.
  assert (Hl : (String.length h <= String.length m)%nat).
  { apply (f_equal String.length) in E. rewrite !slen_app in E.
    simpl in E. lia. }
  symmetry in E.
  destruct (sapp_eq_split h "-thinking" m "-search" E Hl) as (x & -> & Ex).
  apply (f_equal String.length) in E. rewrite !slen_app in E.
  destruct x as [|x1 [|x2 [|x3 x]]]; simpl in E; try lia.
  discriminate Ex.
Qed.

(** X1. A -thinking tag at the end of a model name is stripped and sets the
    thinking flag, whatever tags come before it: the base model and the
    search flag are those of the name without the tag. *)
Theorem ParseModelName_thinking_tag (model : string) :
  ParseModelName (model ++ "-thinking")
  = let '(baseModel, _, enableSearch) := ParseModelName model in
    (baseModel, true, enableSearch).
Proof.
  unfold ParseModelName. rewrite slen_app.
  replace (String.length model + String.length "-thinking")%nat
    with (S (String.length model + 8)) by (simpl; lia).
  cbn [ParseModelName_loop]. rewrite HasSuffix_app, TrimSuffix_app.
  rewrite (ParseModelName_loop_fuel _ (String.length model)) by lia.
  rewrite ParseModelName_loop_flags.
  now destruct (ParseModelName_loop _ model false false) as [[b t] s].
Qed.

(** X2. A -search tag at the end of a model name is stripped and sets the
    search flag; the base model and the thinking flag are those of the name
    without the tag. *)
Theorem ParseModelName_search_tag (model : string) :
  ParseModelName (model ++ "-search")
  = let '(baseModel, enableThinking, _) := ParseModelName model in
    (baseModel, enableThinking, true).
Proof.
  unfold ParseModelName. rewrite slen_app.
  replace (String.length model + String.length "-search")%nat
    with (S (String.length model + 6)) by (simpl; lia).
  cbn [ParseModelName_loop].
  rewrite search_is_not_thinking, HasSuffix_app, TrimSuffix_app.
  rewrite (ParseModelName_loop_fuel _ (String.length model)) by lia.
  rewrite ParseModelName_loop_flags.
  destruct (ParseModelName_loop _ model false false) as [[b t] s].
  now rewrite orb_false_l.
Qed.

Lemma ParseModelName_loop_done (fuel : nat) :
  forall (m : string) (t s : bool),
  (String.length m <= fuel)%nat ->
  HasSuffix (ParseModelName_loop fuel m t s).1.1 "-thinking" = false
  /\ HasSuffix (ParseModelName_loop fuel m t s).1.1 "-search" = false
  /\ exists tags, m = (ParseModelName_loop fuel m t s).1.1 ++ tags.
Proof.
  induction fuel as [|fuel IH]; intros m t s Hl.
  - apply Nat.le_0_r, slen_zero in Hl. subst. cbn. repeat split.
    now exists "".
  - cbn [ParseModelName_loop].
    destruct (HasSuffix m "-thinking") eqn:E1.
    { destruct (TrimSuffix_shorter m "-thinking" ltac:(discriminate) E1)
        as [Hs Em].
      destruct (IH (TrimSuffix m "-thinking") true s) as (A & B & tags & C);
        [lia|].
      repeat split; auto. exists (tags ++ "-thinking").
      rewrite <- sapp_assoc, <- C. exact Em. }
    destruct (HasSuffix m "-search") eqn:E2.
    { destruct (TrimSuffix_shorter m "-search" ltac:(discriminate) E2)
        as [Hs Em].
      destruct (IH (TrimSuffix m "-search") t true) as (A & B & tags & C);
        [lia|].
      repeat split; auto. exists (tags ++ "-search").
      rewrite <- sapp_assoc, <- C. exact Em. }
    cbn [fst]. repeat split; auto. exists "". now rewrite sapp_nil_r.
Qed.

(** X3. The base model that ParseModelName returns is a prefix of the model
    name and ends with neither tag: the loop always strips every trailing
    tag. *)
Theorem ParseModelName_strips_all_tags (model : string) :
  HasSuffix (ParseModelName model).1.1 "-thinking" = false
  /\ HasSuffix (ParseModelName model).1.1 "-search" = false
  /\ exists tags, model = (ParseModelName model).1.1 ++ tags.
Proof. apply ParseModelName_loop_done. lia. Qed.

(** ** Escaping a title *)

Lemma smap_app (f : ascii -> string) (a b : string) :
  smap f (a ++ b) = smap f a ++ smap f b.
Proof.
  induction a as [|c a IH]; cbn [append smap]; auto.
  now rewrite IH, sapp_assoc.
Qed.

Lemma smap_smap (f g : ascii -> string) (s : string) :
  smap g (smap f s) = smap (fun c => smap g (f c)) s.
Proof.
  induction s as [|c s IH]; cbn [smap]; auto.
  now rewrite smap_app, IH.
Qed.

Lemma smap_ext (f g : ascii -> string) (s : string) :
  (forall c, f c = g c) -> smap f s = smap g s.
Proof.
  intros H. induction s as [|c s IH]; cbn [smap]; auto.
  now rewrite H, IH.
Qed.

(** Replacing a one-byte text goes byte by byte. *)
Lemma ReplaceAll_byte (s : string) (c : ascii) (new : string) :
  ReplaceAll s (String c "") new
  = smap (fun x => if Ascii.eqb x c then new else String x "") s.
Proof.
  induction s as [|x s IH]; [reflexivity|].
  unfold ReplaceAll in *.
  rewrite replace_matches_step by (apply literal_at_pos; discriminate).
  unfold literal_at at 1. rewrite HasPrefix_cons.
  change (HasPrefix s "") with true. rewrite andb_true_r.
  cbn [smap]. rewrite (Ascii.eqb_sym x c).
  destruct (Ascii.eqb c x).
  - cbn [String.length sdrop]. now rewrite IH.
  - now rewrite IH.
Qed.

(** X4. escapeMarkdownTitle works byte by byte: every backslash and every
    square bracket of the title gets one backslash in front of it, and all
    other bytes are kept; the three replacements do not interfere (the
    backslashes added for the brackets are not escaped again). *)
Theorem escapeMarkdownTitle_bytewise (title : string) :
  escapeMarkdownTitle title = smap escape_title_byte title.
Proof.
  unfold escapeMarkdownTitle.
  change "\" with (String "\" "") at 1.
  change "[" with (String "[" "") at 1.
  change "]" with (String "]" "") at 1.
  rewrite !ReplaceAll_byte, !smap_smap. apply smap_ext. intros c.
  unfold escape_title_byte.
  destruct (Ascii.eqb_spec c "\") as [->|H1]; [reflexivity|].
  destruct (Ascii.eqb_spec c "[") as [->|H2]; [reflexivity|].
  destruct (Ascii.eqb_spec c "]") as [->|H3]; [reflexivity|].
  cbn [smap orb]. apply Ascii.eqb_neq in H2, H3.
  rewrite H2. cbn [smap append]. now rewrite H3.
Qed.

(** ** Registering search results *)

Lemma AddSearchResults_snoc (f : SearchRefFilter.t)
    (results : list SearchResult) (r : SearchResult) :
  SearchRefFilter.searchResults
    (SearchRefFilter.AddSearchResults f (results ++ [r]))
  = <[RefID r := r]>
      (SearchRefFilter.searchResults
         (SearchRefFilter.AddSearchResults f results)).
Proof.
  unfold SearchRefFilter.AddSearchResults. now rewrite fold_left_app.
Qed.

(** X5. After AddSearchResults a key maps to the last record of the batch
    that carries it, and to what it mapped to before when the batch has no
    record with this key: later records overwrite earlier ones and nothing
    is ever removed. *)
Theorem AddSearchResults_lookup (f : SearchRefFilter.t)
    (results : list SearchResult) (k : string) :
  SearchRefFilter.searchResults (SearchRefFilter.AddSearchResults f results)
    !! k
  = match List.find (fun r => String.eqb (RefID r) k) (rev results) with
    | Some r => Some r
    | None => SearchRefFilter.searchResults f !! k
    end.
Proof.
  induction results as [|r results IH] using rev_ind; [reflexivity|].
  rewrite AddSearchResults_snoc, rev_app_distr. cbn [rev app List.find].
  destruct (String.eqb_spec (RefID r) k) as [<-|Hk].
  - now rewrite lookup_insert_eq.
  - now rewrite lookup_insert_ne.
Qed.

(** ** More on the citation filter *)

Lemma searchRefPattern_open (c : ascii) (s : string) (n : nat) :
  searchRefPattern (String c s) = Some n -> c = "227"%char.
Proof.
  intros H. apply searchRefPattern_Some in H as (tok & rest & E & T & _).
  apply token_bytes in T as (B & -> & _).
  unfold OPEN in E. cbn [append] in E. now injection E as -> _.
Qed.

Lemma rewrite_no_open (m : gmap string SearchResult) (s : string) :
  has_byte "227" s = false -> rewrite_refs m s = s.
Proof.
  induction s as [|c s IH]; intros H; [reflexivity|].
  cbn [has_byte] in H. apply orb_false_iff in H as [Hc Hs].
  destruct (searchRefPattern (String c s)) as [n|] eqn:E.
  - apply searchRefPattern_open in E. subst c. discriminate Hc.
  - rewrite rewrite_other by auto. now rewrite IH.
Qed.

(** X6. Text without the lead byte of the opening bracket (in particular
    any ASCII text) passes through Process unchanged and nothing is kept
    back, whatever is registered. *)
Theorem Process_plain_text (f : SearchRefFilter.t) (content : string) :
  SearchRefFilter.buffer f = "" ->
  has_byte "227" content = false ->
  SearchRefFilter.Process f content = (content, f).
Proof.
  intros Hb Hc. rewrite Process_unfold, Hb. cbn [append].
  rewrite rewrite_no_open by auto.
  rewrite look_behind_none.
  - destruct f as [b m]. cbn in *. now subst.
  - intros h b -> Hh _. apply here_head in Hh as (t & -> & _).
    rewrite has_byte_app in Hc. cbn [has_byte] in Hc.
    rewrite Ascii.eqb_refl, orb_true_r in Hc. discriminate.
Qed.

Lemma Process_plain_text_witness :
  SearchRefFilter.Process NewSearchRefFilter "Hello, world [1]"
  = ("Hello, world [1]", NewSearchRefFilter).
Proof.
  apply (Process_plain_text NewSearchRefFilter "Hello, world [1]");
    reflexivity.
Defined.

(** X7. Process loses and repeats nothing: the fragment it returns followed
    by the buffer it keeps is the rewritten old buffer plus new content, the
    buffer being empty or a text the prefix pattern accepts from its first
    byte; the registered results are untouched. *)
Theorem Process_conserves_content (f : SearchRefFilter.t) (content : string) :
  fst (SearchRefFilter.Process f content)
  ++ SearchRefFilter.buffer (snd (SearchRefFilter.Process f content))
  = ReplaceAllStringFunc searchRefPattern
      (SearchRefFilter.buffer f ++ content)
      (SearchRefFilter.resolve_ref (SearchRefFilter.searchResults f))
  /\ (SearchRefFilter.buffer (snd (SearchRefFilter.Process f content)) = ""
      \/ searchRefPrefixPattern_here
           (SearchRefFilter.buffer (snd (SearchRefFilter.Process f content)))
         = true)
  /\ SearchRefFilter.searchResults (snd (SearchRefFilter.Process f content))
     = SearchRefFilter.searchResults f.
Proof.
  rewrite Process_unfold. cbn [fst snd SearchRefFilter.buffer
                                 SearchRefFilter.searchResults].
  destruct (look_behind_sound
              (rewrite_refs (SearchRefFilter.searchResults f)
                 (SearchRefFilter.buffer f ++ content)))
    as [Ez Hs].
  repeat split; auto. tauto.
Qed.

(** X8. When a text is given to Process in one call and the filter is then
    flushed, an occurrence of a citation token whose identifier is a
    registered key comes out as the markdown link with the index and URL of
    the record, between the outputs for the text before and after it. *)
Theorem registered_token_becomes_link
    (f : SearchRefFilter.t) (a tok b : string) (r : SearchResult) :
  SearchRefFilter.buffer f = "" ->
  searchRefPattern tok = Some (String.length tok) ->
  SearchRefFilter.searchResults f
    !! stake (String.length tok - 6) (sdrop 3 tok) = Some r ->
  feed_flush SearchRefFilter.Process SearchRefFilter.Flush f
    [a ++ tok ++ b]
  = feed_flush SearchRefFilter.Process SearchRefFilter.Flush f [a]
    ++ ("[\[" ++ itoa (SIndex r) ++ "\]](" ++ URL r ++ ")")
    ++ feed_flush SearchRefFilter.Process SearchRefFilter.Flush f [b].
Proof.
  intros Hb Ht Hr. rewrite !feed_flush_whole by auto.
  rewrite (rewrite_app_token _ tok b _ a (Nat.le_refl _) (token_exact _ Ht)).
  unfold SearchRefFilter.resolve_ref at 2. now rewrite Hr.
Qed.

Lemma registered_token_becomes_link_witness :
  feed_flush SearchRefFilter.Process SearchRefFilter.Flush
    (SearchRefFilter.AddSearchResults NewSearchRefFilter
       [{| Title := "X"; URL := "http://e"; SIndex := 1;
           RefID := "turn0search1" |}])
    ["See " ++ "【turn0search1】" ++ "."]
  = feed_flush SearchRefFilter.Process SearchRefFilter.Flush
      (SearchRefFilter.AddSearchResults NewSearchRefFilter
         [{| Title := "X"; URL := "http://e"; SIndex := 1;
             RefID := "turn0search1" |}])
      ["See "]
    ++ ("[\[" ++ itoa 1 ++ "\]](" ++ "http://e" ++ ")")
    ++ feed_flush SearchRefFilter.Process SearchRefFilter.Flush
         (SearchRefFilter.AddSearchResults NewSearchRefFilter
            [{| Title := "X"; URL := "http://e"; SIndex := 1;
                RefID := "turn0search1" |}])
         ["."].
Proof.
  apply (registered_token_becomes_link
           (SearchRefFilter.AddSearchResults NewSearchRefFilter
              [{| Title := "X"; URL := "http://e"; SIndex := 1;
                  RefID := "turn0search1" |}])
           "See " "【turn0search1】" "."
           {| Title := "X"; URL := "http://e"; SIndex := 1;
              RefID := "turn0search1" |}); vm_compute; reflexivity.
Defined.

(** ** More on the thinking filter *)

(** X9. Once the first delta of a round has been seen and as long as no
    line feed is followed by "> >", the thinking filter does not depend on
    how the text is cut into deltas: the fragments returned for the deltas,
    followed by what Flush returns, are those for the whole text given as
    one delta, namely the text with every line-continuation marker replaced
    by a line feed. *)
Theorem ProcessThinking_chunking_independent
    (f : ThinkingFilter.t) (deltas : list string) :
  ThinkingFilter.hasSeenFirstThinking f = true ->
  ThinkingFilter.buffer f = "" ->
  Contains (concat_all deltas) NESTED = false ->
  feed_flush ThinkingFilter.ProcessThinking ThinkingFilter.Flush f deltas
  = ReplaceAll (concat_all deltas) (LF ++ "> ") LF
  /\ feed_flush ThinkingFilter.ProcessThinking ThinkingFilter.Flush f
       [concat_all deltas]
     = ReplaceAll (concat_all deltas) (LF ++ "> ") LF.
Proof.
  intros Hseen Hbuf Hnest.
  assert (H : forall chunks,
            Contains (concat_all chunks) NESTED = false ->
            feed_flush ThinkingFilter.ProcessThinking ThinkingFilter.Flush f
              chunks
            = unquote (concat_all chunks)).
  { intros chunks Hn. unfold feed_flush.
    rewrite (feed_after_first_delta chunks f Hseen).
    pose proof (normalize_feed chunks f) as HF. rewrite Hbuf in HF.
    cbn [append] in HF.
    destruct (feed ThinkingFilter.normalize f chunks) as [os f'].
    cbn [fst snd ThinkingFilter.Flush] in *. apply HF; auto. }
  split; [now apply H|].
  rewrite H; cbn [concat_all]; now rewrite sapp_nil_r.
Qed.

Lemma ProcessThinking_chunking_independent_witness :
  feed_flush ThinkingFilter.ProcessThinking ThinkingFilter.Flush
    (ThinkingFilter.set_seen ThinkingFilter.zero)
    ["a" ++ LF; ">"; " b" ++ LF ++ "> c"]
  = ReplaceAll (concat_all ["a" ++ LF; ">"; " b" ++ LF ++ "> c"])
      (LF ++ "> ") LF
  /\ feed_flush ThinkingFilter.ProcessThinking ThinkingFilter.Flush
       (ThinkingFilter.set_seen ThinkingFilter.zero)
       [concat_all ["a" ++ LF; ">"; " b" ++ LF ++ "> c"]]
     = ReplaceAll (concat_all ["a" ++ LF; ">"; " b" ++ LF ++ "> c"])
         (LF ++ "> ") LF.
Proof.
  apply (ProcessThinking_chunking_independent
           (ThinkingFilter.set_seen ThinkingFilter.zero)
           ["a" ++ LF; ">"; " b" ++ LF ++ "> c"]); reflexivity.
Defined.



(** *** The part of a snapshot not yet emitted *)

Lemma Index_Some_split (s p : string) (k : nat) :
  Index s p = Some k -> exists rest, s = stake k s ++ p ++ rest.
Proof.
  revert k. induction s as [|c s IH]; intros k.
  - rewrite Index_nil. destruct (HasPrefix "" p) eqn:E; [|discriminate].
    intros [= <-]. apply HasPrefix_true in E as [r E].
    exists r. exact E.
  - rewrite Index_cons. destruct (HasPrefix (String c s) p) eqn:E.
    + intros [= <-]. apply HasPrefix_true in E as [r E].
      exists r. exact E.
    + destruct (Index s p) as [j|]; [|discriminate].
      intros [= <-]. destruct (IH j eq_refl) as [r Er].
      exists r. cbn [stake append]. now rewrite <- Er.
Qed.

Lemma Index_prefix (s p : string) :
  HasPrefix s p = true -> Index s p = Some 0%nat.
Proof.
  intros H. destruct s; [rewrite Index_nil | rewrite Index_cons];
    now rewrite H.
Qed.



(** ** Embedded blocks *)

Lemma scan_image_in_string (k : nat) :
  forall (str s : string) (bracketCount : Z) (endIdx : nat),
  (String.length str <= k)%nat ->
  json_string_body str = true ->
  scan_image_array (str ++ QUOTE ++ s) bracketCount true false endIdx
  = scan_image_array s bracketCount false false
      (endIdx + String.length str + 1).
Proof.
  induction k as [|k IH]; intros str s bc n Hl Hb.
  - apply Nat.le_0_r, slen_zero in Hl. subst. cbn [append String.length].
    unfold QUOTE. cbn [append scan_image_array].
    change (Ascii.eqb "034" "\") with false.
    change (Ascii.eqb "034" "034") with true.
    change (Ascii.eqb "034" "[") with false.
    change (Ascii.eqb "034" "{") with false.
    change (Ascii.eqb "034" "]") with false.
    change (Ascii.eqb "034" "}") with false.
    cbn [negb orb]. f_equal. lia.
  - destruct str as [|c str].
    { apply (IH "" s bc n); [simpl; lia | reflexivity]. }
    cbn [json_string_body] in Hb. cbn [append scan_image_array].
    destruct (Ascii.eqb c "\") eqn:E1.
    + destruct str as [|c2 str]; [discriminate|].
      cbn [append scan_image_array].
      rewrite IH; [| simpl in *; lia | exact Hb].
      f_equal. cbn [String.length]. lia.
    + destruct (Ascii.eqb c "034") eqn:E2; [discriminate|].
      cbn [negb]. rewrite IH; [| simpl in *; lia | exact Hb].
      f_equal. cbn [String.length]. lia.
Qed.

(** X12. The scan of ParseImageSearchResults passes over a JSON string
    literal without counting any bracket or brace in it, escaped quotes
    included; so an array whose only element is a string literal is isolated
    whole, whatever the literal contains. *)
Theorem scan_image_array_skips_string_literal
    (str s : string) (bracketCount : Z) (endIdx : nat) :
  json_string_body str = true ->
  scan_image_array (QUOTE ++ str ++ QUOTE ++ s) bracketCount false false
    endIdx
  = scan_image_array s bracketCount false false
      (endIdx + String.length str + 2)
  /\ scan_image_array ("[" ++ QUOTE ++ str ++ QUOTE ++ "]" ++ s) 0 false
       false 0
     = ((String.length str + 4)%nat, 0%Z).
Proof.
  intros Hb.
  assert (H : forall s bc n,
            scan_image_array (QUOTE ++ str ++ QUOTE ++ s) bc false false n
            = scan_image_array s bc false false (n + String.length str + 2)).
  { intros s0 bc n. unfold QUOTE at 1. cbn [append scan_image_array].
    change (Ascii.eqb "034" "\") with false.
    change (Ascii.eqb "034" "034") with true. cbn [negb].
    rewrite (scan_image_in_string _ str s0 bc (S n) (Nat.le_refl _) Hb).
    f_equal. lia. }
  split; [apply H|].
  cbn [append scan_image_array].
  change (Ascii.eqb "[" "\") with false.
  change (Ascii.eqb "[" "034") with false.
  change (Ascii.eqb "[" "[") with true. cbn [negb orb].
  rewrite H. cbn [append scan_image_array].
  change (Ascii.eqb "]" "\") with false.
  change (Ascii.eqb "]" "034") with false.
  change (Ascii.eqb "]" "[") with false.
  change (Ascii.eqb "]" "{") with false.
  change (Ascii.eqb "]" "]") with true. cbn [negb orb andb].
  change (0 + 1 - 1 =? 0)%Z with true. cbn [andb]. f_equal. lia.
Qed.

Lemma scan_image_array_skips_string_literal_witness :
  scan_image_array (QUOTE ++ "a]b\[" ++ QUOTE ++ "]") 1 false false 1
  = scan_image_array "]" 1 false false (1 + String.length "a]b\[" + 2)
  /\ scan_image_array ("[" ++ QUOTE ++ "a]b\[" ++ QUOTE ++ "]" ++ ", tail") 0
       false false 0
     = ((String.length "a]b\[" + 4)%nat, 0%Z).
Proof.
  apply (scan_image_array_skips_string_literal "a]b\[" "]" 1 1).
  reflexivity.
Defined.

Lemma has_byte_cons_false (c x : ascii) (s : string) :
  has_byte c (String x s) = false ->
  Ascii.eqb x c = false /\ has_byte c s = false.
Proof. cbn [has_byte]. apply orb_false_iff. Qed.

Lemma scan_search_no_brackets (body s : string) :
  forall (bracketCount : Z) (endIdx : nat),
  has_byte "[" body = false -> has_byte "]" body = false ->
  scan_search_array (body ++ s) bracketCount endIdx
  = scan_search_array s bracketCount (endIdx + String.length body).
Proof.
  induction body as [|c body IH]; intros bc n H1 H2.
  - cbn [append String.length]. f_equal. lia.
  - apply has_byte_cons_false in H1 as [E1 H1].
    apply has_byte_cons_false in H2 as [E2 H2].
    cbn [append scan_search_array]. rewrite E1, E2, IH by auto.
    f_equal. cbn [String.length]. lia.
Qed.

Lemma scan_search_unclosed (tail : string) :
  forall (bracketCount : Z) (endIdx : nat),
  (1 <= bracketCount)%Z -> has_byte "]" tail = false ->
  (1 <= snd (scan_search_array tail bracketCount endIdx))%Z.
Proof.
  induction tail as [|c tail IH]; intros bc n Hbc H; [exact Hbc|].
  apply has_byte_cons_false in H as [E H].
  cbn [scan_search_array]. rewrite E.
  destruct (Ascii.eqb c "["); apply IH; auto; lia.
Qed.

Lemma seek_open_gap (gap s : string) :
  has_byte "[" gap = false -> seek_open (gap ++ "[" ++ s) = Some ("[" ++ s).
Proof.
  induction gap as [|c gap IH]; intros H; [reflexivity|].
  apply has_byte_cons_false in H as [E H].
  cbn [append seek_open]. rewrite E. auto.
Qed.

Lemma seek_open_none (s : string) :
  has_byte "[" s = false -> seek_open s = None.
Proof.
  induction s as [|c s IH]; intros H; [reflexivity|].
  apply has_byte_cons_false in H as [E H].
  cbn [seek_open]. rewrite E. auto.
Qed.

(** X13. When the first "search_result": key of a snapshot is followed,
    after bytes other than "[", by an array whose body holds no square
    bracket, ParseSearchResults hands exactly this array to the decoder and
    returns what it decodes. *)
Theorem ParseSearchResults_flat_array
    (json : JSON) (editContent gap body rest : string) (idx : nat) :
  Index editContent (QUOTE ++ "search_result" ++ QUOTE ++ ":") = Some idx ->
  sdrop (idx + String.length (QUOTE ++ "search_result" ++ QUOTE ++ ":"))
    editContent
  = gap ++ "[" ++ body ++ "]" ++ rest ->
  has_byte "[" gap = false ->
  has_byte "[" body = false -> has_byte "]" body = false ->
  search_results_json editContent = Some ("[" ++ body ++ "]")
  /\ ParseSearchResults json editContent
     = match unmarshal_search_results json ("[" ++ body ++ "]") with
       | Some results => results
       | None => []
       end.
Proof.
  intros Hidx Hafter Hgap Hb1 Hb2.
  assert (H : search_results_json editContent = Some ("[" ++ body ++ "]")).
  { unfold search_results_json. rewrite Hidx. cbn [mbind option_bind].
    rewrite Hafter, seek_open_gap by auto. cbn [mbind option_bind].
    change ("[" ++ body ++ "]" ++ rest)
      with (String "[" (body ++ "]" ++ rest)).
    cbn [scan_search_array].
    change (Ascii.eqb "[" "[") with true. cbv iota.
    rewrite scan_search_no_brackets by auto.
    cbn [append scan_search_array].
    change (Ascii.eqb "]" "[") with false.
    change (Ascii.eqb "]" "]") with true. cbv iota.
    change (0 + 1 - 1 =? 0)%Z with true. cbv iota. f_equal.
    change (String "[" (body ++ String "]" rest))
      with ("[" ++ (body ++ String "]" rest)).
    replace (S (1 + String.length body))
      with (String.length ("[" ++ body ++ "]"))
      by (cbn [append String.length]; rewrite slen_app; simpl; lia).
    replace ("[" ++ body ++ String "]" rest)
      with (("[" ++ body ++ "]") ++ rest)
      by (cbn [append]; now rewrite sapp_assoc).
    apply stake_app_length. }
  split; auto. unfold ParseSearchResults. now rewrite H.
Qed.

Lemma ParseSearchResults_flat_array_witness :
  search_results_json
    ("{" ++ jstr "search_result" ++ ": [{" ++ jstr "index" ++ ":1}], "
     ++ jstr "x" ++ ":[]}")
  = Some ("[" ++ ("{" ++ jstr "index" ++ ":1}") ++ "]")
  /\ ParseSearchResults sample_json
       ("{" ++ jstr "search_result" ++ ": [{" ++ jstr "index" ++ ":1}], "
        ++ jstr "x" ++ ":[]}")
     = match unmarshal_search_results sample_json
               ("[" ++ ("{" ++ jstr "index" ++ ":1}") ++ "]") with
       | Some results => results
       | None => []
       end.
Proof.
  apply (ParseSearchResults_flat_array sample_json
           ("{" ++ jstr "search_result" ++ ": [{" ++ jstr "index"
            ++ ":1}], " ++ jstr "x" ++ ":[]}")
           " " ("{" ++ jstr "index" ++ ":1}")
           (", " ++ jstr "x" ++ ":[]}") 1); reflexivity.
Defined.

(** X14. ParseSearchResults returns no record, and does not call the
    decoder, when the key "search_result": is missing, when no "[" follows
    the key, and when the array that follows is never closed. *)
Theorem ParseSearchResults_no_array
    (json : JSON) (editContent : string) :
  (Index editContent (QUOTE ++ "search_result" ++ QUOTE ++ ":") = None ->
   search_results_json editContent = None
   /\ ParseSearchResults json editContent = [])
  /\ (forall idx,
        Index editContent (QUOTE ++ "search_result" ++ QUOTE ++ ":")
        = Some idx ->
        has_byte "["
          (sdrop (idx + String.length
                          (QUOTE ++ "search_result" ++ QUOTE ++ ":"))
             editContent) = false ->
        search_results_json editContent = None
        /\ ParseSearchResults json editContent = [])
  /\ (forall idx gap tail,
        Index editContent (QUOTE ++ "search_result" ++ QUOTE ++ ":")
        = Some idx ->
        sdrop (idx + String.length
                       (QUOTE ++ "search_result" ++ QUOTE ++ ":"))
          editContent
        = gap ++ "[" ++ tail ->
        has_byte "[" gap = false -> has_byte "]" tail = false ->
        search_results_json editContent = None
        /\ ParseSearchResults json editContent = []).
Proof.
  assert (HP : search_results_json editContent = None ->
               search_results_json editContent = None
               /\ ParseSearchResults json editContent = []).
  { intros H. split; auto. unfold ParseSearchResults. now rewrite H. }
  repeat split.
  - unfold search_results_json. now rewrite H.
  - unfold ParseSearchResults, search_results_json. now rewrite H.
  - unfold search_results_json. rewrite H. cbn [mbind option_bind].
    now rewrite seek_open_none.
  - apply HP. unfold search_results_json. rewrite H. cbn [mbind option_bind].
    now rewrite seek_open_none.
  - apply HP. unfold search_results_json. rewrite H. cbn [mbind option_bind].
    rewrite H0, seek_open_gap by auto. cbn [mbind option_bind].
    change ("[" ++ tail) with (String "[" tail). cbn [scan_search_array].
    change (Ascii.eqb "[" "[") with true. cbv iota.
    pose proof (scan_search_unclosed tail (0 + 1) 1 ltac:(lia) H2) as Hs.
    destruct (scan_search_array tail (0 + 1) 1) as [n bc]. cbn [snd] in Hs.
    destruct (Z.eqb_spec bc 0); [lia | reflexivity].
  - apply HP. unfold search_results_json. rewrite H. cbn [mbind option_bind].
    rewrite H0, seek_open_gap by auto. cbn [mbind option_bind].
    change ("[" ++ tail) with (String "[" tail). cbn [scan_search_array].
    change (Ascii.eqb "[" "[") with true. cbv iota.
    pose proof (scan_search_unclosed tail (0 + 1) 1 ltac:(lia) H2) as Hs.
    destruct (scan_search_array tail (0 + 1) 1) as [n bc]. cbn [snd] in Hs.
    destruct (Z.eqb_spec bc 0); [lia | reflexivity].
Qed.

Lemma ParseSearchResults_no_array_witness :
  search_results_json ("{" ++ jstr "search_result" ++ ":[{" ++ jstr "a")
  = None
  /\ ParseSearchResults sample_json
       ("{" ++ jstr "search_result" ++ ":[{" ++ jstr "a") = [].
Proof.
  destruct (ParseSearchResults_no_array sample_json
              ("{" ++ jstr "search_result" ++ ":[{" ++ jstr "a"))
    as (_ & _ & H).
  apply (H 1 "" ("{" ++ jstr "a")); reflexivity.
Defined.

(** X15. ExtractTextBeforeGlmBlock returns the text in front of the first
    "<glm_block" tag without one trailing line feed, when this text has no
    "<" of its own, and the empty string when the snapshot has no tag. *)
Theorem ExtractTextBeforeGlmBlock_text (before rest editContent : string) :
  (has_byte "<" before = false ->
   ExtractTextBeforeGlmBlock (before ++ "<glm_block" ++ rest)
   = if HasSuffix before LF
     then stake (String.length before - 1) before else before)
  /\ (Index editContent "<glm_block" = None ->
      ExtractTextBeforeGlmBlock editContent = "").
Proof.
  split.
  - intros H.
    assert (HI : Index (before ++ "<glm_block" ++ rest) "<glm_block"
                 = Some (String.length before)).
    { induction before as [|c before IH].
      - apply Index_prefix. reflexivity.
      - apply has_byte_cons_false in H as [E H].
        change (String c before ++ "<glm_block" ++ rest)
          with (String c (before ++ "<glm_block" ++ rest)).
        rewrite Index_cons.
        rewrite HasPrefix_cons, (Ascii.eqb_sym "<" c), E. cbn [andb].
        now rewrite IH. }
    unfold ExtractTextBeforeGlmBlock. rewrite HI.
    now rewrite stake_app_length.
  - intros H. unfold ExtractTextBeforeGlmBlock. now rewrite H.
Qed.

Lemma ExtractTextBeforeGlmBlock_text_witness :
  ExtractTextBeforeGlmBlock
    (("Searching" ++ LF) ++ "<glm_block" ++ " >{}</glm_block>")
  = (if HasSuffix ("Searching" ++ LF) LF
     then stake (String.length ("Searching" ++ LF) - 1) ("Searching" ++ LF)
     else "Searching" ++ LF)
  /\ ExtractTextBeforeGlmBlock "no block here" = "".
Proof.
  destruct (ExtractTextBeforeGlmBlock_text ("Searching" ++ LF)
              " >{}</glm_block>" "no block here") as [H1 H2].
  split; [apply H1 | apply H2]; reflexivity.
Defined.

(** ** The read loops *)

Lemma run_loop_stop {S E : Type} (step : S -> string -> Outcome S E)
    (line : string) (pre post : list string) :
  (forall st, step st line = Stop st []) ->
  forall st,
  run_loop step st (pre ++ line :: post)%list = run_loop step st pre.
Proof.
  intros Hl. induction pre as [|l pre IH]; intros st.
  - cbn [app run_loop]. now rewrite Hl.
  - cbn [app run_loop]. destruct (step st l); auto. now rewrite IH.
Qed.

Lemma run_loop_skip {S E : Type} (step : S -> string -> Outcome S E)
    (line : string) (pre post : list string) :
  (forall st, step st line = Next st []) ->
  forall st,
  run_loop step st (pre ++ line :: post)%list
  = run_loop step st (pre ++ post)%list.
Proof.
  intros Hl. induction pre as [|l pre IH]; intros st.
  - cbn [app run_loop]. rewrite Hl.
    now destruct (run_loop step st post).
  - cbn [app run_loop]. destruct (step st l); auto. now rewrite IH.
Qed.

Ltac loop_head Hl :=
  intros st;
  match goal with
  | |- ?step _ _ _ = _ => unfold step
  | |- ?step _ _ _ _ _ _ = _ => unfold step
  end;
  destruct (line_too_long _); cbn [orb negb andb] in Hl;
    [try reflexivity; try discriminate Hl|];
  destruct (HasPrefix _ "data: "); cbn [orb negb andb] in Hl;
    [|try reflexivity; try discriminate Hl];
  destruct (String.eqb (TrimPrefix _ "data: ") "[DONE]");
    cbn [orb negb andb] in Hl; [try reflexivity; try discriminate Hl|];
  destruct (unmarshal_upstream _ _) as [upstream|];
    [|try reflexivity; try discriminate Hl];
  try discriminate Hl; try (rewrite Hl; reflexivity).

Lemma ends_stream_steps (json : JSON) (now : Z)
    (completionID modelName line : string) :
  ends_stream json line = true ->
  (forall st, claude_stream_step json st line = Stop st [])
  /\ (forall st,
        stream_step json now completionID modelName st line = Stop st [])
  /\ (forall st, claude_collect_step json st line = Stop st [])
  /\ (forall st, collect_step json st line = Stop st []).
Proof.
  unfold ends_stream. intros Hl. repeat split; loop_head Hl.
Qed.

Lemma skipped_line_steps (json : JSON) (now : Z)
    (completionID modelName line : string) :
  skipped_line json line = true ->
  (forall st, claude_stream_step json st line = Next st [])
  /\ (forall st,
        stream_step json now completionID modelName st line = Next st [])
  /\ (forall st, claude_collect_step json st line = Next st [])
  /\ (forall st, collect_step json st line = Next st []).
Proof.
  unfold skipped_line. intros Hl. repeat split; loop_head Hl.
Qed.

(** X16. Each of the four response handlers stops reading at the line
    [data: [DONE]], at an event of phase done and at a line that does not
    fit the scanner's buffer: what it answers is what it answers for the
    lines before, whatever follows. *)
Theorem handlers_stop_at_end_line
    (json : JSON) (now : Z) (completionID model line : string)
    (pre post : list string) :
  ends_stream json line = true ->
  handleClaudeStreamResponse json (pre ++ line :: post) completionID model
  = handleClaudeStreamResponse json pre completionID model
  /\ handleStreamResponse json now completionID model (pre ++ line :: post)
     = handleStreamResponse json now completionID model pre
  /\ handleClaudeNonStreamResponse json (pre ++ line :: post)
       completionID model
     = handleClaudeNonStreamResponse json pre completionID model
  /\ handleNonStreamResponse json now completionID model
       (pre ++ line :: post)
     = handleNonStreamResponse json now completionID model pre.
Proof.
  intros Hl.
  destruct (ends_stream_steps json now completionID model line Hl)
    as (H1 & H2 & H3 & H4).
  unfold handleClaudeStreamResponse, handleStreamResponse,
    handleClaudeNonStreamResponse, handleNonStreamResponse.
  now rewrite !run_loop_stop by assumption.
Qed.

Lemma handlers_stop_at_end_line_witness :
  handleClaudeStreamResponse sample_json
    ([sse_line (payload "answer" "delta_content" "Hi")]
     ++ sse_line "[DONE]"
     :: [sse_line (payload "other" "edit_content" "ab")]) "msg_0" "m"
  = handleClaudeStreamResponse sample_json
      [sse_line (payload "answer" "delta_content" "Hi")] "msg_0" "m"
  /\ handleStreamResponse sample_json 0 "msg_0" "m"
       ([sse_line (payload "answer" "delta_content" "Hi")]
        ++ sse_line "[DONE]"
        :: [sse_line (payload "other" "edit_content" "ab")])
     = handleStreamResponse sample_json 0 "msg_0" "m"
         [sse_line (payload "answer" "delta_content" "Hi")]
  /\ handleClaudeNonStreamResponse sample_json
       ([sse_line (payload "answer" "delta_content" "Hi")]
        ++ sse_line "[DONE]"
        :: [sse_line (payload "other" "edit_content" "ab")]) "msg_0" "m"
     = handleClaudeNonStreamResponse sample_json
         [sse_line (payload "answer" "delta_content" "Hi")] "msg_0" "m"
  /\ handleNonStreamResponse sample_json 0 "msg_0" "m"
       ([sse_line (payload "answer" "delta_content" "Hi")]
        ++ sse_line "[DONE]"
        :: [sse_line (payload "other" "edit_content" "ab")])
     = handleNonStreamResponse sample_json 0 "msg_0" "m"
         [sse_line (payload "answer" "delta_content" "Hi")].
Proof.
  apply (handlers_stop_at_end_line sample_json 0 "msg_0" "m"
           (sse_line "[DONE]")).
  vm_compute. reflexivity.
Defined.

(** X17. Each of the four response handlers passes over a line that is no
    data line, and over a data line whose payload does not decode: taking
    such a line out of the body changes nothing in the answer. *)
Theorem handlers_pass_over_other_lines
    (json : JSON) (now : Z) (completionID model line : string)
    (pre post : list string) :
  skipped_line json line = true ->
  handleClaudeStreamResponse json (pre ++ line :: post) completionID model
  = handleClaudeStreamResponse json (pre ++ post) completionID model
  /\ handleStreamResponse json now completionID model (pre ++ line :: post)
     = handleStreamResponse json now completionID model (pre ++ post)
  /\ handleClaudeNonStreamResponse json (pre ++ line :: post)
       completionID model
     = handleClaudeNonStreamResponse json (pre ++ post) completionID model
  /\ handleNonStreamResponse json now completionID model
       (pre ++ line :: post)
     = handleNonStreamResponse json now completionID model (pre ++ post).
Proof.
  intros Hl.
  destruct (skipped_line_steps json now completionID model line Hl)
    as (H1 & H2 & H3 & H4).
  unfold handleClaudeStreamResponse, handleStreamResponse,
    handleClaudeNonStreamResponse, handleNonStreamResponse.
  now rewrite !run_loop_skip by assumption.
Qed.

Lemma handlers_pass_over_other_lines_witness :
  handleClaudeStreamResponse sample_json
    ([sse_line (payload "answer" "delta_content" "Hi")]
     ++ "event: message"
     :: [sse_line (payload "other" "edit_content" "ab")]) "msg_0" "m"
  = handleClaudeStreamResponse sample_json
      ([sse_line (payload "answer" "delta_content" "Hi")]
       ++ [sse_line (payload "other" "edit_content" "ab")]) "msg_0" "m"
  /\ handleStreamResponse sample_json 0 "msg_0" "m"
       ([sse_line (payload "answer" "delta_content" "Hi")]
        ++ "event: message"
        :: [sse_line (payload "other" "edit_content" "ab")])
     = handleStreamResponse sample_json 0 "msg_0" "m"
         ([sse_line (payload "answer" "delta_content" "Hi")]
          ++ [sse_line (payload "other" "edit_content" "ab")])
  /\ handleClaudeNonStreamResponse sample_json
       ([sse_line (payload "answer" "delta_content" "Hi")]
        ++ "event: message"
        :: [sse_line (payload "other" "edit_content" "ab")]) "msg_0" "m"
     = handleClaudeNonStreamResponse sample_json
         ([sse_line (payload "answer" "delta_content" "Hi")]
          ++ [sse_line (payload "other" "edit_content" "ab")]) "msg_0" "m"
  /\ handleNonStreamResponse sample_json 0 "msg_0" "m"
       ([sse_line (payload "answer" "delta_content" "Hi")]
        ++ "event: message"
        :: [sse_line (payload "other" "edit_content" "ab")])
     = handleNonStreamResponse sample_json 0 "msg_0" "m"
         ([sse_line (payload "answer" "delta_content" "Hi")]
          ++ [sse_line (payload "other" "edit_content" "ab")]).
Proof.
  apply (handlers_pass_over_other_lines sample_json 0 "msg_0" "m"
           "event: message").
  vm_compute. reflexivity.
Defined.

(** ** The shape of the OpenAI stream *)

Section Fragments.

Variable json : JSON.
Variable now : Z.
Variables completionID modelName : string.

#[local] Abbreviation frags := (fragments now completionID modelName).

Lemma fragments_nil : frags [].
Proof. exists []. auto. Qed.

Lemma fragments_app (a b : list SSE) : frags a -> frags b -> frags (a ++ b).
Proof.
  intros (pa & Ha & ->) (pb & Hb & ->). exists (pa ++ pb)%list.
  rewrite map_app. split; auto. apply Forall_app. auto.
Qed.

Lemma fragments_content (c : string) :
  nonempty c = true ->
  frags [content_chunk now completionID modelName c].
Proof.
  intros H. exists [Chunk c]. split; auto.
  constructor; auto. now apply nonempty_true.
Qed.

Lemma fragments_content' (c : string) :
  String.eqb c "" = false ->
  frags [content_chunk now completionID modelName c].
Proof.
  intros H. apply fragments_content. unfold nonempty. now rewrite H.
Qed.

Lemma fragments_reasoning (c : string) :
  nonempty c = true ->
  frags [reasoning_chunk now completionID modelName c].
Proof.
  intros H. exists [ReasoningChunk c]. split; auto.
  constructor; auto. now apply nonempty_true.
Qed.

Ltac frag :=
  cbn [outcome_events snd];
  repeat first
    [ apply fragments_nil
    | apply fragments_content; assumption
    | apply fragments_content'; assumption
    | apply fragments_reasoning; assumption
    | apply fragments_app ].

Ltac branches :=
  repeat match goal with
         | |- context [match ?x with _ => _ end] => destruct x eqn:?
         end.

Lemma stream_thinking_events (st : StreamState) (upstream : UpstreamData) :
  frags (outcome_events
           (stream_thinking now completionID modelName st upstream)).
Proof. unfold stream_thinking. branches; frag. Qed.

Lemma stream_text_before_block_events (st : StreamState) (e : string) :
  frags (snd (stream_text_before_block now completionID modelName st e)).
Proof. unfold stream_text_before_block. branches; frag. Qed.

Lemma stream_content_events (st : StreamState) (upstream : UpstreamData)
    (editContent : string) :
  frags (outcome_events
           (stream_content now completionID modelName st upstream
              editContent)).
Proof.
  unfold stream_content.
  change (nonempty "" && _) with false. cbv iota.
  branches;
    repeat match goal with
           | H : context [match ?x with _ => _ end] |- _ => destruct x eqn:?
           end;
    repeat match goal with
           | H : (_, _) = (_, _) |- _ => inversion H; clear H; subst
           end;
    frag.
Qed.

Lemma stream_step_events (st : StreamState) (line : string) :
  frags (outcome_events
           (stream_step json now completionID modelName st line)).
Proof.
  unfold stream_step.
  destruct (line_too_long line); [frag|].
  destruct (negb (HasPrefix line "data: ")); [frag|].
  destruct (String.eqb (TrimPrefix line "data: ") "[DONE]"); [frag|].
  destruct (unmarshal_upstream json (TrimPrefix line "data: "))
    as [upstream|]; [|frag].
  destruct (String.eqb (Phase upstream) "done"); [frag|].
  destruct (_ && _); [apply stream_thinking_events|].
  destruct (_ && _).
  { destruct (ParseSearchResults _ _); frag. }
  destruct (_ && _).
  { pose proof (stream_text_before_block_events
                  (set_filters st (hasContent st) (searchRefFilter st)
                     (if nonempty (Phase upstream)
                      then ThinkingFilter.set_lastPhase (thinkingFilter st)
                             (Phase upstream)
                      else thinkingFilter st))
                  (GetEditContent json upstream)) as H.
    destruct (stream_text_before_block _ _ _ _ _) as [st' out].
    destruct (ParseImageSearchResults _ _); exact H. }
  destruct (_ && _).
  { pose proof (stream_text_before_block_events
                  (set_filters st (hasContent st) (searchRefFilter st)
                     (if nonempty (Phase upstream)
                      then ThinkingFilter.set_lastPhase (thinkingFilter st)
                             (Phase upstream)
                      else thinkingFilter st))
                  (GetEditContent json upstream)) as H.
    destruct (stream_text_before_block _ _ _ _ _) as [st' out]. exact H. }
  destruct (_ && _); [frag|].
  apply stream_content_events.
Qed.

Lemma stream_loop_events (lines : list string) :
  forall st : StreamState,
  frags (snd (run_loop (stream_step json now completionID modelName)
                st lines)).
Proof.
  induction lines as [|line lines IH]; intros st; [apply fragments_nil|].
  cbn [run_loop].
  pose proof (stream_step_events st line) as H.
  destruct (stream_step json now completionID modelName st line)
    as [st' out|st' out|out]; cbn [outcome_events] in H; auto.
  specialize (IH st').
  destruct (run_loop _ st' lines) as [r outs]. cbn [snd] in *.
  now apply fragments_app.
Qed.

End Fragments.

(** X18. What handleStreamResponse writes is a run of chunks, each with a
    non-empty fragment of content or of reasoning and no finish reason,
    followed by the chunk with finish reason stop and the line
    [data: [DONE]]; when the loop panics the run is all that is written. *)
Theorem openai_stream_shape
    (json : JSON) (now : Z) (completionID modelName : string)
    (body : list string) :
  exists pieces : list Collected,
    Forall (fun c => collected_text c <> "") pieces
    /\ handleStreamResponse json now completionID modelName body
       = (map (sse_of now completionID modelName) pieces
          ++ match fst (run_loop
                          (stream_step json now completionID modelName)
                          stream_initial body) with
             | Some _ =>
                 [mk_chunk now completionID modelName
                    {| Content := ""; ReasoningContent := "" |}
                    (Some "stop");
                  DataDone]
             | None => []
             end)%list.
Proof.
  unfold handleStreamResponse.
  pose proof (stream_loop_events json now completionID modelName body
                stream_initial) as (pieces & Hp & E).
  destruct (run_loop _ stream_initial body) as [[st|] out];
    cbn [fst snd] in *; subst out.
  - destruct (SearchRefFilter.Flush (searchRefFilter st)) as [remaining f].
    destruct (String.eqb_spec remaining "") as [->|Hr].
    + exists pieces. auto.
    + exists (pieces ++ [Chunk remaining])%list. split.
      * apply Forall_app. auto.
      * rewrite map_app, <- app_assoc. reflexivity.
  - exists pieces. rewrite app_nil_r. auto.
Qed.

(** ** The answers given in one piece *)

Lemma process_all_unfold (sf : SearchRefFilter.t) (s : string) :
  SearchRefFilter.buffer sf = "" ->
  process_all sf s
  = (rewrite_refs (SearchRefFilter.searchResults sf) s,
     {| SearchRefFilter.buffer := "";
        SearchRefFilter.searchResults := SearchRefFilter.searchResults sf |}).
Proof.
  intros Hb. pose proof (feed_flush_whole sf s Hb) as H.
  unfold feed_flush in H. cbn [feed] in H. unfold process_all.
  destruct (SearchRefFilter.Process sf s) as [a sf'] eqn:E.
  rewrite sapp_nil_r in H.
  assert (Hm : SearchRefFilter.searchResults sf'
               = SearchRefFilter.searchResults sf).
  { rewrite Process_unfold in E. now inversion E. }
  unfold SearchRefFilter.Flush in *. cbn [fst] in H. now rewrite H, Hm.
Qed.

Ltac inner_branches :=
  repeat match goal with
         | |- context [match ?x with _ => _ end] =>
             lazymatch x with
             | context [match _ with _ => _ end] => fail
             | _ => destruct x eqn:?
             end
         end.

Lemma claude_collect_step_buffer (json : JSON) (st : ClaudeState)
    (line : string) :
  SearchRefFilter.buffer (c_searchRefFilter st) = "" ->
  match claude_collect_step json st line with
  | Next st' _ | Stop st' _ =>
      SearchRefFilter.buffer (c_searchRefFilter st') = ""
  | Crash _ => True
  end.
Proof.
  intros Hb. unfold claude_collect_step.
  inner_branches;
    cbn [c_searchRefFilter]; rewrite ?AddSearchResults_buffer; auto.
Qed.

Lemma collect_step_buffer (json : JSON) (st : CollectState) (line : string) :
  SearchRefFilter.buffer (n_searchRefFilter st) = "" ->
  match collect_step json st line with
  | Next st' _ | Stop st' _ =>
      SearchRefFilter.buffer (n_searchRefFilter st') = ""
  | Crash _ => True
  end.
Proof.
  intros Hb. unfold collect_step, collect_thinking.
  inner_branches;
    cbn [n_searchRefFilter]; rewrite ?AddSearchResults_buffer; auto.
Qed.

Lemma run_loop_invariant {S E : Type} (step : S -> string -> Outcome S E)
    (P : S -> Prop) :
  (forall st line, P st ->
     match step st line with
     | Next st' _ | Stop st' _ => P st'
     | Crash _ => True
     end) ->
  forall lines st, P st ->
  match fst (run_loop step st lines) with
  | Some st' => P st'
  | None => True
  end.
Proof.
  intros Hstep. induction lines as [|l lines IH]; intros st HP; [exact HP|].
  cbn [run_loop]. specialize (Hstep st l HP).
  destruct (step st l) as [st' out|st' out|out]; auto.
  specialize (IH st' Hstep). now destruct (run_loop step st' lines).
Qed.

(** X19. The handlers that answer in one piece resolve the citation tokens
    of all the text they collected against the results registered by the
    end of the body: the text of the Claude response, and the content and
    the reasoning of the chat response, are the collected chunks joined and
    rewritten in full, with nothing held back. *)
Theorem nonstream_text_rewritten_in_full
    (json : JSON) (now : Z) (completionID model : string)
    (body : list string) :
  match run_loop (claude_collect_step json) claude_initial body with
  | (Some st, chunks) =>
      handleClaudeNonStreamResponse json body completionID model
      = Some {| CRID := completionID; CRType := "message";
                CRRole := "assistant";
                CRContent :=
                  [{| CCType := "text";
                      CCText :=
                        rewrite_refs
                          (SearchRefFilter.searchResults
                             (c_searchRefFilter st))
                          (concat_all chunks) |}];
                CRModel := model;
                CRUsage := [("input_tokens", 0%Z); ("output_tokens", 0%Z)] |}
  | (None, _) =>
      handleClaudeNonStreamResponse json body completionID model = None
  end
  /\ match run_loop (collect_step json) collect_initial body with
     | (Some st, out) =>
         handleNonStreamResponse json now completionID model body
         = Some {| RID := completionID; RObject := "chat.completion";
                   RCreated := now; RModel := model;
                   RChoices :=
                     [{| RCIndex := 0;
                         RCMessage :=
                           {| MRole := "assistant";
                              MContent :=
                                rewrite_refs
                                  (SearchRefFilter.searchResults
                                     (n_searchRefFilter st))
                                  (concat_all (chunks_of out));
                              MReasoningContent :=
                                rewrite_refs
                                  (SearchRefFilter.searchResults
                                     (n_searchRefFilter st))
                                  (concat_all (reasoningChunks_of out)) |};
                         RCFinishReason := Some "stop" |}] |}
     | (None, _) =>
         handleNonStreamResponse json now completionID model body = None
     end.
Proof.
  split.
  - unfold handleClaudeNonStreamResponse.
    pose proof (run_loop_invariant (claude_collect_step json)
                  (fun st => SearchRefFilter.buffer (c_searchRefFilter st)
                             = "")
                  (claude_collect_step_buffer json) body claude_initial
                  eq_refl) as H.
    destruct (run_loop _ claude_initial body) as [[st|] chunks]; auto.
    cbn [fst] in H. now rewrite process_all_unfold.
  - unfold handleNonStreamResponse.
    pose proof (run_loop_invariant (collect_step json)
                  (fun st => SearchRefFilter.buffer (n_searchRefFilter st)
                             = "")
                  (collect_step_buffer json) body collect_initial
                  eq_refl) as H.
    destruct (run_loop _ collect_initial body) as [[st|] out]; auto.
    cbn [fst] in H. rewrite process_all_unfold by auto.
    now rewrite process_all_unfold.
Qed.

(** ** Answers without citation tokens *)

Lemma concat_all_app (a b : list string) :
  concat_all (a ++ b) = concat_all a ++ concat_all b.
Proof.
  induction a as [|x a IH]; cbn [app concat_all append]; auto.
  now rewrite IH, sapp_assoc.
Qed.

Lemma no_token_prefix (s t : string) :
  no_token (s ++ t) = true -> no_token s = true.
Proof.
  unfold no_token. induction s as [|c s IH]; [reflexivity|].
  change (String c s ++ t) with (String c (s ++ t)). cbn [tokens_ok].
  intros H. apply andb_true_iff in H as [H1 H2]. rewrite (IH H2), andb_true_r.
  destruct (searchRefPattern (String c s)) as [n|] eqn:E; auto.
  apply (searchRefPattern_app _ t) in E.
  change (String c s ++ t) with (String c (s ++ t)) in E.
  rewrite E in H1. discriminate H1.
Qed.

Lemma no_token_suffix (s t : string) :
  no_token (s ++ t) = true -> no_token t = true.
Proof. apply tokens_ok_tail. Qed.

Lemma rewrite_no_token (m : gmap string SearchResult) (s : string) :
  no_token s = true -> rewrite_refs m s = s.
Proof.
  unfold no_token. induction s as [|c s IH]; intros H; [reflexivity|].
  cbn [tokens_ok] in H. apply andb_true_iff in H as [H1 H2].
  destruct (searchRefPattern (String c s)) as [n|] eqn:E;
    [discriminate H1|].
  rewrite rewrite_other by auto. now rewrite IH.
Qed.

(** Fed chunk after chunk and flushed, a filter returns a text without
    citation tokens as it is. *)
Lemma Process_feed_no_token (chunks : list string) :
  forall f : SearchRefFilter.t,
  no_token (SearchRefFilter.buffer f ++ concat_all chunks) = true ->
  feed_flush SearchRefFilter.Process SearchRefFilter.Flush f chunks
  = SearchRefFilter.buffer f ++ concat_all chunks.
Proof.
  unfold feed_flush.
  induction chunks as [|c chunks IH]; intros f Hok.
  - cbn [feed concat_all append] in *. rewrite Flush_unfold.
    rewrite sapp_nil_r in *. now rewrite rewrite_no_token.
  - cbn [feed concat_all] in *. rewrite Process_unfold.
    rewrite <- sapp_assoc in Hok.
    rewrite (rewrite_no_token _ _ (no_token_prefix _ _ Hok)).
    destruct (look_behind_sound (SearchRefFilter.buffer f ++ c))
      as [Ez _].
    set (f' := {| SearchRefFilter.buffer := _ |}).
    assert (Hok' : no_token (SearchRefFilter.buffer f' ++ concat_all chunks)
                   = true).
    { unfold f'. cbn [SearchRefFilter.buffer].
      apply (no_token_suffix
               (fst (SearchRefFilter.hold_back
                       (SearchRefFilter.buffer f ++ c)))).
      now rewrite <- sapp_assoc, <- Ez. }
    specialize (IH f' Hok').
    destruct (feed SearchRefFilter.Process f' chunks) as [os f''].
    rewrite sapp_assoc, IH. unfold f'. cbn [SearchRefFilter.buffer].
    rewrite <- !sapp_assoc. now rewrite <- Ez.
Qed.

Lemma claude_answer_step (json : JSON) (st : ClaudeState)
    (line delta : string) :
  answer_delta_line json line delta ->
  c_pendingSourcesMarkdown st = "" ->
  claude_stream_step json st line
  = Next {| c_searchRefFilter :=
              snd (SearchRefFilter.Process (c_searchRefFilter st) delta);
            c_thinkingFilter := c_thinkingFilter st;
            c_pendingSourcesMarkdown := "" |}
      (if String.eqb
            (fst (SearchRefFilter.Process (c_searchRefFilter st) delta)) ""
       then []
       else [text_delta
               (fst (SearchRefFilter.Process (c_searchRefFilter st)
                       delta))])
  /\ claude_collect_step json st line = Next st [delta].
Proof.
  intros (Hlong & Hpre & Hdone & u & Hu & Hph & Hd & He & Hne) Hp.
  unfold claude_stream_step, claude_collect_step, claude_content.
  rewrite Hlong, Hpre, (eqb_false_of_neq _ _ Hdone), Hu, Hph, Hd, He, Hp.
  unfold nonempty. rewrite (eqb_false_of_neq _ _ Hne).
  cbn [negb andb String.eqb Ascii.eqb Bool.eqb app].
  rewrite (eqb_false_of_neq _ _ Hne).
  split.
  - now destruct (SearchRefFilter.Process (c_searchRefFilter st) delta).
  - destruct st. cbn in Hp. now subst.
Qed.

Lemma claude_answer_loop (json : JSON) (body deltas : list string) :
  Forall2 (answer_delta_line json) body deltas ->
  forall st : ClaudeState,
  c_pendingSourcesMarkdown st = "" ->
  (exists (st' : ClaudeState) (fragments : list string),
     run_loop (claude_stream_step json) st body
     = (Some st', map text_delta fragments)
     /\ Forall (fun x => x <> "") fragments
     /\ feed SearchRefFilter.Process (c_searchRefFilter st) deltas
        = (concat_all fragments, c_searchRefFilter st'))
  /\ run_loop (claude_collect_step json) st body = (Some st, deltas).
Proof.
  induction 1 as [|line delta body deltas Hl _ IH]; intros st Hp.
  - split; [|reflexivity]. exists st, []. cbn. auto.
  - destruct (claude_answer_step json st line delta Hl Hp) as [E1 E2].
    cbn [run_loop feed]. rewrite E1, E2.
    destruct (SearchRefFilter.Process (c_searchRefFilter st) delta)
      as [o sf] eqn:EP. cbn [fst snd].
    set (st1 := {| c_searchRefFilter := sf |}).
    destruct (IH st1 eq_refl) as [(st' & frs & R & Hfrs & F) _].
    destruct (IH st Hp) as [_ R2]. rewrite R, R2. split; [|reflexivity].
    cbn [c_searchRefFilter st1] in F. rewrite F.
    destruct (String.eqb_spec o "") as [->|Ho].
    + exists st', frs. auto.
    + exists st', (o :: frs). cbn [map concat_all app]. auto.
Qed.

(** X20. A body of answer deltas whose text holds no citation token passes
    through both Claude handlers unchanged: the text deltas of the stream,
    joined, and the text of the response given in one piece are the deltas
    joined, however the text is cut into deltas. *)
Theorem claude_answer_without_tokens_unchanged
    (json : JSON) (body deltas : list string) (completionID model : string) :
  Forall2 (answer_delta_line json) body deltas ->
  no_token (concat_all deltas) = true ->
  (exists fragments : list string,
     Forall (fun x => x <> "") fragments
     /\ concat_all fragments = concat_all deltas
     /\ handleClaudeStreamResponse json body completionID model
        = ([MessageStart completionID model 0 0;
            ContentBlockStart 0 "text" ""]
           ++ map text_delta fragments
           ++ [ContentBlockStop 0; MessageDelta "end_turn" 0;
               MessageStop])%list)
  /\ handleClaudeNonStreamResponse json body completionID model
     = Some {| CRID := completionID; CRType := "message";
               CRRole := "assistant";
               CRContent :=
                 [{| CCType := "text"; CCText := concat_all deltas |}];
               CRModel := model;
               CRUsage := [("input_tokens", 0%Z); ("output_tokens", 0%Z)] |}.
Proof.
  intros Hbody Hok.
  destruct (claude_answer_loop json body deltas Hbody claude_initial eq_refl)
    as [(st' & frs & R & Hfrs & F) R2].
  split.
  - pose proof (Process_feed_no_token deltas NewSearchRefFilter Hok) as HF.
    unfold feed_flush in HF. cbn [claude_initial c_searchRefFilter] in F.
    rewrite F in HF. cbn [SearchRefFilter.buffer NewSearchRefFilter append]
      in HF.
    unfold handleClaudeStreamResponse. rewrite R.
    destruct (SearchRefFilter.Flush (c_searchRefFilter st'))
      as [remaining f]. cbn [fst] in HF.
    destruct (String.eqb_spec remaining "") as [->|Hr].
    + exists frs. rewrite sapp_nil_r in HF. auto.
    + exists (frs ++ [remaining])%list. repeat split.
      * apply Forall_app. auto.
      * rewrite concat_all_app. cbn [concat_all]. now rewrite sapp_nil_r.
      * rewrite map_app, <- !app_assoc. reflexivity.
  - unfold handleClaudeNonStreamResponse. rewrite R2.
    cbn [claude_initial c_searchRefFilter].
    rewrite process_all_unfold by reflexivity.
    now rewrite rewrite_no_token.
Qed.

Lemma claude_answer_without_tokens_unchanged_witness :
  (exists fragments : list string,
     Forall (fun x => x <> "") fragments
     /\ concat_all fragments = concat_all ["Hi"]
     /\ handleClaudeStreamResponse sample_json
          [sse_line (payload "answer" "delta_content" "Hi")] "msg_0" "m"
        = ([MessageStart "msg_0" "m" 0 0; ContentBlockStart 0 "text" ""]
           ++ map text_delta fragments
           ++ [ContentBlockStop 0; MessageDelta "end_turn" 0;
               MessageStop])%list)
  /\ handleClaudeNonStreamResponse sample_json
       [sse_line (payload "answer" "delta_content" "Hi")] "msg_0" "m"
     = Some {| CRID := "msg_0"; CRType := "message";
               CRRole := "assistant";
               CRContent :=
                 [{| CCType := "text"; CCText := concat_all ["Hi"] |}];
               CRModel := "m";
               CRUsage := [("input_tokens", 0%Z); ("output_tokens", 0%Z)] |}.
Proof.
  apply (claude_answer_without_tokens_unchanged sample_json
           [sse_line (payload "answer" "delta_content" "Hi")] ["Hi"]).
  - constructor; [|constructor].
    split; [reflexivity|]. split; [reflexivity|].
    split; [intros H; vm_compute in H; discriminate H|].
    exists (delta_event "answer" "Hi").
    split; [vm_compute; reflexivity|].
    repeat split; try reflexivity. intros H; discriminate H.
  - reflexivity.
Defined.

Lemma chat_answer_step (json : JSON) (now : Z)
    (completionID modelName : string) (st : StreamState)
    (line delta : string) :
  answer_delta_line json line delta ->
  pendingSourcesMarkdown st = "" ->
  pendingImageSearchMarkdown st = "" ->
  ThinkingFilter.buffer (thinkingFilter st) = "" ->
  exists st' : StreamState,
    stream_step json now completionID modelName st line
    = Next st'
        (if String.eqb
              (fst (SearchRefFilter.Process (searchRefFilter st) delta)) ""
         then []
         else [content_chunk now completionID modelName
                 (fst (SearchRefFilter.Process (searchRefFilter st)
                         delta))])
    /\ searchRefFilter st'
       = snd (SearchRefFilter.Process (searchRefFilter st) delta)
    /\ pendingSourcesMarkdown st' = ""
    /\ pendingImageSearchMarkdown st' = ""
    /\ ThinkingFilter.buffer (thinkingFilter st') = "".
Proof.
  intros (Hlong & Hpre & Hdone & u & Hu & Hph & Hd & He & Hne) Hp Hi Hb.
  unfold stream_step.
  rewrite Hlong, Hpre, (eqb_false_of_neq _ _ Hdone), Hu, Hph.
  unfold GetEditContent. rewrite He.
  cbn [negb andb String.eqb Ascii.eqb Bool.eqb nonempty].
  unfold stream_content, stream_select, ThinkingFilter.Flush.
  cbn [pendingSourcesMarkdown pendingImageSearchMarkdown thinkingFilter
       set_filters searchRefFilter hasContent totalContentOutputLength
       ThinkingFilter.set_lastPhase ThinkingFilter.buffer
       ThinkingFilter.set_buffer].
  rewrite Hp, Hi, Hb, Hph, Hd.
  unfold nonempty. rewrite (eqb_false_of_neq _ _ Hne).
  cbn [negb andb orb String.eqb Ascii.eqb Bool.eqb app].
  rewrite (eqb_false_of_neq _ _ Hne).
  destruct (SearchRefFilter.Process (searchRefFilter st) delta)
    as [o sf]. cbn [fst snd].
  destruct (String.eqb o ""); eexists; (split; [reflexivity|]);
    cbn; auto.
Qed.

Lemma chat_collect_step (json : JSON) (st : CollectState)
    (line delta : string) :
  answer_delta_line json line delta ->
  n_pendingSourcesMarkdown st = "" ->
  n_pendingImageSearchMarkdown st = "" ->
  exists st' : CollectState,
    collect_step json st line = Next st' [Chunk delta]
    /\ n_searchRefFilter st' = n_searchRefFilter st
    /\ n_pendingSourcesMarkdown st' = ""
    /\ n_pendingImageSearchMarkdown st' = "".
Proof.
  intros (Hlong & Hpre & Hdone & u & Hu & Hph & Hd & He & Hne) Hp Hi.
  unfold collect_step.
  rewrite Hlong, Hpre, (eqb_false_of_neq _ _ Hdone), Hu, Hph.
  unfold GetEditContent. rewrite He.
  cbn [negb andb String.eqb Ascii.eqb Bool.eqb nonempty].
  unfold collect_select. rewrite Hp, Hi, Hph, Hd.
  unfold nonempty. rewrite (eqb_false_of_neq _ _ Hne).
  cbn [negb andb orb String.eqb Ascii.eqb Bool.eqb app].
  rewrite (eqb_false_of_neq _ _ Hne). cbn [negb].
  eexists. split; [reflexivity|]. cbn. auto.
Qed.

Lemma chat_answer_loop (json : JSON) (now : Z)
    (completionID modelName : string) (body deltas : list string) :
  Forall2 (answer_delta_line json) body deltas ->
  forall st : StreamState,
  pendingSourcesMarkdown st = "" ->
  pendingImageSearchMarkdown st = "" ->
  ThinkingFilter.buffer (thinkingFilter st) = "" ->
  exists (st' : StreamState) (fragments : list string),
    run_loop (stream_step json now completionID modelName) st body
    = (Some st', map (content_chunk now completionID modelName) fragments)
    /\ Forall (fun x => x <> "") fragments
    /\ feed SearchRefFilter.Process (searchRefFilter st) deltas
       = (concat_all fragments, searchRefFilter st').
Proof.
  induction 1 as [|line delta body deltas Hl _ IH]; intros st Hp Hi Hb.
  - exists st, []. cbn. auto.
  - destruct (chat_answer_step json now completionID modelName st line delta
                Hl Hp Hi Hb) as (st1 & E & Hsf & Hp1 & Hi1 & Hb1).
    cbn [run_loop feed]. rewrite E.
    destruct (IH st1 Hp1 Hi1 Hb1) as (st' & frs & R & Hfrs & F).
    rewrite R. rewrite Hsf in F.
    destruct (SearchRefFilter.Process (searchRefFilter st) delta)
      as [o sf] eqn:EP. cbn [fst snd] in *. rewrite F.
    destruct (String.eqb_spec o "") as [->|Ho].
    + exists st', frs. auto.
    + exists st', (o :: frs). cbn [map concat_all app]. auto.
Qed.

Lemma chat_collect_loop (json : JSON) (body deltas : list string) :
  Forall2 (answer_delta_line json) body deltas ->
  forall st : CollectState,
  n_pendingSourcesMarkdown st = "" ->
  n_pendingImageSearchMarkdown st = "" ->
  exists st' : CollectState,
    run_loop (collect_step json) st body = (Some st', map Chunk deltas)
    /\ n_searchRefFilter st' = n_searchRefFilter st.
Proof.
  induction 1 as [|line delta body deltas Hl _ IH]; intros st Hp Hi.
  - exists st. auto.
  - destruct (chat_collect_step json st line delta Hl Hp Hi)
      as (st1 & E & Hsf & Hp1 & Hi1).
    cbn [run_loop]. rewrite E.
    destruct (IH st1 Hp1 Hi1) as (st' & R & Hsf').
    rewrite R. exists st'. split; [reflexivity | congruence].
Qed.

Lemma chunks_of_map (l : list string) :
  chunks_of (map Chunk l) = l /\ reasoningChunks_of (map Chunk l) = [].
Proof.
  unfold chunks_of, reasoningChunks_of.
  induction l as [|x l [IH1 IH2]]; cbn; auto. now rewrite IH1, IH2.
Qed.

(** X21. A body of answer deltas whose text holds no citation token passes
    through both chat handlers unchanged: the stream writes content chunks
    only, whose fragments joined are the deltas joined, then the stop
    chunk and [data: [DONE]]; the response given in one piece has the
    deltas joined as its content and no reasoning. *)
Theorem chat_answer_without_tokens_unchanged
    (json : JSON) (now : Z) (completionID modelName : string)
    (body deltas : list string) :
  Forall2 (answer_delta_line json) body deltas ->
  no_token (concat_all deltas) = true ->
  (exists fragments : list string,
     Forall (fun x => x <> "") fragments
     /\ concat_all fragments = concat_all deltas
     /\ handleStreamResponse json now completionID modelName body
        = (map (content_chunk now completionID modelName) fragments
           ++ [mk_chunk now completionID modelName
                 {| Content := ""; ReasoningContent := "" |} (Some "stop");
               DataDone])%list)
  /\ handleNonStreamResponse json now completionID modelName body
     = Some {| RID := completionID; RObject := "chat.completion";
               RCreated := now; RModel := modelName;
               RChoices :=
                 [{| RCIndex := 0;
                     RCMessage :=
                       {| MRole := "assistant";
                          MContent := concat_all deltas;
                          MReasoningContent := "" |};
                     RCFinishReason := Some "stop" |}] |}.
Proof.
  intros Hbody Hok. split.
  - destruct (chat_answer_loop json now completionID modelName body deltas
                Hbody stream_initial eq_refl eq_refl eq_refl)
      as (st' & frs & R & Hfrs & F).
    pose proof (Process_feed_no_token deltas NewSearchRefFilter Hok) as HF.
    unfold feed_flush in HF. cbn [stream_initial searchRefFilter] in F.
    rewrite F in HF. cbn [SearchRefFilter.buffer NewSearchRefFilter append]
      in HF.
    unfold handleStreamResponse. rewrite R.
    destruct (SearchRefFilter.Flush (searchRefFilter st'))
      as [remaining f]. cbn [fst] in HF.
    destruct (String.eqb_spec remaining "") as [->|Hr].
    + exists frs. rewrite sapp_nil_r in HF. auto.
    + exists (frs ++ [remaining])%list. repeat split.
      * apply Forall_app. auto.
      * rewrite concat_all_app. cbn [concat_all]. now rewrite sapp_nil_r.
      * rewrite map_app, <- !app_assoc. reflexivity.
  - destruct (chat_collect_loop json body deltas Hbody collect_initial
                eq_refl eq_refl) as (st' & R & Hsf).
    unfold handleNonStreamResponse. rewrite R.
    destruct (chunks_of_map deltas) as [-> ->]. rewrite Hsf.
    cbn [collect_initial n_searchRefFilter concat_all].
    rewrite process_all_unfold by reflexivity.
    rewrite process_all_unfold by reflexivity.
    now rewrite rewrite_no_token.
Qed.

Lemma chat_answer_without_tokens_unchanged_witness :
  (exists fragments : list string,
     Forall (fun x => x <> "") fragments
     /\ concat_all fragments = concat_all ["Hi"]
     /\ handleStreamResponse sample_json 0 "chatcmpl-0" "m"
          [sse_line (payload "answer" "delta_content" "Hi")]
        = (map (content_chunk 0 "chatcmpl-0" "m") fragments
           ++ [mk_chunk 0 "chatcmpl-0" "m"
                 {| Content := ""; ReasoningContent := "" |} (Some "stop");
               DataDone])%list)
  /\ handleNonStreamResponse sample_json 0 "chatcmpl-0" "m"
       [sse_line (payload "answer" "delta_content" "Hi")]
     = Some {| RID := "chatcmpl-0"; RObject := "chat.completion";
               RCreated := 0; RModel := "m";
               RChoices :=
                 [{| RCIndex := 0;
                     RCMessage :=
                       {| MRole := "assistant";
                          MContent := concat_all ["Hi"];
                          MReasoningContent := "" |};
                     RCFinishReason := Some "stop" |}] |}.
Proof.
  apply (chat_answer_without_tokens_unchanged sample_json 0 "chatcmpl-0" "m"
           [sse_line (payload "answer" "delta_content" "Hi")] ["Hi"]).
  - constructor; [|constructor].
    split; [reflexivity|]. split; [reflexivity|].
    split; [intros H; vm_compute in H; discriminate H|].
    exists (delta_event "answer" "Hi").
    split; [vm_compute; reflexivity|].
    repeat split; try reflexivity. intros H; discriminate H.
  - reflexivity.
Defined.

(** ** The order of the bibliography *)

#[local] Abbreviation le_index :=
  (fun a b : SearchResult => (SIndex a <= SIndex b)%Z).

Lemma insert_middle {A : Type} (l1 l2 : list A) (a x : A) (n : nat) :
  n = List.length l1 ->
  <[n := x]> (l1 ++ a :: l2)%list = (l1 ++ x :: l2)%list.
Proof.
  intros ->. induction l1 as [|b l1 IH]; [reflexivity|].
  cbn [app List.length].
  change (b :: <[List.length l1 := x]> (l1 ++ a :: l2)%list
          = b :: (l1 ++ x :: l2)%list).
  now rewrite IH.
Qed.

Lemma sort_inner_spec (pre rest : list SearchResult) :
  forall (x : SearchResult) (done : list SearchResult),
  Forall (le_index x) done ->
  exists (m : SearchResult) (tail : list SearchResult),
    SearchRefFilter.sort_inner (pre ++ x :: done ++ rest)%list
      (List.length pre) (S (List.length pre + List.length done))
      (List.length rest)
    = (pre ++ m :: tail)%list
    /\ Permutation (m :: tail) (x :: done ++ rest)%list
    /\ Forall (le_index m) tail.
Proof.
  induction rest as [|y rest IH]; intros x done Hx.
  - exists x, done. rewrite app_nil_r. cbn [SearchRefFilter.sort_inner].
    auto.
  - cbn [List.length SearchRefFilter.sort_inner].
    assert (Li : ((pre ++ x :: done ++ y :: rest)%list !! List.length pre)
                 = Some x) by now apply list_lookup_middle.
    assert (Lj : ((pre ++ x :: done ++ y :: rest)%list
                    !! S (List.length pre + List.length done)) = Some y).
    { change (pre ++ x :: done ++ y :: rest)%list
        with (pre ++ (x :: done) ++ y :: rest)%list.
      rewrite app_assoc. apply list_lookup_middle.
      rewrite length_app. cbn [List.length]. lia. }
    rewrite Li, Lj.
    assert (Hs : S (S (List.length pre + List.length done))
                 = S (List.length pre + List.length (done ++ [x])%list))
      by (rewrite length_app; cbn [List.length]; lia).
    assert (Hs' : S (S (List.length pre + List.length done))
                  = S (List.length pre + List.length (done ++ [y])%list))
      by (rewrite length_app; cbn [List.length]; lia).
    destruct (Z.gtb_spec (SIndex x) (SIndex y)) as [Hgt|Hle].
    + assert (E : <[List.length pre := y]>
                    (<[S (List.length pre + List.length done) := x]>
                       (pre ++ x :: done ++ y :: rest)%list)
                  = (pre ++ y :: (done ++ [x]) ++ rest)%list).
      { change (pre ++ x :: done ++ y :: rest)%list
          with (pre ++ (x :: done) ++ y :: rest)%list.
        rewrite (app_assoc pre (x :: done) (y :: rest)).
        rewrite (insert_middle (pre ++ x :: done) rest y x)
          by (rewrite length_app; cbn [List.length]; lia).
        rewrite <- (app_assoc pre (x :: done) (x :: rest)).
        cbn [app]. rewrite (insert_middle pre _ x y) by reflexivity.
        now rewrite <- app_assoc. }
      rewrite E, Hs.
      destruct (IH y (done ++ [x])%list) as (m & tail & R & P & F).
      { apply Forall_app. split.
        - eapply Forall_impl; [exact Hx|]. cbn. intros a Ha. lia.
        - constructor; [lia | constructor]. }
      exists m, tail. split; [exact R|]. split; [|exact F].
      rewrite P, <- app_assoc. cbn [app].
      etransitivity; [apply perm_skip; symmetry; apply Permutation_middle|].
      etransitivity; [apply perm_swap|].
      apply perm_skip, Permutation_middle.
    + rewrite Hs'.
      replace (pre ++ x :: done ++ y :: rest)%list
        with (pre ++ x :: (done ++ [y]) ++ rest)%list
        by now rewrite <- app_assoc.
      destruct (IH x (done ++ [y])%list) as (m & tail & R & P & F).
      { apply Forall_app. split; auto. }
      exists m, tail. split; [exact R|]. split; [|exact F].
      now rewrite P, <- app_assoc.
Qed.

Lemma StronglySorted_snoc (pre : list SearchResult) (m : SearchResult) :
  StronglySorted le_index pre -> Forall (fun p => le_index p m) pre ->
  StronglySorted le_index (pre ++ [m]).
Proof.
  induction 1 as [|p pre Hs IH Hp]; intros Hm; cbn [app].
  - repeat constructor.
  - inversion Hm; subst. constructor; auto.
    apply Forall_app. split; auto.
Qed.

Lemma sort_outer_spec (fuel : nat) :
  forall pre suf : list SearchResult,
  fuel = (List.length suf - 1)%nat ->
  StronglySorted le_index pre ->
  Forall (fun p => Forall (le_index p) suf) pre ->
  StronglySorted le_index
    (SearchRefFilter.sort_outer (pre ++ suf) (List.length pre) fuel)
  /\ Permutation
       (SearchRefFilter.sort_outer (pre ++ suf) (List.length pre) fuel)
       (pre ++ suf).
Proof.
  induction fuel as [|fuel IH]; intros pre suf Hf Hpre Hle.
  - cbn [SearchRefFilter.sort_outer]. split; [|reflexivity].
    destruct suf as [|x [|y suf]]; cbn [List.length] in Hf; [| |lia].
    + now rewrite app_nil_r.
    + apply StronglySorted_snoc; auto.
      eapply Forall_impl; [exact Hle|]. cbn. intros a Ha.
      now inversion Ha.
  - destruct suf as [|x rest]; [cbn in Hf; lia|].
    cbn [List.length] in Hf. cbn [SearchRefFilter.sort_outer].
    destruct (sort_inner_spec pre rest x [] (List.Forall_nil _))
      as (m & tail & R & P & F).
    cbn [app List.length] in R, P.
    replace (List.length (pre ++ x :: rest) - S (List.length pre))%nat
      with (List.length rest)
      by (rewrite length_app; cbn [List.length]; lia).
    rewrite Nat.add_0_r in R. rewrite R.
    assert (Hlen : List.length tail = List.length rest).
    { apply Permutation_length in P. cbn [List.length] in P. lia. }
    replace (pre ++ m :: tail)%list with ((pre ++ [m]) ++ tail)%list
      by now rewrite <- app_assoc.
    replace (S (List.length pre)) with (List.length (pre ++ [m])%list)
      by (rewrite length_app; cbn [List.length]; lia).
    assert (Hin : forall p, Forall (le_index p) (x :: rest) ->
                            Forall (le_index p) (m :: tail)).
    { intros p Hp. now rewrite P. }
    destruct (IH (pre ++ [m])%list tail) as [S1 P1].
    + lia.
    + apply StronglySorted_snoc; auto.
      eapply Forall_impl; [exact Hle|]. cbn. intros a Ha.
      apply Hin in Ha. now inversion Ha.
    + apply Forall_app. split.
      * eapply Forall_impl; [exact Hle|]. cbn. intros a Ha.
        apply Hin in Ha. now inversion Ha.
      * constructor; auto.
    + split; [exact S1|]. rewrite P1, <- app_assoc. cbn [app].
      apply Permutation_app_head. exact P.
Qed.

(** X22. The bibliography holds one line for each registered result, in
    ascending order of the results' indexes: the exchange sort of
    GetSearchResultsMarkdown returns a sorted permutation of the records
    it is given. *)
Theorem GetSearchResultsMarkdown_sorted (f : SearchRefFilter.t) :
  exists results : list SearchResult,
    Permutation results (map_to_list (SearchRefFilter.searchResults f)).*2
    /\ StronglySorted (fun a b => (SIndex a <= SIndex b)%Z) results
    /\ SearchRefFilter.GetSearchResultsMarkdown f
       = match results with
         | [] => ""
         | _ =>
             concat_all
               (map (fun r =>
                       "[\[" ++ itoa (SIndex r) ++ "\] "
                       ++ escapeMarkdownTitle (Title r)
                       ++ "](" ++ URL r ++ ")" ++ LF) results)
             ++ LF
         end.
Proof.
  unfold SearchRefFilter.GetSearchResultsMarkdown.
  set (l := (map_to_list (SearchRefFilter.searchResults f)).*2).
  destruct (sort_outer_spec (List.length l - 1) [] l eq_refl
              (SSorted_nil _) (List.Forall_nil _)) as [S1 P1].
  cbn [app List.length] in *.
  exists (SearchRefFilter.sort_outer l 0 (List.length l - 1)).
  split; [exact P1|]. split; [exact S1|].
  destruct l as [|x l']; [reflexivity|].
  destruct (SearchRefFilter.sort_outer (x :: l') 0
              (List.length (x :: l') - 1)) as [|y r] eqn:E; [|reflexivity].
  apply Permutation_nil in P1. discriminate P1.
Qed.

(** ** Well-formed UTF-8 and the snapshots of the chat stream *)

Section Bits.

#[local] Open Scope Z_scope.

Lemma land_shift_low (a b k : Z) :
  0 <= k -> 0 <= b < 2 ^ k -> Z.land (a * 2 ^ k) b = 0.
Proof.
  intros Hk Hb. apply Z.bits_inj'. intros n Hn.
  rewrite Z.land_spec, Z.bits_0.
  destruct (Z.lt_ge_cases n k) as [Hlt|Hge].
  - now rewrite Z.mul_pow2_bits_low.
  - rewrite andb_false_iff. right.
    destruct (Z.eq_dec b 0) as [->|Hb0]; [apply Z.bits_0|].
    apply Z.bits_above_log2; [lia|].
    assert (Z.log2 b < k) by (apply Z.log2_lt_pow2; lia). lia.
Qed.

Lemma lor_shift (a b k : Z) :
  0 <= k -> 0 <= b < 2 ^ k -> Z.lor (a * 2 ^ k) b = a * 2 ^ k + b.
Proof.
  intros Hk Hb. pose proof (Z.add_lor_land (a * 2 ^ k) b) as H.
  rewrite land_shift_low in H by auto. lia.
Qed.

Lemma land_63 (x : Z) : Z.land x 63 = x mod 64.
Proof. change 63 with (Z.ones 6). now rewrite Z.land_ones. Qed.
Lemma land_31 (x : Z) : Z.land x 31 = x mod 32.
Proof. change 31 with (Z.ones 5). now rewrite Z.land_ones. Qed.
Lemma land_15 (x : Z) : Z.land x 15 = x mod 16.
Proof. change 15 with (Z.ones 4). now rewrite Z.land_ones. Qed.
Lemma land_7 (x : Z) : Z.land x 7 = x mod 8.
Proof. change 7 with (Z.ones 3). now rewrite Z.land_ones. Qed.

Lemma lor_64 (a b : Z) : 0 <= b < 64 -> Z.lor (a * 64) b = a * 64 + b.
Proof. apply (lor_shift a b 6). lia. Qed.
Lemma lor_4096 (a b : Z) : 0 <= b < 4096 -> Z.lor (a * 4096) b = a * 4096 + b.
Proof. apply (lor_shift a b 12). lia. Qed.
Lemma lor_262144 (a b : Z) :
  0 <= b < 262144 -> Z.lor (a * 262144) b = a * 262144 + b.
Proof. apply (lor_shift a b 18). lia. Qed.
Lemma lor_16 (a b : Z) : 0 <= b < 16 -> Z.lor (a * 16) b = a * 16 + b.
Proof. apply (lor_shift a b 4). lia. Qed.
Lemma lor_8 (a b : Z) : 0 <= b < 8 -> Z.lor (a * 8) b = a * 8 + b.
Proof. apply (lor_shift a b 3). lia. Qed.

Lemma lor_128 (b : Z) : 0 <= b < 64 -> Z.lor 128 b = 128 + b.
Proof. apply (lor_64 2). Qed.
Lemma lor_192 (b : Z) : 0 <= b < 64 -> Z.lor 192 b = 192 + b.
Proof. apply (lor_64 3). Qed.
Lemma lor_224 (b : Z) : 0 <= b < 16 -> Z.lor 224 b = 224 + b.
Proof. apply (lor_16 14). Qed.
Lemma lor_240 (b : Z) : 0 <= b < 8 -> Z.lor 240 b = 240 + b.
Proof. apply (lor_8 30). Qed.

Lemma enc2 (b0 b1 : Z) :
  194 <= b0 <= 223 -> 128 <= b1 <= 191 ->
  let r := Z.lor (Z.shiftl (Z.land b0 31) 6) (Z.land b1 63) in
  128 <= r < 2048
  /\ Z.lor 192 (Z.shiftr r 6) = b0
  /\ Z.lor 128 (Z.land r 63) = b1.
Proof.
  intros H0 H1. cbv zeta.
  rewrite land_31, land_63, Z.shiftl_mul_pow2 by lia.
  change (2 ^ 6) with 64.
  rewrite lor_64 by (apply Z.mod_pos_bound; lia).
  rewrite land_63, Z.shiftr_div_pow2 by lia. change (2 ^ 6) with 64.
  replace (b0 mod 32) with (b0 - 192) by (Z.div_mod_to_equations; lia).
  replace (b1 mod 64) with (b1 - 128) by (Z.div_mod_to_equations; lia).
  replace (((b0 - 192) * 64 + (b1 - 128)) / 64) with (b0 - 192)
    by (Z.div_mod_to_equations; lia).
  replace (((b0 - 192) * 64 + (b1 - 128)) mod 64) with (b1 - 128)
    by (Z.div_mod_to_equations; lia).
  rewrite lor_192, lor_128 by lia. lia.
Qed.

Lemma enc3 (b0 b1 b2 : Z) :
  224 <= b0 <= 239 ->
  (if b0 =? 224 then 160 else 128) <= b1
  <= (if b0 =? 237 then 159 else 191) ->
  128 <= b2 <= 191 ->
  let r := Z.lor (Z.shiftl (Z.land b0 15) 12)
             (Z.lor (Z.shiftl (Z.land b1 63) 6) (Z.land b2 63)) in
  2048 <= r < 65536
  /\ ~ (55296 <= r <= 57343)
  /\ Z.lor 224 (Z.shiftr r 12) = b0
  /\ Z.lor 128 (Z.land (Z.shiftr r 6) 63) = b1
  /\ Z.lor 128 (Z.land r 63) = b2.
Proof.
  intros H0 H1 H2. cbv zeta.
  assert (H1' : 128 <= b1 <= 191)
    by (destruct (b0 =? 224), (b0 =? 237); lia).
  rewrite land_15, !land_63, !Z.shiftl_mul_pow2 by lia.
  change (2 ^ 6) with 64. change (2 ^ 12) with 4096.
  replace (b0 mod 16) with (b0 - 224) by (Z.div_mod_to_equations; lia).
  replace (b1 mod 64) with (b1 - 128) by (Z.div_mod_to_equations; lia).
  replace (b2 mod 64) with (b2 - 128) by (Z.div_mod_to_equations; lia).
  rewrite (lor_64 (b1 - 128) (b2 - 128)) by lia.
  rewrite lor_4096 by lia.
  set (r := (b0 - 224) * 4096 + ((b1 - 128) * 64 + (b2 - 128))).
  rewrite !Z.shiftr_div_pow2 by lia.
  change (2 ^ 6) with 64. change (2 ^ 12) with 4096.
  replace (r / 4096) with (b0 - 224)
    by (unfold r; Z.div_mod_to_equations; lia).
  replace ((r / 64) mod 64) with (b1 - 128)
    by (unfold r; Z.div_mod_to_equations; lia).
  replace (r mod 64) with (b2 - 128)
    by (unfold r; Z.div_mod_to_equations; lia).
  rewrite lor_224, !lor_128 by lia.
  unfold r.
  destruct (Z.eqb_spec b0 224), (Z.eqb_spec b0 237); lia.
Qed.

Lemma enc4 (b0 b1 b2 b3 : Z) :
  240 <= b0 <= 244 ->
  (if b0 =? 240 then 144 else 128) <= b1
  <= (if b0 =? 244 then 143 else 191) ->
  128 <= b2 <= 191 -> 128 <= b3 <= 191 ->
  let r := Z.lor (Z.shiftl (Z.land b0 7) 18)
             (Z.lor (Z.shiftl (Z.land b1 63) 12)
                (Z.lor (Z.shiftl (Z.land b2 63) 6) (Z.land b3 63))) in
  65536 <= r <= 1114111
  /\ Z.lor 240 (Z.shiftr r 18) = b0
  /\ Z.lor 128 (Z.land (Z.shiftr r 12) 63) = b1
  /\ Z.lor 128 (Z.land (Z.shiftr r 6) 63) = b2
  /\ Z.lor 128 (Z.land r 63) = b3.
Proof.
  intros H0 H1 H2 H3. cbv zeta.
  assert (H1' : 128 <= b1 <= 191)
    by (destruct (b0 =? 240), (b0 =? 244); lia).
  rewrite land_7, !land_63, !Z.shiftl_mul_pow2 by lia.
  change (2 ^ 6) with 64. change (2 ^ 12) with 4096.
  change (2 ^ 18) with 262144.
  replace (b0 mod 8) with (b0 - 240) by (Z.div_mod_to_equations; lia).
  replace (b1 mod 64) with (b1 - 128) by (Z.div_mod_to_equations; lia).
  replace (b2 mod 64) with (b2 - 128) by (Z.div_mod_to_equations; lia).
  replace (b3 mod 64) with (b3 - 128) by (Z.div_mod_to_equations; lia).
  rewrite (lor_64 (b2 - 128) (b3 - 128)) by lia.
  rewrite lor_4096 by lia. rewrite lor_262144 by lia.
  set (r := (b0 - 240) * 262144
            + ((b1 - 128) * 4096 + ((b2 - 128) * 64 + (b3 - 128)))).
  rewrite !Z.shiftr_div_pow2 by lia.
  change (2 ^ 6) with 64. change (2 ^ 12) with 4096.
  change (2 ^ 18) with 262144.
  replace (r / 262144) with (b0 - 240)
    by (unfold r; Z.div_mod_to_equations; lia).
  replace ((r / 4096) mod 64) with (b1 - 128)
    by (unfold r; Z.div_mod_to_equations; lia).
  replace ((r / 64) mod 64) with (b2 - 128)
    by (unfold r; Z.div_mod_to_equations; lia).
  replace (r mod 64) with (b3 - 128)
    by (unfold r; Z.div_mod_to_equations; lia).
  rewrite lor_240, !lor_128 by lia.
  unfold r.
  destruct (Z.eqb_spec b0 240), (Z.eqb_spec b0 244); lia.
Qed.

End Bits.

Lemma in_range_spec (lo hi b : Z) :
  UTF8.in_range lo hi b = true <-> (lo <= b <= hi)%Z.
Proof. unfold UTF8.in_range. rewrite andb_true_iff. lia. Qed.

Lemma byte_range (c : ascii) : (0 <= UTF8.byte c < 256)%Z.
Proof.
  unfold UTF8.byte. pose proof (nat_ascii_bounded c). lia.
Qed.

Lemma chr_byte (c : ascii) : UTF8.chr (UTF8.byte c) = c.
Proof.
  unfold UTF8.chr, UTF8.byte. now rewrite Nat2Z.id, ascii_nat_embedding.
Qed.

Ltac decode_error :=
  intros E _ Hv; inversion E; subst; vm_compute in Hv; discriminate Hv.

Ltac ltb_lia :=
  repeat match goal with
         | |- context [(?a <? ?b)%Z] =>
             destruct (Z.ltb_spec a b); try lia
         end.

(** A rune decoded from a well-formed head is encoded back to the bytes
    it was decoded from, and text appended does not change it. *)
Lemma decode_valid (s : string) (r : Z) (n : nat) :
  UTF8.DecodeRuneInString s = (r, n) -> s <> "" ->
  (r =? UTF8.RuneError)%Z && (n =? 1)%nat = false ->
  (1 <= n <= String.length s)%nat
  /\ UTF8.EncodeRune r = stake n s
  /\ forall t, UTF8.DecodeRuneInString (s ++ t) = (r, n).
Proof.
  destruct s as [|c0 s1]; [congruence|].
  unfold UTF8.DecodeRuneInString at 1.
  pose proof (byte_range c0) as B0.
  destruct (Z.ltb_spec (UTF8.byte c0) 128) as [Ha|Ha].
  { intros E _ _. inversion E; subst; clear E.
    split; [cbn [String.length]; lia|]. split.
    - unfold UTF8.EncodeRune. ltb_lia. now rewrite chr_byte.
    - intros t. cbn [append]. unfold UTF8.DecodeRuneInString.
      destruct (Z.ltb_spec (UTF8.byte c0) 128); [reflexivity | lia]. }
  destruct (UTF8.in_range 194 223 (UTF8.byte c0)) eqn:R2.
  { destruct s1 as [|c1 s2]; [decode_error|].
    destruct (UTF8.in_range 128 191 (UTF8.byte c1)) eqn:R1; [|decode_error].
    intros E _ _. inversion E; subst; clear E.
    apply in_range_spec in R2, R1.
    destruct (enc2 _ _ R2 R1) as (Hr & E0 & E1).
    split; [cbn [String.length]; lia|]. split.
    - unfold UTF8.EncodeRune, UTF8.cont in *. ltb_lia.
      rewrite E0, E1, !chr_byte. reflexivity.
    - intros t. cbn [append]. unfold UTF8.DecodeRuneInString.
      destruct (Z.ltb_spec (UTF8.byte c0) 128); [lia|].
      apply in_range_spec in R2, R1. now rewrite R2, R1. }
  destruct (UTF8.in_range 224 239 (UTF8.byte c0)) eqn:R3.
  { destruct s1 as [|c1 [|c2 s3]]; [decode_error|decode_error|].
    destruct (UTF8.in_range _ _ (UTF8.byte c1)
              && UTF8.in_range 128 191 (UTF8.byte c2)) eqn:R1;
      [|decode_error].
    intros E _ _. inversion E; subst; clear E.
    pose proof R1 as R1'. apply andb_true_iff in R1' as [Q1 Q2].
    apply in_range_spec in R3, Q1, Q2.
    destruct (enc3 _ _ _ R3 Q1 Q2) as (Hr & Hs & E0 & E1 & E2).
    split; [cbn [String.length]; lia|]. split.
    - unfold UTF8.EncodeRune, UTF8.cont in *. ltb_lia.
      replace (UTF8.in_range 55296 57343 _) with false
        by (symmetry; apply not_true_is_false; rewrite in_range_spec;
            exact Hs).
      cbn [orb]. ltb_lia.
      rewrite E0, E1, E2, !chr_byte. reflexivity.
    - intros t. cbn [append]. unfold UTF8.DecodeRuneInString.
      destruct (Z.ltb_spec (UTF8.byte c0) 128); [lia|].
      apply in_range_spec in R3. now rewrite R2, R3, R1. }
  destruct (UTF8.in_range 240 244 (UTF8.byte c0)) eqn:R4; [|decode_error].
  destruct s1 as [|c1 [|c2 [|c3 s4]]];
    [decode_error|decode_error|decode_error|].
  destruct (UTF8.in_range _ _ (UTF8.byte c1)
            && UTF8.in_range 128 191 (UTF8.byte c2)
            && UTF8.in_range 128 191 (UTF8.byte c3)) eqn:R1;
    [|decode_error].
  intros E _ _. inversion E; subst; clear E.
  pose proof R1 as R1'. apply andb_true_iff in R1' as [Q1 Q3].
  apply andb_true_iff in Q1 as [Q1 Q2].
  apply in_range_spec in R4, Q1, Q2, Q3.
  destruct (enc4 _ _ _ _ R4 Q1 Q2 Q3) as (Hr & E0 & E1 & E2 & E3).
  split; [cbn [String.length]; lia|]. split.
  - unfold UTF8.EncodeRune, UTF8.cont in *. ltb_lia.
    replace (UTF8.in_range 55296 57343 _) with false
      by (symmetry; apply not_true_is_false; rewrite in_range_spec; lia).
    cbn [orb]. ltb_lia.
    rewrite E0, E1, E2, E3, !chr_byte. reflexivity.
  - intros t. cbn [append]. unfold UTF8.DecodeRuneInString.
    destruct (Z.ltb_spec (UTF8.byte c0) 128); [lia|].
    apply in_range_spec in R4. now rewrite R2, R3, R4, R1.
Qed.

Lemma String_nonempty (c : ascii) (s : string) : String c s <> "".
Proof. discriminate. Qed.

Lemma decode_pos (s : string) :
  s <> "" -> (1 <= snd (UTF8.DecodeRuneInString s))%nat.
Proof.
  destruct s as [|c0 s1]; [congruence|]. intros _.
  unfold UTF8.DecodeRuneInString.
  repeat match goal with
         | |- context [match ?x with _ => _ end] => destruct x
         end; cbn [snd]; lia.
Qed.

Lemma runes_fuel_enough (f1 : nat) :
  forall (f2 : nat) (s : string),
  (String.length s <= f1)%nat -> (String.length s <= f2)%nat ->
  UTF8.runes_fuel f1 s = UTF8.runes_fuel f2 s.
Proof.
  induction f1 as [|f1 IH]; intros f2 s H1 H2.
  - apply Nat.le_0_r, slen_zero in H1. subst. now destruct f2.
  - destruct s as [|c s]; [now destruct f2|].
    destruct f2 as [|f2]; [cbn [String.length] in H2; lia|].
    cbn [UTF8.runes_fuel].
    pose proof (decode_pos _ (String_nonempty c s)) as Hn.
    destruct (UTF8.DecodeRuneInString (String c s)) as [r n].
    cbn [snd] in Hn. f_equal.
    apply IH; rewrite slen_sdrop; cbn [String.length] in *; lia.
Qed.

Lemma valid_fuel_enough (f1 : nat) :
  forall (f2 : nat) (s : string),
  (String.length s <= f1)%nat -> (String.length s <= f2)%nat ->
  valid_utf8_fuel f1 s = valid_utf8_fuel f2 s.
Proof.
  induction f1 as [|f1 IH]; intros f2 s H1 H2.
  - apply Nat.le_0_r, slen_zero in H1. subst. now destruct f2.
  - destruct s as [|c s]; [now destruct f2|].
    destruct f2 as [|f2]; [cbn [String.length] in H2; lia|].
    cbn [valid_utf8_fuel].
    pose proof (decode_pos _ (String_nonempty c s)) as Hn.
    destruct (UTF8.DecodeRuneInString (String c s)) as [r n].
    cbn [snd] in Hn. f_equal.
    apply IH; rewrite slen_sdrop; cbn [String.length] in *; lia.
Qed.

Lemma runes_cons (s : string) (r : Z) (n : nat) :
  s <> "" -> UTF8.DecodeRuneInString s = (r, n) ->
  UTF8.runes s = r :: UTF8.runes (sdrop n s).
Proof.
  intros Hs E. pose proof (decode_pos s Hs) as Hn. rewrite E in Hn.
  cbn [snd] in Hn. unfold UTF8.runes.
  destruct s as [|c s]; [congruence|].
  cbn [String.length UTF8.runes_fuel]. rewrite E. f_equal.
  apply runes_fuel_enough; rewrite ?slen_sdrop; cbn [String.length]; lia.
Qed.

Lemma valid_cons (s : string) (r : Z) (n : nat) :
  s <> "" -> UTF8.DecodeRuneInString s = (r, n) ->
  valid_utf8 s
  = negb ((r =? UTF8.RuneError)%Z && (n =? 1)%nat)
    && valid_utf8 (sdrop n s).
Proof.
  intros Hs E. pose proof (decode_pos s Hs) as Hn. rewrite E in Hn.
  cbn [snd] in Hn. unfold valid_utf8.
  destruct s as [|c s]; [congruence|].
  cbn [String.length valid_utf8_fuel]. rewrite E. f_equal.
  apply valid_fuel_enough; rewrite ?slen_sdrop; cbn [String.length]; lia.
Qed.

Lemma runes_valid (k : nat) :
  forall s t : string,
  (String.length s <= k)%nat -> valid_utf8 s = true ->
  UTF8.runes (s ++ t) = (UTF8.runes s ++ UTF8.runes t)%list
  /\ UTF8.string_of_runes (UTF8.runes s) = s
  /\ valid_utf8 (s ++ t) = valid_utf8 t.
Proof.
  induction k as [|k IH]; intros s t Hk Hv.
  { apply Nat.le_0_r, slen_zero in Hk. subst. auto. }
  destruct s as [|c s]; [auto|].
  destruct (UTF8.DecodeRuneInString (String c s)) as [r n] eqn:E.
  rewrite (valid_cons _ r n (String_nonempty c s) E) in Hv.
  apply andb_true_iff in Hv as [Hr Hv]. apply negb_true_iff in Hr.
  destruct (decode_valid _ r n E (String_nonempty c s) Hr)
    as (Hn & Henc & Happ).
  assert (Hlen : (String.length (sdrop n (String c s)) <= k)%nat)
    by (rewrite slen_sdrop; cbn [String.length] in *; lia).
  destruct (IH _ t Hlen Hv) as (IH1 & IH2 & IH3).
  rewrite (runes_cons _ r n (String_nonempty c s) E).
  split; [|split].
  - rewrite (runes_cons (String c s ++ t) r n
               (String_nonempty c (s ++ t)) (Happ t)).
    rewrite sdrop_app_le by lia. now rewrite IH1.
  - unfold UTF8.string_of_runes in *. cbn [map concat_all].
    rewrite IH2, Henc. apply stake_sdrop.
  - rewrite (valid_cons (String c s ++ t) r n
               (String_nonempty c (s ++ t)) (Happ t)).
    rewrite Hr. cbn [negb andb]. rewrite sdrop_app_le by lia. exact IH3.
Qed.

Lemma stream_select_added
    (tf : ThinkingFilter.t) (upstream : UpstreamData)
    (written added : string) :
  valid_utf8 written = true -> valid_utf8 added = true -> added <> "" ->
  Phase upstream = "other" \/ Phase upstream = "tool_call" ->
  stream_select tf (List.length (UTF8.runes written)) upstream
    (written ++ added)
  = Some (added, "", List.length (UTF8.runes (written ++ added))).
Proof.
  intros Hw Ha Hne Hphase.
  destruct (runes_valid _ written added (Nat.le_refl _) Hw) as [Happ _].
  destruct (runes_valid _ added "" (Nat.le_refl _) Ha) as (_ & Hround & _).
  assert (Hnz : written ++ added <> "")
    by (destruct written; [exact Hne | discriminate]).
  rewrite (stream_select_snapshot tf _ upstream _ Hphase Hnz).
  assert (Hlen : (0 < List.length (UTF8.runes added))%nat).
  { destruct added as [|c added]; [congruence|].
    destruct (UTF8.DecodeRuneInString (String c added)) as [r n] eqn:E.
    rewrite (runes_cons _ r n (String_nonempty c added) E).
    cbn [List.length]. lia. }
  rewrite Happ, length_app.
  destruct (Nat.ltb_spec (List.length (UTF8.runes written))
              (List.length (UTF8.runes written)
               + List.length (UTF8.runes added))) as [_|Hge]; [|lia].
  now rewrite drop_app_length, Hround.
Qed.

(** X23. For well-formed UTF-8 text the conversion to runes and back is
    the identity, and the chat stream cuts a snapshot of phase other or
    tool_call that extends the text already counted down to exactly the
    text added, counting the runes of the whole snapshot from then on. *)
Theorem snapshot_cut_to_added_text
    (tf : ThinkingFilter.t) (upstream : UpstreamData)
    (written added : string) :
  valid_utf8 written = true -> valid_utf8 added = true -> added <> "" ->
  Phase upstream = "other" \/ Phase upstream = "tool_call" ->
  UTF8.string_of_runes (UTF8.runes added) = added
  /\ stream_select tf (List.length (UTF8.runes written)) upstream
       (written ++ added)
     = Some (added, "", List.length (UTF8.runes (written ++ added))).
Proof.
  intros Hw Ha Hne Hphase. split.
  - now destruct (runes_valid _ added "" (Nat.le_refl _) Ha)
      as (_ & Hround & _).
  - now apply stream_select_added.
Qed.

Lemma snapshot_cut_to_added_text_witness :
  UTF8.string_of_runes (UTF8.runes (CLOSE ++ "b")) = CLOSE ++ "b"
  /\ stream_select ThinkingFilter.zero
       (List.length (UTF8.runes ("a" ++ OPEN)))
       (edit_event "other" (("a" ++ OPEN) ++ CLOSE ++ "b"))
       (("a" ++ OPEN) ++ CLOSE ++ "b")
     = Some (CLOSE ++ "b", "",
             List.length (UTF8.runes (("a" ++ OPEN) ++ CLOSE ++ "b"))).
Proof.
  apply (snapshot_cut_to_added_text ThinkingFilter.zero
           (edit_event "other" (("a" ++ OPEN) ++ CLOSE ++ "b"))
           ("a" ++ OPEN) (CLOSE ++ "b")).
  - reflexivity.
  - reflexivity.
  - discriminate.
  - left. reflexivity.
Defined.

Lemma chat_snapshot_step (json : JSON) (now : Z)
    (completionID modelName : string) (st : StreamState)
    (line written added : string) :
  snapshot_line json line (written ++ added) ->
  valid_utf8 written = true -> valid_utf8 added = true -> added <> "" ->
  pendingSourcesMarkdown st = "" ->
  pendingImageSearchMarkdown st = "" ->
  ThinkingFilter.buffer (thinkingFilter st) = "" ->
  totalContentOutputLength st = List.length (UTF8.runes written) ->
  exists st' : StreamState,
    stream_step json now completionID modelName st line
    = Next st'
        (if String.eqb
              (fst (SearchRefFilter.Process (searchRefFilter st) added)) ""
         then []
         else [content_chunk now completionID modelName
                 (fst (SearchRefFilter.Process (searchRefFilter st)
                         added))])
    /\ searchRefFilter st'
       = snd (SearchRefFilter.Process (searchRefFilter st) added)
    /\ pendingSourcesMarkdown st' = ""
    /\ pendingImageSearchMarkdown st' = ""
    /\ ThinkingFilter.buffer (thinkingFilter st') = ""
    /\ totalContentOutputLength st'
       = List.length (UTF8.runes (written ++ added)).
Proof.
  intros (Hlong & Hpre & Hdone & u & Hu & Hph & Hg & Hne & H1 & H2 & H3)
    Hw Ha Hna Hp Hi Hb Ht.
  unfold stream_step.
  rewrite Hlong, Hpre, (eqb_false_of_neq _ _ Hdone), Hu, Hph, Hg.
  unfold IsSearchToolCall. rewrite H1, H2, H3, !andb_false_r.
  cbn [negb andb String.eqb Ascii.eqb Bool.eqb nonempty].
  unfold stream_content, ThinkingFilter.Flush.
  cbn [pendingSourcesMarkdown pendingImageSearchMarkdown thinkingFilter
       set_filters searchRefFilter hasContent totalContentOutputLength
       ThinkingFilter.set_lastPhase ThinkingFilter.buffer
       ThinkingFilter.set_buffer].
  rewrite Hp, Hi, Hb, Ht.
  cbn [negb andb orb String.eqb Ascii.eqb Bool.eqb app nonempty].
  rewrite (stream_select_added _ u written added Hw Ha Hna
             (or_introl Hph)).
  rewrite Hph.
  cbn [negb andb orb String.eqb Ascii.eqb Bool.eqb app nonempty].
  rewrite (eqb_false_of_neq _ _ Hna).
  destruct (SearchRefFilter.Process (searchRefFilter st) added)
    as [o sf]. cbn [fst snd].
  destruct (String.eqb o ""); eexists; (split; [reflexivity|]);
    cbn; auto.
Qed.

Lemma chat_snapshot_loop (json : JSON) (now : Z)
    (completionID modelName : string) (added : list string) :
  forall (written : string) (body : list string) (st : StreamState),
  Forall2 (snapshot_line json) body (snapshots written added) ->
  Forall (fun a => a <> "" /\ valid_utf8 a = true) added ->
  valid_utf8 written = true ->
  pendingSourcesMarkdown st = "" ->
  pendingImageSearchMarkdown st = "" ->
  ThinkingFilter.buffer (thinkingFilter st) = "" ->
  totalContentOutputLength st = List.length (UTF8.runes written) ->
  exists (st' : StreamState) (fragments : list string),
    run_loop (stream_step json now completionID modelName) st body
    = (Some st', map (content_chunk now completionID modelName) fragments)
    /\ Forall (fun x => x <> "") fragments
    /\ feed SearchRefFilter.Process (searchRefFilter st) added
       = (concat_all fragments, searchRefFilter st').
Proof.
  induction added as [|a added IH];
    intros written body st Hbody Hadd Hw Hp Hi Hb Ht;
    cbn [snapshots] in Hbody; inversion Hbody as [|line ? body' ? Hl Hrest];
    subst.
  - exists st, []. cbn. auto.
  - inversion Hadd as [|? ? [Hna Ha] Hadd']; subst.
    destruct (chat_snapshot_step json now completionID modelName st line
                written a Hl Hw Ha Hna Hp Hi Hb Ht)
      as (st1 & E & Hsf & Hp1 & Hi1 & Hb1 & Ht1).
    assert (Hw1 : valid_utf8 (written ++ a) = true).
    { destruct (runes_valid _ written a (Nat.le_refl _) Hw)
        as (_ & _ & ->). exact Ha. }
    cbn [run_loop feed]. rewrite E.
    destruct (IH (written ++ a) body' st1 Hrest Hadd' Hw1 Hp1 Hi1 Hb1 Ht1)
      as (st' & frs & R & Hfrs & F).
    rewrite R. rewrite Hsf in F.
    destruct (SearchRefFilter.Process (searchRefFilter st) a)
      as [o sf] eqn:EP. cbn [fst snd] in *. rewrite F.
    destruct (String.eqb_spec o "") as [->|Ho].
    + exists st', frs. auto.
    + exists st', (o :: frs). cbn [map concat_all app]. auto.
Qed.

(** X24. When the body is a run of snapshots of phase other, each the one
    before extended by a non-empty piece of well-formed UTF-8 text, and the
    whole text holds no citation token, handleStreamResponse writes
    content chunks whose fragments joined are the last snapshot: every
    piece is written once. *)
Theorem chat_stream_writes_each_piece_once
    (json : JSON) (now : Z) (completionID modelName : string)
    (body added : list string) :
  Forall2 (snapshot_line json) body (snapshots "" added) ->
  Forall (fun a => a <> "" /\ valid_utf8 a = true) added ->
  no_token (concat_all added) = true ->
  exists fragments : list string,
    Forall (fun x => x <> "") fragments
    /\ concat_all fragments = concat_all added
    /\ handleStreamResponse json now completionID modelName body
       = (map (content_chunk now completionID modelName) fragments
          ++ [mk_chunk now completionID modelName
                {| Content := ""; ReasoningContent := "" |} (Some "stop");
              DataDone])%list.
Proof.
  intros Hbody Hadd Hok.
  destruct (chat_snapshot_loop json now completionID modelName added ""
              body stream_initial Hbody Hadd eq_refl eq_refl eq_refl
              eq_refl eq_refl) as (st' & frs & R & Hfrs & F).
  pose proof (Process_feed_no_token added NewSearchRefFilter Hok) as HF.
  unfold feed_flush in HF. cbn [stream_initial searchRefFilter] in F.
  rewrite F in HF. cbn [SearchRefFilter.buffer NewSearchRefFilter append]
    in HF.
  unfold handleStreamResponse. rewrite R.
  destruct (SearchRefFilter.Flush (searchRefFilter st'))
    as [remaining f]. cbn [fst] in HF.
  destruct (String.eqb_spec remaining "") as [->|Hr].
  - exists frs. rewrite sapp_nil_r in HF. auto.
  - exists (frs ++ [remaining])%list. repeat split.
    + apply Forall_app. auto.
    + rewrite concat_all_app. cbn [concat_all]. now rewrite sapp_nil_r.
    + rewrite map_app, <- !app_assoc. reflexivity.
Qed.

Lemma chat_stream_writes_each_piece_once_witness :
  exists fragments : list string,
    Forall (fun x => x <> "") fragments
    /\ concat_all fragments = concat_all ["ab"; "c"; "de"]
    /\ handleStreamResponse sample_json 0 "chatcmpl-0" "m"
         (map sse_line
            [payload "other" "edit_content" "ab";
             payload "other" "edit_content" "abc";
             payload "other" "edit_content" "abcde"])
       = (map (content_chunk 0 "chatcmpl-0" "m") fragments
          ++ [mk_chunk 0 "chatcmpl-0" "m"
                {| Content := ""; ReasoningContent := "" |} (Some "stop");
              DataDone])%list.
Proof.
  apply (chat_stream_writes_each_piece_once sample_json 0 "chatcmpl-0" "m"
           (map sse_line
              [payload "other" "edit_content" "ab";
               payload "other" "edit_content" "abc";
               payload "other" "edit_content" "abcde"])
           ["ab"; "c"; "de"]).
  - cbn [snapshots map append].
    repeat (constructor;
            [split; [reflexivity|]; split; [reflexivity|];
             split; [intros H; vm_compute in H; discriminate H|];
             eexists; split; [vm_compute; reflexivity|];
             repeat split; try reflexivity; intros H; discriminate H|]).
    constructor.
  - repeat constructor; discriminate.
  - reflexivity.
Defined.

(** ** Reasoning, then the answer, on the chat stream *)

Lemma Process_no_open (f : SearchRefFilter.t) (content : string) :
  has_byte "227" content = false -> SearchRefFilter.buffer f = "" ->
  SearchRefFilter.Process f content = (content, f).
Proof.
  intros Hc Hb. rewrite Process_unfold, Hb. cbn [append].
  rewrite rewrite_no_open by auto.
  rewrite look_behind_none.
  - destruct f as [b m]. cbn in *. now subst.
  - intros h b -> Hh _. apply here_head in Hh as (t & -> & _).
    rewrite has_byte_app in Hc. cbn [has_byte] in Hc.
    rewrite Ascii.eqb_refl, orb_true_r in Hc. discriminate.
Qed.

Lemma has_byte_unquote (c : ascii) (n : nat) :
  forall s : string,
  (String.length s <= n)%nat -> has_byte c s = false ->
  has_byte c (unquote s) = false.
Proof.
  induction n as [|n IH]; intros s Hn Hs.
  { apply Nat.le_0_r, slen_zero in Hn. now subst. }
  destruct s as [|x s]; [reflexivity|].
  destruct (HasPrefix (String x s) MARK) eqn:HP.
  - apply HasPrefix_true in HP as [t Ht]. rewrite Ht in *.
    rewrite unquote_mark. rewrite has_byte_app in Hs |- *.
    apply orb_false_iff in Hs as [H1 H2].
    rewrite IH; auto.
    + change (has_byte c MARK)
        with (Ascii.eqb "010" c
              || (Ascii.eqb ">" c || (Ascii.eqb " " c || false))) in H1.
      change (has_byte c LF) with (Ascii.eqb "010" c || false).
      apply orb_false_iff in H1 as [-> _]. reflexivity.
    + rewrite slen_app in Hn.
      change (String.length MARK) with 3%nat in Hn. lia.
  - rewrite unquote_other by auto. cbn [has_byte] in *.
    apply orb_false_iff in Hs as [-> Hs]. cbn [orb].
    apply IH; auto. cbn [String.length] in Hn. lia.
Qed.

Lemma held_plain (held : string) :
  held = "" \/ held = LF \/ held = LF ++ ">" ->
  has_byte "227" held = false /\ unquote held = held.
Proof. intros [-> | [-> | ->]]; split; reflexivity. Qed.

Lemma set_seen_seen (f : ThinkingFilter.t) :
  ThinkingFilter.hasSeenFirstThinking f = true -> ThinkingFilter.set_seen f = f.
Proof. destruct f. cbn. now intros ->. Qed.

(** A thinking delta on the chat stream, for a thinking filter that is in
    its first round: [e] is the delta, or what follows the first marker in
    it when it is the first delta. *)
Lemma chat_thinking_step (json : JSON) (now : Z)
    (completionID modelName : string) (st : StreamState)
    (line d e : string) :
  thinking_delta_line json line d ->
  ThinkingFilter.ProcessThinking
    (ThinkingFilter.set_lastPhase (thinkingFilter st) "thinking") d
  = ThinkingFilter.normalize
      (ThinkingFilter.set_seen
         (ThinkingFilter.set_lastPhase (thinkingFilter st) "thinking")) e ->
  ThinkingFilter.lastPhase (thinkingFilter st) = "thinking"
  \/ ThinkingFilter.lastPhase (thinkingFilter st) = "" ->
  SearchRefFilter.buffer (searchRefFilter st) = "" ->
  has_byte "227" (ThinkingFilter.buffer (thinkingFilter st) ++ e) = false ->
  exists st' : StreamState,
    stream_step json now completionID modelName st line
    = Next st'
        (if String.eqb
              (fst (ThinkingFilter.hold_back
                      (unquote (ThinkingFilter.buffer (thinkingFilter st)
                                ++ e)))) ""
         then []
         else [reasoning_chunk now completionID modelName
                 (fst (ThinkingFilter.hold_back
                         (unquote (ThinkingFilter.buffer (thinkingFilter st)
                                   ++ e))))])
    /\ ThinkingFilter.hasSeenFirstThinking (thinkingFilter st') = true
    /\ ThinkingFilter.lastPhase (thinkingFilter st') = "thinking"
    /\ ThinkingFilter.buffer (thinkingFilter st')
       = snd (ThinkingFilter.hold_back
                (unquote (ThinkingFilter.buffer (thinkingFilter st) ++ e)))
    /\ searchRefFilter st' = searchRefFilter st
    /\ pendingSourcesMarkdown st' = pendingSourcesMarkdown st
    /\ pendingImageSearchMarkdown st' = pendingImageSearchMarkdown st.
Proof.
  intros (Hlong & Hpre & Hdone & u & Hu & Hph & Hd & Hne) HPT Hlast Hsf Hplain.
  unfold stream_step.
  rewrite Hlong, Hpre, (eqb_false_of_neq _ _ Hdone), Hu, Hph, Hd.
  unfold nonempty at 1. rewrite (eqb_false_of_neq _ _ Hne).
  cbn [negb andb String.eqb Ascii.eqb Bool.eqb].
  unfold stream_thinking. rewrite Hd.
  assert (Hnew : nonempty (ThinkingFilter.lastPhase (thinkingFilter st))
                 && negb (String.eqb
                            (ThinkingFilter.lastPhase (thinkingFilter st))
                            "thinking") = false)
    by (destruct Hlast as [-> | ->]; reflexivity).
  rewrite Hnew. cbn [andb]. rewrite HPT, normalize_unfold.
  cbn [ThinkingFilter.buffer ThinkingFilter.set_seen
       ThinkingFilter.set_lastPhase ThinkingFilter.set_buffer].
  set (z := unquote (ThinkingFilter.buffer (thinkingFilter st) ++ e)).
  assert (Hz : has_byte "227" (fst (ThinkingFilter.hold_back z)) = false).
  { pose proof (has_byte_unquote "227" _ _ (Nat.le_refl _) Hplain) as H.
    fold z in H. destruct (hold_back_sound z) as [Ez _].
    rewrite Ez, has_byte_app in H. now apply orb_false_iff in H as [H _]. }
  unfold nonempty.
  destruct (String.eqb_spec (fst (ThinkingFilter.hold_back z)) "")
    as [E|E]; cbn [negb].
  - eexists. split; [reflexivity|]. cbn. auto 10.
  - rewrite (Process_no_open _ _ Hz Hsf).
    rewrite (eqb_false_of_neq _ _ E). cbn [negb].
    eexists. split; [reflexivity|]. cbn. auto 10.
Qed.

Lemma chat_thinking_loop (json : JSON) (now : Z)
    (completionID modelName : string) (rest : list string)
    (deltas : list string) :
  forall (lines : list string) (st : StreamState),
  Forall2 (thinking_delta_line json) lines deltas ->
  ThinkingFilter.hasSeenFirstThinking (thinkingFilter st) = true ->
  ThinkingFilter.lastPhase (thinkingFilter st) = "thinking" ->
  (ThinkingFilter.buffer (thinkingFilter st) = ""
   \/ ThinkingFilter.buffer (thinkingFilter st) = LF
   \/ ThinkingFilter.buffer (thinkingFilter st) = LF ++ ">") ->
  SearchRefFilter.buffer (searchRefFilter st) = "" ->
  has_byte "227" (concat_all deltas) = false ->
  Contains (ThinkingFilter.buffer (thinkingFilter st) ++ concat_all deltas)
    NESTED = false ->
  exists (st' : StreamState) (fragments : list string),
    run_loop (stream_step json now completionID modelName) st
      (lines ++ rest)
    = (let '(r, outs) :=
         run_loop (stream_step json now completionID modelName) st' rest in
       (r, (map (reasoning_chunk now completionID modelName) fragments
            ++ outs)%list))
    /\ Forall (fun x => x <> "") fragments
    /\ concat_all fragments ++ ThinkingFilter.buffer (thinkingFilter st')
       = unquote (ThinkingFilter.buffer (thinkingFilter st)
                  ++ concat_all deltas)
    /\ (ThinkingFilter.buffer (thinkingFilter st') = ""
        \/ ThinkingFilter.buffer (thinkingFilter st') = LF
        \/ ThinkingFilter.buffer (thinkingFilter st') = LF ++ ">")
    /\ searchRefFilter st' = searchRefFilter st
    /\ pendingSourcesMarkdown st' = pendingSourcesMarkdown st
    /\ pendingImageSearchMarkdown st' = pendingImageSearchMarkdown st.
Proof.
  induction deltas as [|d deltas IH];
    intros lines st Hlines Hseen Hlast Hheld Hsf Hplain Hnest;
    inversion Hlines as [|line ? lines' ? Hl Hrest]; subst.
  - exists st, []. cbn [app map concat_all append].
    rewrite sapp_nil_r, (proj2 (held_plain _ Hheld)).
    split; [now destruct (run_loop _ st rest)|]. auto 10.
  - cbn [concat_all] in *. rewrite has_byte_app in Hplain.
    apply orb_false_iff in Hplain as [Hd Hds].
    rewrite <- sapp_assoc in Hnest.
    destruct (unquote_hold_back _
                (ThinkingFilter.buffer (thinkingFilter st) ++ d)
                (concat_all deltas) (Nat.le_refl _) Hnest) as [K1 K2].
    destruct (hold_back_sound
                (unquote (ThinkingFilter.buffer (thinkingFilter st) ++ d)))
      as [_ Hheld'].
    destruct (chat_thinking_step json now completionID modelName st line d d
                Hl) as (st1 & E & Hseen1 & Hlast1 & Hb1 & Hsf1 & Hp1 & Hi1).
    { unfold ThinkingFilter.ProcessThinking at 1.
      cbn [ThinkingFilter.hasSeenFirstThinking
           ThinkingFilter.set_lastPhase]. rewrite Hseen. cbn [negb].
      rewrite set_seen_seen; [reflexivity|]. exact Hseen. }
    { now left. }
    { exact Hsf. }
    { rewrite has_byte_app, Hd, (proj1 (held_plain _ Hheld)). reflexivity. }
    rewrite <- Hb1 in Hheld', K2.
    destruct (IH lines' st1 Hrest Hseen1 Hlast1 Hheld'
                ltac:(now rewrite Hsf1) Hds K2)
      as (st' & frs & R & Hfrs & Hcat & Hheld'' & Hsf' & Hp' & Hi').
    cbn [app run_loop]. rewrite E, R.
    set (r := fst (ThinkingFilter.hold_back
                     (unquote (ThinkingFilter.buffer (thinkingFilter st)
                               ++ d)))) in *.
    assert (Hall : r ++ concat_all frs
                   ++ ThinkingFilter.buffer (thinkingFilter st')
                   = unquote ((ThinkingFilter.buffer (thinkingFilter st)
                               ++ d) ++ concat_all deltas)).
    { rewrite Hcat, Hb1. symmetry. exact K1. }
    rewrite <- sapp_assoc.
    destruct (String.eqb_spec r "") as [Er|Er].
    + exists st', frs. rewrite Er in Hall. cbn [append] in Hall.
      split; [now destruct (run_loop _ st' rest)|].
      repeat split; auto; congruence.
    + exists st', (r :: frs). cbn [map concat_all app].
      split; [now destruct (run_loop _ st' rest)|].
      rewrite sapp_assoc.
      repeat split; auto; congruence.
Qed.

(** The first answer delta after the reasoning: what the thinking filter
    still holds is written as a last fragment of reasoning. *)
Lemma chat_answer_step_flush (json : JSON) (now : Z)
    (completionID modelName : string) (st : StreamState)
    (line delta : string) :
  answer_delta_line json line delta ->
  pendingSourcesMarkdown st = "" ->
  pendingImageSearchMarkdown st = "" ->
  (ThinkingFilter.buffer (thinkingFilter st) = ""
   \/ ThinkingFilter.buffer (thinkingFilter st) = LF
   \/ ThinkingFilter.buffer (thinkingFilter st) = LF ++ ">") ->
  SearchRefFilter.buffer (searchRefFilter st) = "" ->
  exists st' : StreamState,
    stream_step json now completionID modelName st line
    = Next st'
        ((if String.eqb (ThinkingFilter.buffer (thinkingFilter st)) ""
          then []
          else [reasoning_chunk now completionID modelName
                  (ThinkingFilter.buffer (thinkingFilter st))])
         ++ (if String.eqb
                  (fst (SearchRefFilter.Process (searchRefFilter st) delta))
                  ""
             then []
             else [content_chunk now completionID modelName
                     (fst (SearchRefFilter.Process (searchRefFilter st)
                             delta))]))%list
    /\ searchRefFilter st'
       = snd (SearchRefFilter.Process (searchRefFilter st) delta)
    /\ pendingSourcesMarkdown st' = ""
    /\ pendingImageSearchMarkdown st' = ""
    /\ ThinkingFilter.buffer (thinkingFilter st') = "".
Proof.
  intros (Hlong & Hpre & Hdone & u & Hu & Hph & Hd & He & Hne) Hp Hi Hheld
    Hsf.
  unfold stream_step.
  rewrite Hlong, Hpre, (eqb_false_of_neq _ _ Hdone), Hu, Hph.
  unfold GetEditContent. rewrite He.
  cbn [negb andb String.eqb Ascii.eqb Bool.eqb nonempty].
  unfold stream_content, stream_select, ThinkingFilter.Flush.
  cbn [pendingSourcesMarkdown pendingImageSearchMarkdown thinkingFilter
       set_filters searchRefFilter hasContent totalContentOutputLength
       ThinkingFilter.set_lastPhase ThinkingFilter.buffer
       ThinkingFilter.set_buffer].
  rewrite Hp, Hi, Hph, Hd.
  assert (Hn : nonempty delta = true)
    by (unfold nonempty; now rewrite (eqb_false_of_neq _ _ Hne)).
  destruct Hheld as [Hb | [Hb | Hb]]; rewrite Hb.
  - unfold nonempty. rewrite (eqb_false_of_neq _ _ Hne).
    cbn [negb andb orb String.eqb Ascii.eqb Bool.eqb app].
    rewrite (eqb_false_of_neq _ _ Hne).
    destruct (SearchRefFilter.Process (searchRefFilter st) delta)
      as [o sf]. cbn [fst snd].
    destruct (String.eqb o ""); eexists; (split; [reflexivity|]);
      cbn; auto.
  - change (nonempty LF) with true. cbv iota.
    rewrite (Process_no_open _ LF eq_refl Hsf).
    change (nonempty LF) with true. change (nonempty "") with false.
    change (String.eqb LF "") with false.
    cbn [negb andb orb app]. rewrite Hn.
    cbn [negb andb orb String.eqb Ascii.eqb Bool.eqb app nonempty].
    rewrite (eqb_false_of_neq _ _ Hne).
    destruct (SearchRefFilter.Process (searchRefFilter st) delta)
      as [o sf]. cbn [fst snd].
    destruct (String.eqb o ""); eexists; (split; [reflexivity|]);
      cbn; auto.
  - change (nonempty (LF ++ ">")) with true. cbv iota.
    rewrite (Process_no_open _ (LF ++ ">") eq_refl Hsf).
    change (nonempty (LF ++ ">")) with true.
    change (nonempty "") with false.
    change (String.eqb (LF ++ ">") "") with false.
    cbn [negb andb orb app]. rewrite Hn.
    cbn [negb andb orb String.eqb Ascii.eqb Bool.eqb app nonempty].
    rewrite (eqb_false_of_neq _ _ Hne).
    destruct (SearchRefFilter.Process (searchRefFilter st) delta)
      as [o sf]. cbn [fst snd].
    destruct (String.eqb o ""); eexists; (split; [reflexivity|]);
      cbn; auto.
Qed.

Lemma concat_all_if_nonempty (x : string) :
  concat_all (if String.eqb x "" then [] else [x]) = x
  /\ Forall (fun y => y <> "") (if String.eqb x "" then [] else [x]).
Proof.
  destruct (String.eqb_spec x "") as [->|H]; cbn [concat_all].
  - auto.
  - rewrite sapp_nil_r. auto.
Qed.

(** X25. When the body is a run of thinking deltas, the first of which
    carries the marker "> ", followed by a run of answer deltas, the
    reasoning text has no byte 0xE3 and no nested quote marker, and the
    answer text holds no citation token, handleStreamResponse writes
    reasoning chunks whose fragments joined are the reasoning text after
    the marker with every line-continuation marker replaced by a line
    feed, then content chunks whose fragments joined are the answer text,
    then the stop chunk and [data: [DONE]]. *)
Theorem chat_stream_reasoning_then_answer
    (json : JSON) (now : Z) (completionID modelName : string)
    (tline0 d0 : string) (idx : nat) (tlines tdeltas : list string)
    (aline0 a0 : string) (alines adeltas : list string) :
  thinking_delta_line json tline0 d0 ->
  Index d0 "> " = Some idx ->
  Forall2 (thinking_delta_line json) tlines tdeltas ->
  answer_delta_line json aline0 a0 ->
  Forall2 (answer_delta_line json) alines adeltas ->
  has_byte "227" (sdrop (idx + 2) d0 ++ concat_all tdeltas) = false ->
  Contains (sdrop (idx + 2) d0 ++ concat_all tdeltas) (LF ++ "> >")
  = false ->
  no_token (a0 ++ concat_all adeltas) = true ->
  exists reasoning content : list string,
    Forall (fun x => x <> "") reasoning
    /\ Forall (fun x => x <> "") content
    /\ concat_all reasoning
       = ReplaceAll (sdrop (idx + 2) d0 ++ concat_all tdeltas)
           (LF ++ "> ") LF
    /\ concat_all content = a0 ++ concat_all adeltas
    /\ handleStreamResponse json now completionID modelName
         (tline0 :: tlines ++ aline0 :: alines)
       = (map (reasoning_chunk now completionID modelName) reasoning
          ++ map (content_chunk now completionID modelName) content
          ++ [mk_chunk now completionID modelName
                {| Content := ""; ReasoningContent := "" |} (Some "stop");
              DataDone])%list.
Proof.
  intros Ht0 Hidx Ht Ha0 Ha Hplain Hnest Hok.
  set (e := sdrop (idx + 2) d0) in *.
  rewrite has_byte_app in Hplain.
  apply orb_false_iff in Hplain as [Hpe Hpt].
  (* the first thinking delta *)
  destruct (chat_thinking_step json now completionID modelName
              stream_initial tline0 d0 e Ht0)
    as (st1 & E1 & Hseen1 & Hlast1 & Hb1 & Hsf1 & Hp1 & Hi1).
  { unfold ThinkingFilter.ProcessThinking. cbn. now rewrite Hidx. }
  { now right. }
  { reflexivity. }
  { exact Hpe. }
  cbn [stream_initial thinkingFilter ThinkingFilter.zero
       ThinkingFilter.buffer append] in E1, Hb1.
  destruct (unquote_hold_back _ e (concat_all tdeltas) (Nat.le_refl _)
              Hnest) as [K1 K2].
  destruct (hold_back_sound (unquote e)) as [_ Hheld1].
  rewrite <- Hb1 in Hheld1, K2.
  (* the other thinking deltas *)
  destruct (chat_thinking_loop json now completionID modelName
              (aline0 :: alines) tdeltas tlines st1 Ht Hseen1 Hlast1
              Hheld1 ltac:(now rewrite Hsf1) Hpt K2)
    as (st2 & frs & R2 & Hfrs & Hcat & Hheld2 & Hsf2 & Hp2 & Hi2).
  (* the first answer delta *)
  destruct (chat_answer_step_flush json now completionID modelName st2
              aline0 a0 Ha0 ltac:(now rewrite Hp2, Hp1)
              ltac:(now rewrite Hi2, Hi1) Hheld2
              ltac:(now rewrite Hsf2, Hsf1))
    as (st3 & E3 & Hsf3 & Hp3 & Hi3 & Hb3).
  (* the other answer deltas *)
  destruct (chat_answer_loop json now completionID modelName alines adeltas
              Ha st3 Hp3 Hi3 Hb3) as (st4 & cfrs & R4 & Hcfrs & F4).
  pose proof (Process_feed_no_token (a0 :: adeltas) NewSearchRefFilter Hok)
    as HF.
  unfold feed_flush in HF. cbn [feed] in HF.
  rewrite Hsf2, Hsf1 in Hsf3, E3. rewrite Hsf3 in F4.
  cbn [stream_initial searchRefFilter] in *.
  destruct (SearchRefFilter.Process NewSearchRefFilter a0) as [o sf] eqn:EP.
  cbn [fst snd] in *. rewrite F4 in HF.
  cbn [SearchRefFilter.buffer NewSearchRefFilter append] in HF.
  unfold handleStreamResponse. cbn [run_loop]. rewrite E1, R2.
  cbn [run_loop]. rewrite E3, R4.
  destruct (SearchRefFilter.Flush (searchRefFilter st4)) as [remaining f].
  cbn [fst] in HF.
  set (r0 := fst (ThinkingFilter.hold_back (unquote e))) in *.
  set (held := ThinkingFilter.buffer (thinkingFilter st2)) in *.
  exists ((if String.eqb r0 "" then [] else [r0]) ++ frs
          ++ (if String.eqb held "" then [] else [held]))%list,
    ((if String.eqb o "" then [] else [o]) ++ cfrs
     ++ (if String.eqb remaining "" then [] else [remaining]))%list.
  repeat split.
  - apply Forall_app. split; [|apply Forall_app; split]; auto;
      apply concat_all_if_nonempty.
  - apply Forall_app. split; [|apply Forall_app; split]; auto;
      apply concat_all_if_nonempty.
  - rewrite !concat_all_app.
    rewrite !(proj1 (concat_all_if_nonempty _)).
    rewrite Hcat, Hb1. symmetry. exact K1.
  - rewrite !concat_all_app.
    rewrite !(proj1 (concat_all_if_nonempty _)).
    cbn [concat_all] in HF. rewrite <- HF. now rewrite !sapp_assoc.
  - rewrite !map_app.
    destruct (String.eqb r0 ""), (String.eqb held ""), (String.eqb o ""),
      (String.eqb remaining ""); cbn [map app];
      rewrite <- ?app_assoc; cbn [app]; rewrite ?app_nil_r; reflexivity.
Qed.

Lemma chat_stream_reasoning_then_answer_witness :
  exists reasoning content : list string,
    Forall (fun x => x <> "") reasoning
    /\ Forall (fun x => x <> "") content
    /\ concat_all reasoning
       = ReplaceAll (sdrop (0 + 2) "> hello" ++ concat_all [])
           (LF ++ "> ") LF
    /\ concat_all content = "Hi" ++ concat_all []
    /\ handleStreamResponse sample_json 0 "chatcmpl-0" "m"
         (sse_line (payload "thinking" "delta_content" "> hello")
          :: [] ++ sse_line (payload "answer" "delta_content" "Hi") :: [])
       = (map (reasoning_chunk 0 "chatcmpl-0" "m") reasoning
          ++ map (content_chunk 0 "chatcmpl-0" "m") content
          ++ [mk_chunk 0 "chatcmpl-0" "m"
                {| Content := ""; ReasoningContent := "" |} (Some "stop");
              DataDone])%list.
Proof.
  apply (chat_stream_reasoning_then_answer sample_json 0 "chatcmpl-0" "m"
           (sse_line (payload "thinking" "delta_content" "> hello"))
           "> hello" 0 [] []
           (sse_line (payload "answer" "delta_content" "Hi")) "Hi" [] []).
  - split; [reflexivity|]. split; [reflexivity|].
    split; [intros H; vm_compute in H; discriminate H|].
    exists (delta_event "thinking" "> hello").
    split; [vm_compute; reflexivity|].
    repeat split; try reflexivity. intros H; discriminate H.
  - reflexivity.
  - constructor.
  - split; [reflexivity|]. split; [reflexivity|].
    split; [intros H; vm_compute in H; discriminate H|].
    exists (delta_event "answer" "Hi").
    split; [vm_compute; reflexivity|].
    repeat split; try reflexivity. intros H; discriminate H.
  - constructor.
  - reflexivity.
  - reflexivity.
  - reflexivity.
Defined.

Lemma collect_thinking_step (json : JSON) (st : CollectState)
    (line d e : string) :
  thinking_delta_line json line d ->
  ThinkingFilter.ProcessThinking
    (ThinkingFilter.set_lastPhase (n_thinkingFilter st) "thinking") d
  = ThinkingFilter.normalize
      (ThinkingFilter.set_seen
         (ThinkingFilter.set_lastPhase (n_thinkingFilter st) "thinking")) e ->
  ThinkingFilter.lastPhase (n_thinkingFilter st) = "thinking"
  \/ ThinkingFilter.lastPhase (n_thinkingFilter st) = "" ->
  exists st' : CollectState,
    collect_step json st line
    = Next st'
        (if String.eqb
              (fst (ThinkingFilter.hold_back
                      (unquote (ThinkingFilter.buffer (n_thinkingFilter st)
                                ++ e)))) ""
         then []
         else [ReasoningChunk
                 (fst (ThinkingFilter.hold_back
                         (unquote
                            (ThinkingFilter.buffer (n_thinkingFilter st)
                             ++ e))))])
    /\ ThinkingFilter.hasSeenFirstThinking (n_thinkingFilter st') = true
    /\ ThinkingFilter.lastPhase (n_thinkingFilter st') = "thinking"
    /\ ThinkingFilter.buffer (n_thinkingFilter st')
       = snd (ThinkingFilter.hold_back
                (unquote (ThinkingFilter.buffer (n_thinkingFilter st)
                          ++ e)))
    /\ n_searchRefFilter st' = n_searchRefFilter st
    /\ n_pendingSourcesMarkdown st' = n_pendingSourcesMarkdown st
    /\ n_pendingImageSearchMarkdown st' = n_pendingImageSearchMarkdown st.
Proof.
  intros (Hlong & Hpre & Hdone & u & Hu & Hph & Hd & Hne) HPT Hlast.
  unfold collect_step.
  rewrite Hlong, Hpre, (eqb_false_of_neq _ _ Hdone), Hu, Hph, Hd.
  unfold nonempty at 1. rewrite (eqb_false_of_neq _ _ Hne).
  cbn [negb andb String.eqb Ascii.eqb Bool.eqb].
  unfold collect_thinking. rewrite Hd.
  assert (Hnew : nonempty (ThinkingFilter.lastPhase (n_thinkingFilter st))
                 && negb (String.eqb
                            (ThinkingFilter.lastPhase (n_thinkingFilter st))
                            "thinking") = false)
    by (destruct Hlast as [-> | ->]; reflexivity).
  rewrite Hnew. cbn [andb]. rewrite HPT, normalize_unfold.
  cbn [ThinkingFilter.buffer ThinkingFilter.set_seen
       ThinkingFilter.set_lastPhase ThinkingFilter.set_buffer].
  set (z := unquote (ThinkingFilter.buffer (n_thinkingFilter st) ++ e)).
  unfold nonempty.
  destruct (String.eqb_spec (fst (ThinkingFilter.hold_back z)) "")
    as [E|E]; cbn [negb app].
  - eexists. split; [reflexivity|]. cbn. auto 10.
  - eexists. split; [reflexivity|]. cbn. auto 10.
Qed.

Lemma collect_thinking_loop (json : JSON) (rest : list string)
    (deltas : list string) :
  forall (lines : list string) (st : CollectState),
  Forall2 (thinking_delta_line json) lines deltas ->
  ThinkingFilter.hasSeenFirstThinking (n_thinkingFilter st) = true ->
  ThinkingFilter.lastPhase (n_thinkingFilter st) = "thinking" ->
  (ThinkingFilter.buffer (n_thinkingFilter st) = ""
   \/ ThinkingFilter.buffer (n_thinkingFilter st) = LF
   \/ ThinkingFilter.buffer (n_thinkingFilter st) = LF ++ ">") ->
  Contains (ThinkingFilter.buffer (n_thinkingFilter st)
            ++ concat_all deltas) NESTED = false ->
  exists (st' : CollectState) (fragments : list string),
    run_loop (collect_step json) st (lines ++ rest)
    = (let '(r, outs) := run_loop (collect_step json) st' rest in
       (r, (map ReasoningChunk fragments ++ outs)%list))
    /\ concat_all fragments ++ ThinkingFilter.buffer (n_thinkingFilter st')
       = unquote (ThinkingFilter.buffer (n_thinkingFilter st)
                  ++ concat_all deltas)
    /\ (ThinkingFilter.buffer (n_thinkingFilter st') = ""
        \/ ThinkingFilter.buffer (n_thinkingFilter st') = LF
        \/ ThinkingFilter.buffer (n_thinkingFilter st') = LF ++ ">")
    /\ n_searchRefFilter st' = n_searchRefFilter st
    /\ n_pendingSourcesMarkdown st' = n_pendingSourcesMarkdown st
    /\ n_pendingImageSearchMarkdown st' = n_pendingImageSearchMarkdown st.
Proof.
  induction deltas as [|d deltas IH];
    intros lines st Hlines Hseen Hlast Hheld Hnest;
    inversion Hlines as [|line ? lines' ? Hl Hrest]; subst.
  - exists st, []. cbn [app map concat_all append].
    rewrite sapp_nil_r, (proj2 (held_plain _ Hheld)).
    split; [now destruct (run_loop _ st rest)|]. auto 10.
  - cbn [concat_all] in *. rewrite <- sapp_assoc in Hnest.
    destruct (unquote_hold_back _
                (ThinkingFilter.buffer (n_thinkingFilter st) ++ d)
                (concat_all deltas) (Nat.le_refl _) Hnest) as [K1 K2].
    destruct (hold_back_sound
                (unquote (ThinkingFilter.buffer (n_thinkingFilter st)
                          ++ d))) as [_ Hheld'].
    destruct (collect_thinking_step json st line d d Hl)
      as (st1 & E & Hseen1 & Hlast1 & Hb1 & Hsf1 & Hp1 & Hi1).
    { unfold ThinkingFilter.ProcessThinking at 1.
      cbn [ThinkingFilter.hasSeenFirstThinking
           ThinkingFilter.set_lastPhase]. rewrite Hseen. cbn [negb].
      rewrite set_seen_seen; [reflexivity|]. exact Hseen. }
    { now left. }
    rewrite <- Hb1 in Hheld', K2.
    destruct (IH lines' st1 Hrest Hseen1 Hlast1 Hheld' K2)
      as (st' & frs & R & Hcat & Hheld'' & Hsf' & Hp' & Hi').
    cbn [app run_loop]. rewrite E, R.
    set (r := fst (ThinkingFilter.hold_back
                     (unquote (ThinkingFilter.buffer (n_thinkingFilter st)
                               ++ d)))) in *.
    assert (Hall : r ++ concat_all frs
                   ++ ThinkingFilter.buffer (n_thinkingFilter st')
                   = unquote ((ThinkingFilter.buffer (n_thinkingFilter st)
                               ++ d) ++ concat_all deltas)).
    { rewrite Hcat, Hb1. symmetry. exact K1. }
    rewrite <- sapp_assoc.
    destruct (String.eqb_spec r "") as [Er|Er].
    + exists st', frs. rewrite Er in Hall. cbn [append] in Hall.
      split; [now destruct (run_loop _ st' rest)|].
      repeat split; auto; congruence.
    + exists st', (r :: frs). cbn [map concat_all app].
      split; [now destruct (run_loop _ st' rest)|].
      rewrite sapp_assoc.
      repeat split; auto; congruence.
Qed.

Lemma chunks_of_app (a b : list Collected) :
  chunks_of (a ++ b) = (chunks_of a ++ chunks_of b)%list
  /\ reasoningChunks_of (a ++ b)
     = (reasoningChunks_of a ++ reasoningChunks_of b)%list.
Proof. unfold chunks_of, reasoningChunks_of. now rewrite !flat_map_app. Qed.

Lemma reasoningChunks_of_map (l : list string) :
  chunks_of (map ReasoningChunk l) = []
  /\ reasoningChunks_of (map ReasoningChunk l) = l.
Proof.
  unfold chunks_of, reasoningChunks_of.
  induction l as [|x l [IH1 IH2]]; cbn; auto. now rewrite IH1, IH2.
Qed.

(** X26. When the body is a run of thinking deltas, the first of which
    carries the marker "> ", followed by answer deltas, the reasoning text
    has no byte 0xE3 and no nested quote marker, and the answer text holds
    no citation token, handleNonStreamResponse answers with the answer
    text as content and, as reasoning, the reasoning text with its
    line-continuation markers replaced, short of what the thinking filter
    holds back at the end (nothing, a line feed, or a line feed and ">"):
    this handler never flushes the thinking filter. *)
Theorem chat_response_reasoning_and_answer
    (json : JSON) (now : Z) (completionID modelName : string)
    (tline0 d0 : string) (idx : nat) (tlines tdeltas : list string)
    (alines adeltas : list string) :
  thinking_delta_line json tline0 d0 ->
  Index d0 "> " = Some idx ->
  Forall2 (thinking_delta_line json) tlines tdeltas ->
  Forall2 (answer_delta_line json) alines adeltas ->
  has_byte "227" (sdrop (idx + 2) d0 ++ concat_all tdeltas) = false ->
  Contains (sdrop (idx + 2) d0 ++ concat_all tdeltas) (LF ++ "> >")
  = false ->
  no_token (concat_all adeltas) = true ->
  exists reasoning held : string,
    (held = "" \/ held = LF \/ held = LF ++ ">")
    /\ reasoning ++ held
       = ReplaceAll (sdrop (idx + 2) d0 ++ concat_all tdeltas)
           (LF ++ "> ") LF
    /\ handleNonStreamResponse json now completionID modelName
         (tline0 :: tlines ++ alines)
       = Some {| RID := completionID; RObject := "chat.completion";
                 RCreated := now; RModel := modelName;
                 RChoices :=
                   [{| RCIndex := 0;
                       RCMessage :=
                         {| MRole := "assistant";
                            MContent := concat_all adeltas;
                            MReasoningContent := reasoning |};
                       RCFinishReason := Some "stop" |}] |}.
Proof.
  intros Ht0 Hidx Ht Ha Hplain Hnest Hok.
  set (e := sdrop (idx + 2) d0) in *.
  destruct (collect_thinking_step json collect_initial tline0 d0 e Ht0)
    as (st1 & E1 & Hseen1 & Hlast1 & Hb1 & Hsf1 & Hp1 & Hi1).
  { unfold ThinkingFilter.ProcessThinking. cbn. now rewrite Hidx. }
  { now right. }
  cbn [collect_initial n_thinkingFilter ThinkingFilter.zero
       ThinkingFilter.buffer append] in E1, Hb1.
  destruct (unquote_hold_back _ e (concat_all tdeltas) (Nat.le_refl _)
              Hnest) as [K1 K2].
  destruct (hold_back_sound (unquote e)) as [_ Hheld1].
  rewrite <- Hb1 in Hheld1, K2.
  destruct (collect_thinking_loop json alines tdeltas tlines st1 Ht Hseen1
              Hlast1 Hheld1 K2)
    as (st2 & frs & R2 & Hcat & Hheld2 & Hsf2 & Hp2 & Hi2).
  destruct (chat_collect_loop json alines adeltas Ha st2
              ltac:(now rewrite Hp2, Hp1) ltac:(now rewrite Hi2, Hi1))
    as (st3 & R3 & Hsf3).
  set (r0 := fst (ThinkingFilter.hold_back (unquote e))) in *.
  set (held := ThinkingFilter.buffer (n_thinkingFilter st2)) in *.
  set (rs := ((if String.eqb r0 "" then [] else [r0]) ++ frs)%list).
  assert (Hrs : concat_all rs ++ held = unquote (e ++ concat_all tdeltas)).
  { unfold rs. rewrite concat_all_app.
    rewrite (proj1 (concat_all_if_nonempty r0)).
    rewrite sapp_assoc, Hcat, Hb1. symmetry. exact K1. }
  exists (concat_all rs), held. split; [exact Hheld2|].
  split; [exact Hrs|].
  unfold handleNonStreamResponse. cbn [run_loop]. rewrite E1, R2, R3.
  assert (Hout : chunks_of
                   ((if String.eqb r0 "" then [] else [ReasoningChunk r0])
                    ++ map ReasoningChunk frs ++ map Chunk adeltas)
                 = adeltas
                 /\ reasoningChunks_of
                      ((if String.eqb r0 "" then []
                        else [ReasoningChunk r0])
                       ++ map ReasoningChunk frs ++ map Chunk adeltas)
                    = rs).
  { unfold rs.
    destruct (chunks_of_app
                (if String.eqb r0 "" then [] else [ReasoningChunk r0])
                (map ReasoningChunk frs ++ map Chunk adeltas)) as [-> ->].
    destruct (chunks_of_app (map ReasoningChunk frs) (map Chunk adeltas))
      as [-> ->].
    destruct (reasoningChunks_of_map frs) as [-> ->].
    destruct (chunks_of_map adeltas) as [-> ->].
    destruct (String.eqb r0 ""); cbn; now rewrite ?app_nil_r. }
  destruct Hout as [-> ->].
  rewrite Hsf3, Hsf2, Hsf1. cbn [collect_initial n_searchRefFilter].
  rewrite process_all_unfold by reflexivity.
  rewrite process_all_unfold by reflexivity.
  rewrite rewrite_no_token by exact Hok.
  rewrite rewrite_no_open; [reflexivity|].
  pose proof (has_byte_unquote "227" _ _ (Nat.le_refl _) Hplain) as H.
  rewrite <- Hrs, has_byte_app in H.
  now apply orb_false_iff in H as [H _].
Qed.

Lemma chat_response_reasoning_and_answer_witness :
  exists reasoning held : string,
    (held = "" \/ held = LF \/ held = LF ++ ">")
    /\ reasoning ++ held
       = ReplaceAll (sdrop (0 + 2) "> hello" ++ concat_all [])
           (LF ++ "> ") LF
    /\ handleNonStreamResponse sample_json 0 "chatcmpl-0" "m"
         (sse_line (payload "thinking" "delta_content" "> hello")
          :: [] ++ [sse_line (payload "answer" "delta_content" "Hi")])
       = Some {| RID := "chatcmpl-0"; RObject := "chat.completion";
                 RCreated := 0; RModel := "m";
                 RChoices :=
                   [{| RCIndex := 0;
                       RCMessage :=
                         {| MRole := "assistant";
                            MContent := concat_all ["Hi"];
                            MReasoningContent := reasoning |};
                       RCFinishReason := Some "stop" |}] |}.
Proof.
  apply (chat_response_reasoning_and_answer sample_json 0 "chatcmpl-0" "m"
           (sse_line (payload "thinking" "delta_content" "> hello"))
           "> hello" 0 [] []
           [sse_line (payload "answer" "delta_content" "Hi")] ["Hi"]).
  - split; [reflexivity|]. split; [reflexivity|].
    split; [intros H; vm_compute in H; discriminate H|].
    exists (delta_event "thinking" "> hello").
    split; [vm_compute; reflexivity|].
    repeat split; try reflexivity. intros H; discriminate H.
  - reflexivity.
  - constructor.
  - constructor; [|constructor].
    split; [reflexivity|]. split; [reflexivity|].
    split; [intros H; vm_compute in H; discriminate H|].
    exists (delta_event "answer" "Hi").
    split; [vm_compute; reflexivity|].
    repeat split; try reflexivity. intros H; discriminate H.
  - reflexivity.
  - reflexivity.
  - reflexivity.
Defined.
